(** * chat-with-any-website: the React front end, embedded and verified

    The front end is four components wired by a root [App]:
    [SystemInfo], [URLInput], [VectorSelection] and [ChatBox].  Every
    event handler is an [async] function over [useState] cells that talks
    to the backend through axios.  The embedding keeps that shape:

    - JavaScript strings are sequences of UTF-16 code units, JSON scalars
      are a small tagged union with JavaScript truthiness and [===];
    - a handler is a program in a free monad [Prog] whose instructions are
      [setState] calls, prop callbacks, [Date.now()] and [await axios...];
      the handler is a function of the render it was created in, so the
      values it closes over are the ones of that render;
    - [exec] runs a program up to its next [await]; what remains is the
      continuation the event loop resumes when the request settles;
    - [App] composes the components, owns the selected site and the pool
      of requests in flight, and steps on user and network events. *)

From Stdlib Require Import List String Ascii ZArith NArith Bool Lia DecimalString.
Import ListNotations.

Set Implicit Arguments.

(* ===================================================================== *)
(** ** JavaScript strings and scalars *)
(* ===================================================================== *)

Module Js.

(** A JavaScript string: its UTF-16 code units. *)
Definition jsstring := list N.

(** ASCII source text as a JavaScript string. *)
Definition lit (s : string) : jsstring :=
  map N_of_ascii (list_ascii_of_string s).
Arguments lit s%_string.

(** [WhiteSpace] and [LineTerminator] of ECMAScript, the code units
    [String.prototype.trim] strips. *)
Definition isWhiteSpace (c : N) : bool :=
  ((9 <=? c) && (c <=? 13)              (* TAB LF VT FF CR *)
   || (c =? 32)                         (* SPACE *)
   || (c =? 160)                        (* NO-BREAK SPACE *)
   || (c =? 5760)                       (* U+1680 *)
   || ((8192 <=? c) && (c <=? 8202))    (* U+2000 .. U+200A *)
   || (c =? 8232) || (c =? 8233)        (* U+2028 U+2029 *)
   || (c =? 8239) || (c =? 8287)        (* U+202F U+205F *)
   || (c =? 12288)                      (* U+3000 *)
   || (c =? 65279))%N.                  (* U+FEFF *)

Fixpoint trimStart (s : jsstring) : jsstring :=
  match s with
  | c :: s' => if isWhiteSpace c then trimStart s' else s
  | [] => []
  end.

Definition trimEnd (s : jsstring) : jsstring := rev (trimStart (rev s)).

(** [s.trim()] *)
Definition trim (s : jsstring) : jsstring := trimEnd (trimStart s).

(** A string made of white space only (the empty string included). *)
Definition blank (s : jsstring) : bool := forallb isWhiteSpace s.

Fixpoint startsWith (s p : jsstring) : bool :=
  match p, s with
  | [], _ => true
  | _ :: _, [] => false
  | a :: p', b :: s' => (a =? b)%N && startsWith s' p'
  end.

(** [s.includes(p)] *)
Fixpoint includes (s p : jsstring) : bool :=
  startsWith s p ||
  match s with
  | [] => false
  | _ :: s' => includes s' p
  end.

(** A JSON scalar as a handler sees it after [JSON.parse]; [JUndefined]
    is what reading an absent field gives.  Numbers are the integers the
    backend sends (primary keys and counts). *)
Inductive jsval : Type :=
| JUndefined
| JNull
| JBool (b : bool)
| JNum (n : Z)
| JStr (s : jsstring).

(** ToBoolean *)
Definition truthy (v : jsval) : bool :=
  match v with
  | JUndefined | JNull => false
  | JBool b => b
  | JNum n => negb (n =? 0)%Z
  | JStr s => match s with [] => false | _ => true end
  end.

Definition jsstring_eqb (a b : jsstring) : bool :=
  if list_eq_dec N.eq_dec a b then true else false.

(** [a === b] *)
Definition strict_eq (a b : jsval) : bool :=
  match a, b with
  | JUndefined, JUndefined => true
  | JNull, JNull => true
  | JBool x, JBool y => Bool.eqb x y
  | JNum x, JNum y => (x =? y)%Z
  | JStr x, JStr y => jsstring_eqb x y
  | _, _ => false
  end.

(** ToString, as a template literal applies it (the decimal digits of
    an integer, which is what JavaScript prints below [10^21]). *)
Definition toString (v : jsval) : jsstring :=
  match v with
  | JUndefined => lit "undefined"
  | JNull => lit "null"
  | JBool true => lit "true"
  | JBool false => lit "false"
  | JNum n => lit (NilZero.string_of_int (Z.to_int n))
  | JStr s => s
  end.

(** [a || b] on a string that may be absent: the first operand when it is
    truthy, else the second. *)
Definition or_else (a : option jsstring) (b : jsstring) : jsstring :=
  match a with
  | Some (c :: s) => c :: s
  | _ => b
  end.

End Js.
Import Js.

(* ===================================================================== *)
(** ** The REST contract *)
(* ===================================================================== *)

(** A row of [GET /api/websites/]. *)
Record Website : Type := {
  id : jsval;
  url : jsval;
  title : jsval;
  vector_db_id : jsval;
  date_scraped : jsval
}.

(** The body of [GET /api/websites/system_info/]. *)
Record SystemInfoData : Type := {
  ollama_running : jsval;
  vectorized_databases : list jsval;
  websites : list Website
}.

(** The body of a successful [POST /api/websites/scrape/];
    [scraped_vector_db_id] is its [vector_db_id] field. *)
Record ScrapeData : Type := {
  website_id : jsval;
  scraped_vector_db_id : jsval;
  pages_scraped : jsval
}.

(** The body of a successful [POST /api/websites/chat/]. *)
Record ChatData : Type := { answer : jsval }.

(** What a rejected axios promise carries: [err.response?.data?.error]
    (absent when there is no response or no such field) and
    [err.message]. *)
Record AxiosError : Type := {
  response_data_error : option jsstring;
  message : jsstring
}.

(** The axios calls of the front end, indexed by the type of
    [response.data]. *)
Inductive Request : Type -> Type :=
| GetWebsites : Request (list Website)
| GetSystemInfo : Request SystemInfoData
| PostScrape (url : jsstring) : Request ScrapeData
| PostChat (vector_db_id : jsval) (query : jsstring) : Request ChatData
| PostDelete (vector_db_id : jsval) : Request unit.

Inductive Method : Type := GET | POST.

(** A request as it goes on the wire: method, path and the fields of the
    JSON body in the order the object literal lists them. *)
Record HttpRequest : Type := {
  http_method : Method;
  http_path : string;
  http_body : list (string * jsval)
}.

Definition wire {R : Type} (r : Request R) : HttpRequest :=
  match r with
  | GetWebsites => {| http_method := GET; http_path := "/api/websites/"; http_body := [] |}
  | GetSystemInfo =>
      {| http_method := GET; http_path := "/api/websites/system_info/"; http_body := [] |}
  | PostScrape u =>
      {| http_method := POST; http_path := "/api/websites/scrape/";
         http_body := [("url"%string, JStr u)] |}
  | PostChat v q =>
      {| http_method := POST; http_path := "/api/websites/chat/";
         http_body := [("vector_db_id"%string, v); ("query"%string, JStr q)] |}
  | PostDelete v =>
      {| http_method := POST; http_path := "/api/websites/delete_vectorized_data/";
         http_body := [("vector_db_id"%string, v)] |}
  end.

(** The object both [URLInput] and [VectorSelection] hand to the root;
    [sel_url] is its [url] field. *)
Record Selection : Type := {
  websiteId : jsval;
  vectorDbId : jsval;
  sel_url : jsval
}.

(** Calls of the props the root passes down. *)
Inductive Callback : Type :=
| OnWebsiteVectorized (w : Selection)
| OnSelectWebsite (w : option Selection).

(* ===================================================================== *)
(** ** Handlers as programs *)
(* ===================================================================== *)

(** An async handler over component state [S].  [SetState f] is a state
    setter ([f] is the updater; a plain [setX v] is the constant
    updater), [Emit] calls a prop, [DateNow] reads the clock and [Await]
    suspends on an axios promise; its continuation gets the rejection or
    [response.data]. *)
Inductive Prog (S A : Type) : Type :=
| Ret (a : A)
| SetState (f : S -> S) (k : Prog S A)
| Emit (c : Callback) (k : Prog S A)
| DateNow (k : Z -> Prog S A)
| Await (R : Type) (r : Request R) (k : AxiosError + R -> Prog S A).

Arguments Ret {S A} a.
Arguments DateNow {S A} k.
Arguments Await {S A R} r k.

Fixpoint bind {S A B : Type} (p : Prog S A) (f : A -> Prog S B) : Prog S B :=
  match p with
  | Ret a => f a
  | SetState g k => SetState g (bind k f)
  | Emit c k => Emit c (bind k f)
  | DateNow k => DateNow (fun t => bind (k t) f)
  | Await r k => Await r (fun o => bind (k o) f)
  end.

Declare Scope prog_scope.
Delimit Scope prog_scope with prog.
Notation "x <- p ;; q" := (bind p (fun x => q))
  (at level 61, p at next level, right associativity) : prog_scope.
Notation "p ;; q" := (bind p (fun _ => q))
  (at level 61, right associativity) : prog_scope.
Open Scope prog_scope.

Definition set {S : Type} (f : S -> S) : Prog S unit := SetState f (Ret tt).
Definition emit {S : Type} (c : Callback) : Prog S unit := Emit c (Ret tt).
Definition Date_now {S : Type} : Prog S Z := DateNow (fun t => Ret t).
(** [if (prop) { ... }] on an optional prop. *)
Definition when {S : Type} (given : bool) (p : Prog S unit) : Prog S unit :=
  if given then p else Ret tt.
Definition axios {S R : Type} (r : Request R) : Prog S (AxiosError + R) :=
  Await r (fun o => Ret o).

(** A handler parked at an [await]: the request it sent and the rest of
    the function. *)
Record Paused (S : Type) : Type := {
  resp : Type;
  sent : Request resp;
  resume : AxiosError + resp -> Prog S unit
}.

(** Run a handler from state [st] until it returns or awaits; [now] is
    what [Date.now()] reads during this turn of the event loop.  The
    result is the new state, the prop calls made, and the parked rest. *)
Fixpoint exec {S : Type} (now : Z) (p : Prog S unit) (st : S)
  : S * list Callback * option (Paused S) :=
  match p with
  | Ret _ => (st, [], None)
  | SetState f k => exec now k (f st)
  | Emit c k =>
      let '(st', cs, q) := exec now k st in (st', c :: cs, q)
  | DateNow k => exec now (k now) st
  | Await r k => (st, [], Some {| sent := r; resume := k |})
  end.

(* ===================================================================== *)
(** ** ChatBox.jsx *)
(* ===================================================================== *)

Module ChatBox.

Inductive Sender : Type := user | ai | system.

(** A transcript entry.  [isError] is [false] where the object literal
    leaves the field out. *)
Record Message : Type := {
  id : Z;
  text : jsval;
  sender : Sender;
  isError : bool
}.

(** The [useState] cells of the component. *)
Record State : Type := {
  messages : list Message;
  input : jsstring;
  isLoading : bool
}.

Definition init : State :=
  {| messages := []; input := []; isLoading := false |}.

Definition setMessages (f : list Message -> list Message) : Prog State unit :=
  set (fun st => {| messages := f (messages st); input := input st;
                    isLoading := isLoading st |}).

Definition setInput (v : jsstring) : Prog State unit :=
  set (fun st => {| messages := messages st; input := v;
                    isLoading := isLoading st |}).

Definition setIsLoading (b : bool) : Prog State unit :=
  set (fun st => {| messages := messages st; input := input st;
                    isLoading := b |}).

(** [useEffect(() => { setMessages([]) }, [selectedWebsite])] *)
Definition clearChat : Prog State unit := setMessages (fun _ => []).

Definition errorText : jsstring :=
  lit "Sorry, there was an error processing your request. Please try again.".

(** [handleSubmit], created in the render that saw prop [selectedWebsite]
    and state [r].  [e.preventDefault()] acts on the DOM event only.  The
    guard [!input.trim() || !selectedWebsite] is the two early returns. *)
Definition handleSubmit (selectedWebsite : option Selection) (r : State)
  : Prog State unit :=
  match selectedWebsite with
  | None => Ret tt
  | Some site =>
      if negb (truthy (JStr (trim (input r)))) then Ret tt else
      now <- Date_now ;;
      let userMessage :=
        {| id := now; text := JStr (input r); sender := user; isError := false |} in
      setMessages (fun prev => prev ++ [userMessage]) ;;
      setInput [] ;;
      setIsLoading true ;;
      o <- axios (PostChat (vectorDbId site) (input r)) ;;
      match o with
      | inr response =>
          now <- Date_now ;;
          let aiMessage :=
            {| id := now + 1; text := answer response; sender := ai;
               isError := false |} in
          setMessages (fun prev => prev ++ [aiMessage])
      | inl err =>
          now <- Date_now ;;
          let errorMessage :=
            {| id := now + 1; text := JStr errorText; sender := system;
               isError := true |} in
          setMessages (fun prev => prev ++ [errorMessage])
      end ;;
      setIsLoading false
  end.

(** What the component returns. *)
Inductive View : Type :=
| Placeholder
| Chat (site : jsval) (welcome : bool) (bubbles : list Message)
       (typing : bool) (inputDisabled : bool) (sendDisabled : bool).

Definition render (selectedWebsite : option Selection) (st : State) : View :=
  match selectedWebsite with
  | None => Placeholder
  | Some site =>
      Chat (sel_url site)
           (Nat.eqb (List.length (messages st)) 0)
           (messages st)
           (isLoading st)
           (isLoading st)
           (isLoading st || negb (truthy (JStr (trim (input st)))))
  end.

(** The panel is idle when no request is pending: no typing indicator,
    input enabled. *)
Definition idle (st : State) : bool := negb (isLoading st).

End ChatBox.

(* ===================================================================== *)
(** ** URLInput.jsx *)
(* ===================================================================== *)

Module URLInput.

Record State : Type := {
  url : jsstring;
  isLoading : bool;
  error : jsstring;
  success : jsstring
}.

Definition init : State :=
  {| url := []; isLoading := false; error := []; success := [] |}.

Definition setUrl (v : jsstring) : Prog State unit :=
  set (fun st => {| url := v; isLoading := isLoading st; error := error st;
                    success := success st |}).

Definition setIsLoading (b : bool) : Prog State unit :=
  set (fun st => {| url := url st; isLoading := b; error := error st;
                    success := success st |}).

Definition setError (v : jsstring) : Prog State unit :=
  set (fun st => {| url := url st; isLoading := isLoading st; error := v;
                    success := success st |}).

Definition setSuccess (v : jsstring) : Prog State unit :=
  set (fun st => {| url := url st; isLoading := isLoading st; error := error st;
                    success := v |}).

Section WithURL.

(** [new URL(url)] of the browser: [true] when the constructor returns,
    [false] when it throws. *)
Variable URL_parses : jsstring -> bool.

Definition handleSubmit (onWebsiteVectorized : bool) (r : State)
  : Prog State unit :=
  if negb (truthy (JStr (url r))) then
    setError (lit "Please enter a URL")
  else if negb (URL_parses (url r)) then
    setError (lit "Please enter a valid URL (including http:// or https://)")
  else
    setIsLoading true ;;
    setError [] ;;
    setSuccess [] ;;
    o <- axios (PostScrape (url r)) ;;
    match o with
    | inr response =>
        setSuccess (lit "Successfully scraped and vectorized "
                    ++ toString (pages_scraped response)
                    ++ lit " pages from " ++ url r) ;;
        when onWebsiteVectorized
          (emit (OnWebsiteVectorized
                   {| websiteId := website_id response;
                      vectorDbId := scraped_vector_db_id response;
                      sel_url := JStr (url r) |}))
    | inl err =>
        setError (or_else (response_data_error err)
                    (lit "Failed to scrape the website. Please try again."))
    end ;;
    setIsLoading false.

End WithURL.

(** What the component shows under the form. *)
Record View : Type := {
  inputDisabled : bool;
  errorShown : option jsstring;
  successShown : option jsstring;
  spinner : bool
}.

Definition shown (s : jsstring) : option jsstring :=
  if truthy (JStr s) then Some s else None.

Definition render (st : State) : View :=
  {| inputDisabled := isLoading st;
     errorShown := shown (error st);
     successShown := shown (success st);
     spinner := isLoading st |}.

End URLInput.

(* ===================================================================== *)
(** ** VectorSelection.jsx *)
(* ===================================================================== *)

Module VectorSelection.

Record State : Type := {
  websites : list Website;
  isLoading : bool;
  error : jsstring;
  selectedWebsite : option Website;
  deletingId : jsval
}.

Definition init : State :=
  {| websites := []; isLoading := true; error := [];
     selectedWebsite := None; deletingId := JNull |}.

Definition setWebsites (v : list Website) : Prog State unit :=
  set (fun st => {| websites := v; isLoading := isLoading st; error := error st;
                    selectedWebsite := selectedWebsite st;
                    deletingId := deletingId st |}).

Definition setIsLoading (b : bool) : Prog State unit :=
  set (fun st => {| websites := websites st; isLoading := b; error := error st;
                    selectedWebsite := selectedWebsite st;
                    deletingId := deletingId st |}).

Definition setError (v : jsstring) : Prog State unit :=
  set (fun st => {| websites := websites st; isLoading := isLoading st; error := v;
                    selectedWebsite := selectedWebsite st;
                    deletingId := deletingId st |}).

Definition setSelectedWebsite (v : option Website) : Prog State unit :=
  set (fun st => {| websites := websites st; isLoading := isLoading st;
                    error := error st; selectedWebsite := v;
                    deletingId := deletingId st |}).

Definition setDeletingId (v : jsval) : Prog State unit :=
  set (fun st => {| websites := websites st; isLoading := isLoading st;
                    error := error st; selectedWebsite := selectedWebsite st;
                    deletingId := v |}).

(** [website => website.vector_db_id] as a filter predicate. *)
Definition vectorized (website : Website) : bool := truthy (vector_db_id website).

(** [fetchWebsites]; it catches its own rejection, so it never throws. *)
Definition fetchWebsites : Prog State unit :=
  setIsLoading true ;;
  o <- axios GetWebsites ;;
  match o with
  | inr data =>
      let vectorizedWebsites := filter vectorized data in
      setWebsites vectorizedWebsites ;;
      setIsLoading false
  | inl err =>
      setError (lit "Failed to load vectorized websites") ;;
      setIsLoading false
  end.

Definition handleSelectWebsite (onSelectWebsite : bool) (website : Website)
  : Prog State unit :=
  setSelectedWebsite (Some website) ;;
  when onSelectWebsite
    (emit (OnSelectWebsite
             (Some {| websiteId := id website;
                      vectorDbId := vector_db_id website;
                      sel_url := url website |}))).

(** [selectedWebsite?.id] *)
Definition selected_id (sel : option Website) : jsval :=
  match sel with
  | Some w => id w
  | None => JUndefined
  end.

(** The message shown when the backend reports locked database files. *)
Definition fileLockText : jsstring :=
  [9888; 65039]%N ++ lit " Cannot delete: Database files are in use."
  ++ [10; 10]%N
  ++ lit "Please restart the Django server and try again. This ensures all database connections are properly closed.".

(** [handleDeleteWebsite], created in the render that saw state [r];
    [confirmDelete] is the answer to [window.confirm].
    [event.stopPropagation()] keeps the click from selecting the row and
    [console.error] only logs. *)
Definition handleDeleteWebsite (onSelectWebsite : bool) (r : State)
  (website : Website) (confirmDelete : bool) : Prog State unit :=
  if negb confirmDelete then Ret tt else
  setDeletingId (id website) ;;
  setError [] ;;
  o <- axios (PostDelete (vector_db_id website)) ;;
  match o with
  | inr _ =>
      (if strict_eq (selected_id (selectedWebsite r)) (id website) then
         setSelectedWebsite None ;;
         when onSelectWebsite (emit (OnSelectWebsite None))
       else Ret tt) ;;
      fetchWebsites
  | inl err =>
      let errorMessage := or_else (response_data_error err) (message err) in
      if includes errorMessage (lit "process is using")
         || includes errorMessage (lit "restart the server")
      then setError fileLockText
      else setError (lit "Failed to delete website: " ++ errorMessage)
  end ;;
  setDeletingId JNull.

Record Row : Type := {
  row_site : Website;
  row_selected : bool;
  row_deleteDisabled : bool
}.

Inductive View : Type :=
| LoadingView
| ErrorView (e : jsstring)
| NoWebsites
| ListView (rows : list Row).

Definition render (st : State) : View :=
  if isLoading st then LoadingView
  else if truthy (JStr (error st)) then ErrorView (error st)
  else if Nat.eqb (List.length (websites st)) 0 then NoWebsites
  else ListView
         (map (fun website =>
                 {| row_site := website;
                    row_selected :=
                      strict_eq (selected_id (selectedWebsite st)) (id website);
                    row_deleteDisabled := strict_eq (deletingId st) (id website) |})
              (websites st)).

(** The sites on screen. *)
Definition displayed (st : State) : list Website :=
  match render st with
  | ListView rows => map row_site rows
  | _ => []
  end.

End VectorSelection.

(* ===================================================================== *)
(** ** SystemInfo.jsx *)
(* ===================================================================== *)

Module SystemInfo.

Record State : Type := {
  systemInfo : option SystemInfoData;
  isLoading : bool;
  error : jsstring;
  isExpanded : bool
}.

Definition init : State :=
  {| systemInfo := None; isLoading := true; error := []; isExpanded := false |}.

Definition setSystemInfo (v : option SystemInfoData) : Prog State unit :=
  set (fun st => {| systemInfo := v; isLoading := isLoading st; error := error st;
                    isExpanded := isExpanded st |}).

Definition setIsLoading (b : bool) : Prog State unit :=
  set (fun st => {| systemInfo := systemInfo st; isLoading := b; error := error st;
                    isExpanded := isExpanded st |}).

Definition setError (v : jsstring) : Prog State unit :=
  set (fun st => {| systemInfo := systemInfo st; isLoading := isLoading st;
                    error := v; isExpanded := isExpanded st |}).

Definition setIsExpanded (b : bool) : Prog State unit :=
  set (fun st => {| systemInfo := systemInfo st; isLoading := isLoading st;
                    error := error st; isExpanded := b |}).

(** The body of the mount effect. *)
Definition fetchSystemInfo : Prog State unit :=
  o <- axios GetSystemInfo ;;
  match o with
  | inr data =>
      setSystemInfo (Some data) ;;
      setIsLoading false
  | inl err =>
      setError (lit "Failed to load system information") ;;
      setIsLoading false
  end.

Definition toggleExpand (r : State) : Prog State unit :=
  setIsExpanded (negb (isExpanded r)).

(** One [<li>] of the database list. *)
Inductive Entry : Type :=
| Known (site_url : jsval) (dbId : jsval)
| UnknownWebsite (dbId : jsval).

(** The callback of [vectorized_databases.map]. *)
Definition entry (info : SystemInfoData) (dbId : jsval) : Entry :=
  match find (fun w => strict_eq (vector_db_id w) dbId) (websites info) with
  | Some website => Known (url website) dbId
  | None => UnknownWebsite dbId
  end.

Inductive Databases : Type :=
| DatabaseList (items : list Entry)
| NoDatabases.

Record Details : Type := {
  ollamaOk : bool;
  databases : Databases
}.

Inductive View : Type :=
| LoadingView
| ErrorView (e : jsstring)
| Panel (online : bool) (count : nat) (details : option Details).

(** [systemInfo?.ollama_running] as a condition. *)
Definition online (s : option SystemInfoData) : bool :=
  match s with
  | Some info => truthy (ollama_running info)
  | None => false
  end.

(** [systemInfo?.vectorized_databases?.length || 0] *)
Definition count (s : option SystemInfoData) : nat :=
  match s with
  | Some info => List.length (vectorized_databases info)
  | None => 0
  end.

Definition render (st : State) : View :=
  if isLoading st then LoadingView
  else if truthy (JStr (error st)) then ErrorView (error st)
  else
    Panel (online (systemInfo st)) (count (systemInfo st))
      (if isExpanded st then
         Some {| ollamaOk := online (systemInfo st);
                 databases :=
                   match systemInfo st with
                   | Some info =>
                       if Nat.ltb 0 (List.length (vectorized_databases info))
                       then DatabaseList
                              (map (entry info) (vectorized_databases info))
                       else NoDatabases
                   | None => NoDatabases
                   end |}
       else None).

End SystemInfo.

(* ===================================================================== *)
(** ** App.js: the root and the event loop *)
(* ===================================================================== *)

Module App.

(** An object on the JavaScript heap: its address and its fields.  Every
    evaluation of an object literal allocates a new address. *)
Record Ref (A : Type) : Type := {
  addr : nat;
  deref : A
}.

(** A request in flight, with the component whose handler awaits it. *)
Inductive Pending : Type :=
| InSystemInfo (p : Paused SystemInfo.State)
| InURLInput (p : Paused URLInput.State)
| InVectorSelection (p : Paused VectorSelection.State)
| InChatBox (p : Paused ChatBox.State).

Record State : Type := {
  selectedWebsite : option (Ref Selection);
  heap_next : nat;
  systemInfo : SystemInfo.State;
  urlInput : URLInput.State;
  vectorSelection : VectorSelection.State;
  chatBox : ChatBox.State;
  inflight : list Pending;
  requested : list HttpRequest
}.

Definition put_systemInfo (v : SystemInfo.State) (s : State) : State :=
  {| selectedWebsite := selectedWebsite s; heap_next := heap_next s;
     systemInfo := v; urlInput := urlInput s;
     vectorSelection := vectorSelection s; chatBox := chatBox s;
     inflight := inflight s; requested := requested s |}.

Definition put_urlInput (v : URLInput.State) (s : State) : State :=
  {| selectedWebsite := selectedWebsite s; heap_next := heap_next s;
     systemInfo := systemInfo s; urlInput := v;
     vectorSelection := vectorSelection s; chatBox := chatBox s;
     inflight := inflight s; requested := requested s |}.

Definition put_vectorSelection (v : VectorSelection.State) (s : State) : State :=
  {| selectedWebsite := selectedWebsite s; heap_next := heap_next s;
     systemInfo := systemInfo s; urlInput := urlInput s;
     vectorSelection := v; chatBox := chatBox s;
     inflight := inflight s; requested := requested s |}.

Definition put_chatBox (v : ChatBox.State) (s : State) : State :=
  {| selectedWebsite := selectedWebsite s; heap_next := heap_next s;
     systemInfo := systemInfo s; urlInput := urlInput s;
     vectorSelection := vectorSelection s; chatBox := v;
     inflight := inflight s; requested := requested s |}.

Definition put_inflight (v : list Pending) (s : State) : State :=
  {| selectedWebsite := selectedWebsite s; heap_next := heap_next s;
     systemInfo := systemInfo s; urlInput := urlInput s;
     vectorSelection := vectorSelection s; chatBox := chatBox s;
     inflight := v; requested := requested s |}.

(** Hand a request to the network: it joins the pool and the log. *)
Definition send (p : Pending) (h : HttpRequest) (s : State) : State :=
  {| selectedWebsite := selectedWebsite s; heap_next := heap_next s;
     systemInfo := systemInfo s; urlInput := urlInput s;
     vectorSelection := vectorSelection s; chatBox := chatBox s;
     inflight := inflight s ++ [p]; requested := requested s ++ [h] |}.

(** [Object.is] on the selected-site prop: [null] is itself, objects
    are compared by address. *)
Definition Object_is (a b : option (Ref Selection)) : bool :=
  match a, b with
  | None, None => true
  | Some x, Some y => Nat.eqb (addr x) (addr y)
  | _, _ => false
  end.

(** The state of a component after a synchronous program on it. *)
Definition after {S : Type} (p : Prog S unit) (st : S) : S :=
  fst (fst (exec 0 p st)).

(** [setSelectedWebsite] of the root, followed by the render it causes:
    [ChatBox] sees a new prop, and its effect on [[selectedWebsite]] runs
    when the prop is not [Object.is] the previous one. *)
Definition setSelectedWebsite (w : option Selection) (s : State) : State :=
  let fresh :=
    match w with
    | Some o => Some {| addr := heap_next s; deref := o |}
    | None => None
    end in
  {| selectedWebsite := fresh;
     heap_next := match w with Some _ => S (heap_next s) | None => heap_next s end;
     systemInfo := systemInfo s; urlInput := urlInput s;
     vectorSelection := vectorSelection s;
     chatBox := if Object_is (selectedWebsite s) fresh then chatBox s
                else after ChatBox.clearChat (chatBox s);
     inflight := inflight s; requested := requested s |}.

Definition handleWebsiteVectorized (website : Selection) : State -> State :=
  setSelectedWebsite (Some website).

Definition handleSelectWebsite (website : option Selection) : State -> State :=
  setSelectedWebsite website.

Definition call (c : Callback) (s : State) : State :=
  match c with
  | OnWebsiteVectorized w => handleWebsiteVectorized w s
  | OnSelectWebsite w => handleSelectWebsite w s
  end.

(** The selected site as [ChatBox] receives it. *)
Definition selectedProp (s : State) : option Selection :=
  option_map (@deref Selection) (selectedWebsite s).

(** Fold one turn of a component's handler into the application: store
    the component's state, park the handler if it awaits, and run the
    prop calls it made. *)
Definition commit {S : Type} (put : S -> State -> State)
  (park : Paused S -> Pending)
  (turn : S * list Callback * option (Paused S)) (s : State) : State :=
  let '(st, calls, parked) := turn in
  let s1 := put st s in
  let s2 := match parked with
            | Some p => send (park p) (wire (sent p)) s1
            | None => s1
            end in
  fold_left (fun acc c => call c acc) calls s2.

(** How a request in flight ends. *)
Inductive Settlement : Type :=
| Rejected (err : AxiosError)
| WebsitesOk (data : list Website)
| SystemInfoOk (data : SystemInfoData)
| ScrapeOk (data : ScrapeData)
| ChatOk (data : ChatData)
| DeleteOk.

(** The settlement as the awaiting handler receives it; [None] when the
    body is not one this endpoint returns. *)
Definition outcome {R : Type} (r : Request R) (x : Settlement)
  : option (AxiosError + R) :=
  match r in Request T return option (AxiosError + T) with
  | GetWebsites =>
      match x with
      | Rejected e => Some (inl e) | WebsitesOk d => Some (inr d) | _ => None
      end
  | GetSystemInfo =>
      match x with
      | Rejected e => Some (inl e) | SystemInfoOk d => Some (inr d) | _ => None
      end
  | PostScrape _ =>
      match x with
      | Rejected e => Some (inl e) | ScrapeOk d => Some (inr d) | _ => None
      end
  | PostChat _ _ =>
      match x with
      | Rejected e => Some (inl e) | ChatOk d => Some (inr d) | _ => None
      end
  | PostDelete _ =>
      match x with
      | Rejected e => Some (inl e) | DeleteOk => Some (inr tt) | _ => None
      end
  end.

Definition remove_nth {A : Type} (i : nat) (l : list A) : list A :=
  firstn i l ++ skipn (S i) l.

(** Resume a parked handler of one component with a settlement. *)
Definition wake {S : Type} (put : S -> State -> State)
  (park : Paused S -> Pending) (now : Z) (p : Paused S) (x : Settlement)
  (st : S) (s : State) : option State :=
  match outcome (sent p) x with
  | Some o => Some (commit put park (exec now (resume p o) st) s)
  | None => None
  end.

Inductive Event : Type :=
| ChangeUrl (v : jsstring)
| SubmitUrl
| ClickRow (i : nat)
| ClickDelete (i : nat) (confirmDelete : bool)
| ChangeInput (v : jsstring)
| SubmitChat
| ToggleSystemInfo
| Settle (i : nat) (x : Settlement).

Section WithURL.

Variable URL_parses : jsstring -> bool.

(** The components before their first render. *)
Definition unmounted : State :=
  {| selectedWebsite := None; heap_next := 0;
     systemInfo := SystemInfo.init; urlInput := URLInput.init;
     vectorSelection := VectorSelection.init; chatBox := ChatBox.init;
     inflight := []; requested := [] |}.

(** The mount effects: [SystemInfo] fetches the status, [VectorSelection]
    fetches the roster, [ChatBox] clears its transcript. *)
Definition mount (s : State) : State :=
  let s1 := commit put_systemInfo InSystemInfo
              (exec 0 SystemInfo.fetchSystemInfo (systemInfo s)) s in
  let s2 := commit put_vectorSelection InVectorSelection
              (exec 0 VectorSelection.fetchWebsites (vectorSelection s1)) s1 in
  put_chatBox (after ChatBox.clearChat (chatBox s2)) s2.

Definition start : State := mount unmounted.

(** One turn of the event loop.  A user event is taken only when the
    element it comes from is on screen and enabled; [now] is the clock
    during the turn. *)
Definition step (now : Z) (e : Event) (s : State) : option State :=
  match e with
  | ChangeUrl v =>
      if URLInput.isLoading (urlInput s) then None
      else Some (put_urlInput (after (URLInput.setUrl v) (urlInput s)) s)
  | SubmitUrl =>
      if URLInput.isLoading (urlInput s) then None
      else Some (commit put_urlInput InURLInput
                   (exec now (URLInput.handleSubmit URL_parses true (urlInput s))
                      (urlInput s)) s)
  | ClickRow i =>
      match nth_error (VectorSelection.displayed (vectorSelection s)) i with
      | Some website =>
          Some (commit put_vectorSelection InVectorSelection
                  (exec now (VectorSelection.handleSelectWebsite true website)
                     (vectorSelection s)) s)
      | None => None
      end
  | ClickDelete i confirmDelete =>
      match nth_error (VectorSelection.displayed (vectorSelection s)) i with
      | Some website =>
          if strict_eq (VectorSelection.deletingId (vectorSelection s)) (id website)
          then None
          else
            Some (commit put_vectorSelection InVectorSelection
                    (exec now
                       (VectorSelection.handleDeleteWebsite true
                          (vectorSelection s) website confirmDelete)
                       (vectorSelection s)) s)
      | None => None
      end
  | ChangeInput v =>
      match selectedWebsite s with
      | Some _ =>
          if ChatBox.isLoading (chatBox s) then None
          else Some (put_chatBox (after (ChatBox.setInput v) (chatBox s)) s)
      | None => None
      end
  | SubmitChat =>
      match selectedWebsite s with
      | Some _ =>
          Some (commit put_chatBox InChatBox
                  (exec now (ChatBox.handleSubmit (selectedProp s) (chatBox s))
                     (chatBox s)) s)
      | None => None
      end
  | ToggleSystemInfo =>
      match SystemInfo.render (systemInfo s) with
      | SystemInfo.Panel _ _ _ =>
          Some (put_systemInfo
                  (after (SystemInfo.toggleExpand (systemInfo s)) (systemInfo s)) s)
      | _ => None
      end
  | Settle i x =>
      match nth_error (inflight s) i with
      | Some pending =>
          let s' := put_inflight (remove_nth i (inflight s)) s in
          match pending with
          | InSystemInfo p =>
              wake put_systemInfo InSystemInfo now p x (systemInfo s') s'
          | InURLInput p =>
              wake put_urlInput InURLInput now p x (urlInput s') s'
          | InVectorSelection p =>
              wake put_vectorSelection InVectorSelection now p x
                (vectorSelection s') s'
          | InChatBox p =>
              wake put_chatBox InChatBox now p x (chatBox s') s'
          end
      | None => None
      end
  end.

(** A run of the event loop over timed events. *)
Fixpoint run (evs : list (Z * Event)) (s : State) : option State :=
  match evs with
  | [] => Some s
  | (now, e) :: evs' =>
      match step now e s with
      | Some s' => run evs' s'
      | None => None
      end
  end.

(** The states the application can be in. *)
Inductive reachable : State -> Prop :=
| reach_start : reachable start
| reach_step : forall s now e s',
    reachable s -> step now e s = Some s' -> reachable s'.

End WithURL.

End App.

(* ===================================================================== *)
(** ** Safe handlers *)
(* ===================================================================== *)

Section ProgramLogic.

Context {S : Type}.

(** What every state setter of a program must preserve, what every
    request it sends must satisfy, and which props it may call. *)
Variable inv : S -> Prop.
Variable allowed : HttpRequest -> Prop.
Variable may_call : Callback -> Prop.

Inductive safe (A : Type) : Prog S A -> Prop :=
| safe_ret : forall a, safe (Ret a)
| safe_set : forall f k,
    (forall st, inv st -> inv (f st)) -> safe k -> safe (SetState f k)
| safe_emit : forall c k, may_call c -> safe k -> safe (Emit c k)
| safe_now : forall k, (forall t, safe (k t)) -> safe (DateNow k)
| safe_await : forall (R : Type) (r : Request R) k,
    allowed (wire r) -> (forall o, safe (k o)) -> safe (Await r k).

(** A parked handler whose rest is safe however its request settles. *)
Definition safe_paused (p : Paused S) : Prop :=
  forall o, safe (resume p o).

(** What one turn of a handler must satisfy to be folded into the
    application. *)
Definition safe_turn (turn : S * list Callback * option (Paused S)) : Prop :=
  inv (fst (fst turn))
  /\ Forall may_call (snd (fst turn))
  /\ match snd turn with
     | Some q => allowed (wire (sent q)) /\ safe_paused q
     | None => True
     end.

End ProgramLogic.

(* ===================================================================== *)
(** ** The vocabulary of the statements *)
(* ===================================================================== *)

Module Spec.

(** The entry a settled chat request adds at clock [now]. *)
Definition reply (now : Z) (o : AxiosError + ChatData) : ChatBox.Message :=
  match o with
  | inr response =>
      {| ChatBox.id := now + 1; ChatBox.text := answer response;
         ChatBox.sender := ChatBox.ai; ChatBox.isError := false |}
  | inl _ =>
      {| ChatBox.id := now + 1; ChatBox.text := JStr ChatBox.errorText;
         ChatBox.sender := ChatBox.system; ChatBox.isError := true |}
  end.

(** The entry an accepted submission adds at clock [now]. *)
Definition question (now : Z) (asked : jsstring) : ChatBox.Message :=
  {| ChatBox.id := now; ChatBox.text := JStr asked;
     ChatBox.sender := ChatBox.user; ChatBox.isError := false |}.

(** The chat state once the effect on [[selectedWebsite]] has run. *)
Definition cleared (c : ChatBox.State) : ChatBox.State :=
  {| ChatBox.messages := []; ChatBox.input := ChatBox.input c;
     ChatBox.isLoading := ChatBox.isLoading c |}.

(** The row being deleted is the one the roster had selected when the
    delete was asked for. *)
Definition was_selected (r : VectorSelection.State) (website : Website) : Prop :=
  exists sel : Website,
    VectorSelection.selectedWebsite r = Some sel /\ id sel = id website.

(** The [<li>] elements of the expanded status view. *)
Definition listed (d : SystemInfo.Databases) : list SystemInfo.Entry :=
  match d with
  | SystemInfo.DatabaseList items => items
  | SystemInfo.NoDatabases => []
  end.

Definition system_info_path : string := "/api/websites/system_info/".

Definition is_system_info (h : HttpRequest) : bool :=
  String.eqb (http_path h) system_info_path.

(** Every request but the status fetch. *)
Definition other_request (h : HttpRequest) : Prop := is_system_info h = false.

(** The roster holds vectorized sites only. *)
Definition roster_ok (st : VectorSelection.State) : Prop :=
  Forall (fun w => VectorSelection.vectorized w = true)
         (VectorSelection.websites st).

Definition any {S : Type} (st : S) : Prop := True.

(** [ChatBox] receives no callback prop; the other components may call
    theirs. *)
Definition silent (c : Callback) : Prop := False.
Definition vocal (c : Callback) : Prop := True.

(** A request in flight whose handler, once resumed, keeps the roster
    vectorized and never fetches the status. *)
Definition good (pending : App.Pending) : Prop :=
  match pending with
  | App.InSystemInfo p => safe_paused any other_request vocal p
  | App.InURLInput p => safe_paused any other_request vocal p
  | App.InVectorSelection p => safe_paused roster_ok other_request vocal p
  | App.InChatBox p => safe_paused any other_request silent p
  end.

(** The invariant of the event loop. *)
Record Inv (s : App.State) : Prop := {
  inv_roster : roster_ok (App.vectorSelection s);
  inv_inflight : Forall good (App.inflight s);
  inv_log : exists rest,
      App.requested s = wire GetSystemInfo :: rest /\ Forall other_request rest
}.

End Spec.

(* ===================================================================== *)
(** ** Worked scenarios *)
(* ===================================================================== *)

Module Scenario.

(** A stand-in for the browser's [URL] constructor, to run the general
    statements on examples: it accepts what starts with a web scheme. *)
Definition accepts (s : jsstring) : bool :=
  startsWith s (lit "http://") || startsWith s (lit "https://").

Definition siteA : Website :=
  {| id := JNum 1; url := JStr (lit "https://a.example"); title := JStr (lit "A");
     vector_db_id := JNum 7; date_scraped := JStr (lit "2024-05-01T10:00:00Z") |}.

Definition siteB : Website :=
  {| id := JNum 2; url := JStr (lit "https://b.example"); title := JNull;
     vector_db_id := JNum 8; date_scraped := JStr (lit "2024-05-02T10:00:00Z") |}.

(** A site the backend has scraped but not vectorized. *)
Definition draft : Website :=
  {| id := JNum 3; url := JStr (lit "https://c.example"); title := JNull;
     vector_db_id := JNull; date_scraped := JStr (lit "2024-05-03T10:00:00Z") |}.

(** The roster loads, the user selects the first row. *)
Definition selecting_A : list (Z * App.Event) :=
  [(10, App.Settle 1 (App.WebsitesOk [siteA; draft; siteB]));
   (20, App.ClickRow 0)]%Z.

(** ... then types a question and sends it. *)
Definition asking_A : list (Z * App.Event) :=
  selecting_A
  ++ [(30, App.ChangeInput (lit "What is this about?"));
      (40, App.SubmitChat)]%Z.

(** The selected site of the chat scenario. *)
Definition site7 : Selection :=
  {| websiteId := JNum 1; vectorDbId := JNum 7;
     sel_url := JStr (lit "https://a.example") |}.

(** The chat panel with a question typed in. *)
Definition asking : ChatBox.State :=
  {| ChatBox.messages := []; ChatBox.input := lit "What is this about?";
     ChatBox.isLoading := false |}.

Definition its_a_blog : ChatData := {| answer := JStr (lit "It's a blog.") |}.

(** The URL form with [u] typed in. *)
Definition typed (u : jsstring) : URLInput.State :=
  {| URLInput.url := u; URLInput.isLoading := false; URLInput.error := [];
     URLInput.success := [] |}.

Definition five_pages : ScrapeData :=
  {| website_id := JNum 11; scraped_vector_db_id := JNum 22;
     pages_scraped := JNum 5 |}.

(** The roster showing both sites, with [sel] selected. *)
Definition roster_on (sel : option Website) : VectorSelection.State :=
  {| VectorSelection.websites := [siteA; siteB];
     VectorSelection.isLoading := false; VectorSelection.error := [];
     VectorSelection.selectedWebsite := sel;
     VectorSelection.deletingId := JNull |}.

(** The rejection of a delete whose files are locked. *)
Definition files_in_use : AxiosError :=
  {| response_data_error :=
       Some (lit "Cannot delete: another process is using the database files");
     message := lit "Request failed with status code 500" |}.

(** A status snapshot with a known and an orphaned database. *)
Definition snapshot : SystemInfoData :=
  {| ollama_running := JBool true;
     vectorized_databases := [JNum 7; JNum 9];
     websites := [siteA; siteB] |}.

End Scenario.

(* ===================================================================== *)
(** ** Requests in flight *)
(* ===================================================================== *)

Module Flight.

Definition is_url (pending : App.Pending) : bool :=
  match pending with App.InURLInput _ => true | _ => false end.

Definition is_sys (pending : App.Pending) : bool :=
  match pending with App.InSystemInfo _ => true | _ => false end.

Definition is_chat (pending : App.Pending) : bool :=
  match pending with App.InChatBox _ => true | _ => false end.

(** How many requests of one kind are in flight. *)
Definition in_flight (kind : App.Pending -> bool) (s : App.State) : nat :=
  List.length (filter kind (App.inflight s)).

(** A parked [ChatBox.handleSubmit]: whenever its request settles, the
    rest appends one entry to the transcript as it is by then, ends the
    loading state, calls no prop and parks nothing. *)
Definition chat_rest (p : Paused ChatBox.State) : Prop :=
  exists (v : jsval) (q : jsstring)
         (k : AxiosError + ChatData -> Prog ChatBox.State unit),
    p = {| sent := PostChat v q; resume := k |}
    /\ forall (o : AxiosError + ChatData) (now : Z) (st : ChatBox.State),
         exec now (k o) st =
           ({| ChatBox.messages := ChatBox.messages st ++ [Spec.reply now o];
               ChatBox.input := ChatBox.input st;
               ChatBox.isLoading := false |}, [], None).

(** A parked [URLInput.handleSubmit] for the submitted [u]. *)
Definition url_rest (p : Paused URLInput.State) : Prop :=
  exists (u : jsstring) (k : AxiosError + ScrapeData -> Prog URLInput.State unit),
    p = {| sent := PostScrape u; resume := k |}
    /\ (forall (response : ScrapeData) (now : Z) (st : URLInput.State),
          exec now (k (inr response)) st =
            ({| URLInput.url := URLInput.url st; URLInput.isLoading := false;
                URLInput.error := URLInput.error st;
                URLInput.success :=
                  lit "Successfully scraped and vectorized "
                  ++ toString (pages_scraped response)
                  ++ lit " pages from " ++ u |},
             [OnWebsiteVectorized
                {| websiteId := website_id response;
                   vectorDbId := scraped_vector_db_id response;
                   sel_url := JStr u |}],
             None))
    /\ (forall (err : AxiosError) (now : Z) (st : URLInput.State),
          exec now (k (inl err)) st =
            ({| URLInput.url := URLInput.url st; URLInput.isLoading := false;
                URLInput.error :=
                  or_else (response_data_error err)
                    (lit "Failed to scrape the website. Please try again.");
                URLInput.success := URLInput.success st |}, [], None)).

(** The parked [SystemInfo.fetchSystemInfo]. *)
Definition sys_rest (p : Paused SystemInfo.State) : Prop :=
  exists k : AxiosError + SystemInfoData -> Prog SystemInfo.State unit,
    p = {| sent := GetSystemInfo; resume := k |}
    /\ (forall (data : SystemInfoData) (now : Z) (st : SystemInfo.State),
          exec now (k (inr data)) st =
            ({| SystemInfo.systemInfo := Some data;
                SystemInfo.isLoading := false;
                SystemInfo.error := SystemInfo.error st;
                SystemInfo.isExpanded := SystemInfo.isExpanded st |}, [], None))
    /\ (forall (err : AxiosError) (now : Z) (st : SystemInfo.State),
          exec now (k (inl err)) st =
            ({| SystemInfo.systemInfo := SystemInfo.systemInfo st;
                SystemInfo.isLoading := false;
                SystemInfo.error := lit "Failed to load system information";
                SystemInfo.isExpanded := SystemInfo.isExpanded st |}, [], None)).

Definition shaped (pending : App.Pending) : Prop :=
  match pending with
  | App.InSystemInfo p => sys_rest p
  | App.InURLInput p => url_rest p
  | App.InVectorSelection _ => True
  | App.InChatBox p => chat_rest p
  end.

(** The selected object was allocated before the next free address. *)
Definition fresh (s : App.State) : Prop :=
  forall r : App.Ref Selection,
    App.selectedWebsite s = Some r -> App.addr r < App.heap_next s.

(** What the loading flags say about the pool of requests. *)
Record Busy (s : App.State) : Prop := {
  busy_shape : Forall shaped (App.inflight s);
  busy_heap : fresh s;
  busy_url :
    in_flight is_url s = if URLInput.isLoading (App.urlInput s) then 1 else 0;
  busy_sys :
    in_flight is_sys s = if SystemInfo.isLoading (App.systemInfo s) then 1 else 0;
  busy_chat :
    ChatBox.isLoading (App.chatBox s) = true -> 1 <= in_flight is_chat s
}.

(** The roster has an error to show. *)
Definition has_error (st : VectorSelection.State) : Prop :=
  VectorSelection.error st <> [].

Definition unrestricted (h : HttpRequest) : Prop := True.

(** A request in flight whose handler, once resumed, never clears the
    roster's error. *)
Definition keeps_error (pending : App.Pending) : Prop :=
  match pending with
  | App.InVectorSelection p => safe_paused has_error unrestricted Spec.vocal p
  | _ => True
  end.

(** The rows of a roster view. *)
Definition rows (v : VectorSelection.View) : list VectorSelection.Row :=
  match v with
  | VectorSelection.ListView l => l
  | _ => []
  end.

(** The row the roster makes of a site. *)
Definition row_of (st : VectorSelection.State) (website : Website)
  : VectorSelection.Row :=
  {| VectorSelection.row_site := website;
     VectorSelection.row_selected :=
       strict_eq (VectorSelection.selected_id (VectorSelection.selectedWebsite st))
                 (id website);
     VectorSelection.row_deleteDisabled :=
       strict_eq (VectorSelection.deletingId st) (id website) |}.

End Flight.

(* ===================================================================== *)
(** ** More scenarios *)
(* ===================================================================== *)

Module Scenario2.
Import Scenario.

(** The user types a url and submits it. *)
Definition submitting : list (Z * App.Event) :=
  [(5, App.ChangeUrl (lit "https://example.com")); (6, App.SubmitUrl)]%Z.

(** The status arrives. *)
Definition status_loaded : list (Z * App.Event) :=
  [(10, App.Settle 0 (App.SystemInfoOk snapshot))]%Z.

(** The roster loads with three entries. *)
Definition roster_loaded : list (Z * App.Event) :=
  [(10, App.Settle 1 (App.WebsitesOk [siteA; draft; siteB]))]%Z.

(** The user asks about site A, then selects site B before the answer. *)
Definition moved_on : list (Z * App.Event) :=
  asking_A ++ [(50, App.ClickRow 1)]%Z.

(** The roster loads two sites and the user deletes both; the first
    delete fails on locked files. *)
Definition first_delete_fails : list (Z * App.Event) :=
  [(10, App.Settle 1 (App.WebsitesOk [siteA; siteB]));
   (20, App.ClickDelete 0 true);
   (30, App.ClickDelete 1 true);
   (40, App.Settle 1 (App.Rejected files_in_use))]%Z.

(** ... the second succeeds, and its re-fetch answers with site A. *)
Definition second_delete_succeeds : list (Z * App.Event) :=
  [(50, App.Settle 1 App.DeleteOk);
   (60, App.Settle 1 (App.WebsitesOk [siteA]))]%Z.

(** The rejection of a scrape with a message from the backend. *)
Definition unreachable_site : AxiosError :=
  {| response_data_error := Some (lit "Could not reach the website");
     message := lit "Request failed with status code 400" |}.

End Scenario2.

(* ===================================================================== *)
(** ** The status panel over a run *)
(* ===================================================================== *)

Module Status.

(** The bodies of the status responses that a run of events delivers, in
    order. *)
Fixpoint responses (evs : list (Z * App.Event)) : list SystemInfoData :=
  match evs with
  | [] => []
  | (_, App.Settle _ (App.SystemInfoOk data)) :: rest => data :: responses rest
  | _ :: rest => responses rest
  end.

(** The panel once [fetchSystemInfo] has stored the response [data]. *)
Definition loaded (data : SystemInfoData) (expanded : bool) : SystemInfo.State :=
  {| SystemInfo.systemInfo := Some data; SystemInfo.isLoading := false;
     SystemInfo.error := []; SystemInfo.isExpanded := expanded |}.

(** The panel once the status request has been rejected. *)
Definition failed (expanded : bool) : SystemInfo.State :=
  {| SystemInfo.systemInfo := None; SystemInfo.isLoading := false;
     SystemInfo.error := lit "Failed to load system information";
     SystemInfo.isExpanded := expanded |}.

(** A request in flight that is not the status request, unless it is the
    one [SystemInfo] awaits. *)
Definition foreign (pending : App.Pending) : Prop :=
  match pending with
  | App.InSystemInfo _ => True
  | App.InURLInput p => Spec.other_request (wire (sent p))
  | App.InVectorSelection p => Spec.other_request (wire (sent p))
  | App.InChatBox p => Spec.other_request (wire (sent p))
  end.

(** The panel is as mounted for as long as it is loading, and shows no
    error once it holds a snapshot. *)
Record Phase (s : App.State) : Prop := {
  phase_foreign : Forall foreign (App.inflight s);
  phase_loading :
    SystemInfo.isLoading (App.systemInfo s) = true ->
    App.systemInfo s = SystemInfo.init;
  phase_loaded :
    forall data : SystemInfoData,
      SystemInfo.systemInfo (App.systemInfo s) = Some data ->
      App.systemInfo s = loaded data (SystemInfo.isExpanded (App.systemInfo s))
}.

End Status.

(* ===================================================================== *)
(** ** Scenarios of deleting a site *)
(* ===================================================================== *)

Module Scenario3.
Import Scenario Scenario2.

(** The site of [five_pages], as the roster lists it once scraped. *)
Definition scraped : Website :=
  {| id := JNum 11; url := JStr (lit "https://example.com"); title := JNull;
     vector_db_id := JNum 22; date_scraped := JStr (lit "2024-05-04T10:00:00Z") |}.

(** The roster loads sites A and B; the user scrapes a third site, which
    becomes the selected site; deletes site B, so that the roster is
    fetched again and now lists the scraped site; and asks to delete the
    scraped site, the one selected. *)
Definition deleting_scraped : list (Z * App.Event) :=
  [(10, App.Settle 1 (App.WebsitesOk [siteA; siteB]));
   (20, App.ChangeUrl (lit "https://example.com"));
   (21, App.SubmitUrl);
   (30, App.Settle 1 (App.ScrapeOk five_pages));
   (40, App.ClickDelete 1 true);
   (50, App.Settle 1 App.DeleteOk);
   (60, App.Settle 1 (App.WebsitesOk [siteA; scraped]));
   (70, App.ClickDelete 1 true)]%Z.

(** The roster loads; the user selects site A, asks to delete it, and
    selects site B while the delete request is pending. *)
Definition deleting_A_then_B : list (Z * App.Event) :=
  [(10, App.Settle 1 (App.WebsitesOk [siteA; siteB]));
   (20, App.ClickRow 0);
   (30, App.ClickDelete 0 true);
   (40, App.ClickRow 1)]%Z.

(** The roster loads; the user selects site B, asks to delete site A,
    and selects site A while the delete request is pending. *)
Definition deleting_A_then_A : list (Z * App.Event) :=
  [(10, App.Settle 1 (App.WebsitesOk [siteA; siteB]));
   (20, App.ClickRow 1);
   (30, App.ClickDelete 0 true);
   (40, App.ClickRow 0)]%Z.

(** The status arrives and the user expands the panel. *)
Definition status_expanded : list (Z * App.Event) :=
  status_loaded ++ [(20, App.ToggleSystemInfo)]%Z.

End Scenario3.

(* ===================================================================== *)
(** ** Facts about strings and scalars *)
(* ===================================================================== *)

Section StringFacts.

Lemma trimStart_cons_not_space (s : jsstring) (c : N) (t : jsstring) :
  trimStart s = c :: t -> isWhiteSpace c = false.
Proof.
  induction s as [|a s IH]; simpl; [discriminate|].
  destruct (isWhiteSpace a) eqn:E; [exact IH|].
  intros H. injection H as <- _. exact E.
Qed.

Lemma trimStart_nil_iff (s : jsstring) : trimStart s = [] <-> blank s = true.
Proof.
  induction s as [|a s IH]; simpl; [tauto|].
  destruct (isWhiteSpace a); simpl; [exact IH|].
  split; discriminate.
Qed.

Lemma blank_rev (s : jsstring) : blank (rev s) = blank s.
Proof.
  unfold blank. induction s as [|a s IH]; simpl; [reflexivity|].
  rewrite forallb_app, IH. simpl. rewrite andb_true_r. apply andb_comm.
Qed.

(** [!s.trim()] holds exactly for the strings of white space. *)
Lemma trim_nil_iff (s : jsstring) : trim s = [] <-> blank s = true.
Proof.
  unfold trim, trimEnd. split.
  - intros H. apply (f_equal (@rev N)) in H. rewrite rev_involutive in H.
    simpl in H. apply trimStart_nil_iff in H. rewrite blank_rev in H.
    destruct (trimStart s) as [|c t] eqn:E.
    + apply trimStart_nil_iff. exact E.
    + apply trimStart_cons_not_space in E. simpl in H. rewrite E in H.
      discriminate.
  - intros H. apply trimStart_nil_iff in H. rewrite H. reflexivity.
Qed.

Lemma falsy_trim_blank (s : jsstring) :
  negb (truthy (JStr (trim s))) = blank s.
Proof.
  destruct (blank s) eqn:E.
  - apply trim_nil_iff in E. rewrite E. reflexivity.
  - destruct (trim s) eqn:T; [|reflexivity].
    apply trim_nil_iff in T. congruence.
Qed.

Lemma truthy_nonempty (s : jsstring) : s <> [] -> truthy (JStr s) = true.
Proof. destruct s; [congruence | reflexivity]. Qed.

Lemma startsWith_iff (p s : jsstring) :
  startsWith s p = true <-> exists b, s = p ++ b.
Proof.
  revert s. induction p as [|a p IH]; intros s; simpl.
  - split; [intros _; exists s; reflexivity | destruct s; reflexivity].
  - destruct s as [|c s].
    + split; [discriminate | intros [b H]; discriminate].
    + simpl. rewrite andb_true_iff, N.eqb_eq, IH. split.
      * intros [-> [b ->]]. exists b. reflexivity.
      * intros [b H]. injection H as -> ->. split; [reflexivity | exists b; reflexivity].
Qed.

(** [s.includes(p)] holds exactly when [p] occurs in [s]. *)
Lemma includes_iff (s p : jsstring) :
  includes s p = true <-> exists a b, s = a ++ p ++ b.
Proof.
  induction s as [|c s IH]; cbn [includes].
  - rewrite orb_false_r, startsWith_iff. split.
    + intros [b H]. exists [], b. exact H.
    + intros [a [b H]]. destruct a; [exists b; exact H | discriminate].
  - rewrite orb_true_iff, startsWith_iff, IH. split.
    + intros [[b H] | [a [b H]]].
      * exists [], b. exact H.
      * exists (c :: a), b. simpl. rewrite H. reflexivity.
    + intros [a [b H]]. destruct a as [|x a]; simpl in H.
      * left. exists b. exact H.
      * right. injection H as _ ->. exists a, b. reflexivity.
Qed.

Lemma includes_mid (a p b : jsstring) : includes (a ++ p ++ b) p = true.
Proof. apply includes_iff. exists a, b. reflexivity. Qed.

Lemma includes_suffix (a p : jsstring) : includes (a ++ p) p = true.
Proof. apply includes_iff. exists a, []. rewrite app_nil_r. reflexivity. Qed.

Lemma includes_trans (a b c : jsstring) :
  includes a b = true -> includes b c = true -> includes a c = true.
Proof.
  rewrite !includes_iff. intros [x [y ->]] [u [v ->]].
  exists (x ++ u), (v ++ y). rewrite <- !app_assoc. reflexivity.
Qed.

(** [===] on JSON scalars is equality. *)
Lemma strict_eq_iff (a b : jsval) : strict_eq a b = true <-> a = b.
Proof.
  destruct a, b; cbn; try (split; [discriminate | congruence]);
    try (split; reflexivity).
  - rewrite Bool.eqb_true_iff. split; congruence.
  - rewrite Z.eqb_eq. split; congruence.
  - unfold jsstring_eqb. destruct (list_eq_dec N.eq_dec s s0); split;
      congruence.
Qed.

End StringFacts.

(* ===================================================================== *)
(** ** The chat panel *)
(* ===================================================================== *)

Module ChatBoxFacts.
Import ChatBox Spec.

(** An accepted submission runs up to its [await]; the rest of the handler
    appends [reply] to whatever the transcript is by then and returns. *)
Lemma handleSubmit_accepted (site : Selection) (st : State) (now : Z) :
  blank (input st) = false ->
  exists k : AxiosError + ChatData -> Prog State unit,
    exec now (handleSubmit (Some site) st) st =
      ({| messages := messages st ++ [question now (input st)];
          input := []; isLoading := true |},
       [],
       Some {| sent := PostChat (vectorDbId site) (input st); resume := k |})
    /\ forall (o : AxiosError + ChatData) (later : State) (now' : Z),
         exec now' (k o) later =
           ({| messages := messages later ++ [reply now' o];
               input := input later; isLoading := false |}, [], None).
Proof.
  intros Hblank. unfold handleSubmit.
  rewrite falsy_trim_blank, Hblank. cbn.
  eexists. split; [reflexivity|].
  intros [err|response] later now'; reflexivity.
Qed.

Lemma handleSubmit_rejected (selectedWebsite : option Selection) (st : State)
  (now : Z) :
  selectedWebsite = None \/ blank (input st) = true ->
  exec now (handleSubmit selectedWebsite st) st = (st, [], None).
Proof.
  unfold handleSubmit. intros [-> | Hblank]; [reflexivity|].
  destruct selectedWebsite; [|reflexivity].
  rewrite falsy_trim_blank, Hblank. reflexivity.
Qed.

(** C1.  A submission with a selected site and an input that is not blank
    appends the user's message, sends one [POST /api/websites/chat/] whose
    body is [{vector_db_id, query}] from the selected site and the
    submitted text, and parks; when the request settles, the rest of the
    handler appends one entry (the assistant's on success, the error on
    failure) and sends nothing more, so with nothing in between the
    transcript has grown by the two entries in that order.  A submission
    with a blank input or no selected site changes nothing and sends
    nothing. *)
Theorem chat_submission (selectedWebsite : option Selection) (st : State)
  (now : Z) :
  (forall site : Selection,
     selectedWebsite = Some site -> blank (input st) = false ->
     exists k : AxiosError + ChatData -> Prog State unit,
       let asked :=
         {| messages :=
              messages st
              ++ [{| id := now; text := JStr (input st); sender := user;
                     isError := false |}];
            input := []; isLoading := true |} in
       exec now (handleSubmit selectedWebsite st) st =
         (asked, [],
          Some {| sent := PostChat (vectorDbId site) (input st); resume := k |})
       /\ wire (PostChat (vectorDbId site) (input st)) =
            {| http_method := POST; http_path := "/api/websites/chat/";
               http_body := [("vector_db_id"%string, vectorDbId site);
                             ("query"%string, JStr (input st))] |}
       /\ (forall (o : AxiosError + ChatData) (later : State) (now' : Z),
             exists entry : Message,
               exec now' (k o) later =
                 ({| messages := messages later ++ [entry];
                     input := input later; isLoading := false |}, [], None)
               /\ match o with
                  | inr response =>
                      sender entry = ai /\ text entry = answer response
                      /\ isError entry = false
                  | inl _ => sender entry = system /\ isError entry = true
                  end)
       /\ (forall (o : AxiosError + ChatData) (now' : Z),
             exists entry : Message,
               messages (fst (fst (exec now' (k o) asked))) =
                 messages st
                 ++ [{| id := now; text := JStr (input st); sender := user;
                        isError := false |}; entry]
               /\ sender entry = match o with inr _ => ai | inl _ => system end))
  /\ (selectedWebsite = None \/ blank (input st) = true ->
      exec now (handleSubmit selectedWebsite st) st = (st, [], None)).
Proof.
  split.
  - intros site -> Hblank.
    destruct (handleSubmit_accepted site st now Hblank) as [k [Hrun Hrest]].
    exists k. cbv zeta. split; [exact Hrun|]. split; [reflexivity|]. split.
    + intros o later now'. exists (reply now' o).
      split; [apply Hrest|]. destruct o; cbn; auto.
    + intros o now'. exists (reply now' o). rewrite Hrest. cbn.
      rewrite <- app_assoc. split; [reflexivity|]. destruct o; reflexivity.
  - apply handleSubmit_rejected.
Qed.

(** C9.  Whatever a failed chat request carries, the entry appended is the
    fixed apology, from [system] and flagged as an error; two failures
    with different backend bodies leave the panel in the same state, so
    the backend's error string is not on screen. *)
Theorem chat_failure_is_generic (site : Selection) (st : State) (now : Z) :
  blank (input st) = false ->
  exists k : AxiosError + ChatData -> Prog State unit,
    snd (exec now (handleSubmit (Some site) st) st) =
      Some {| sent := PostChat (vectorDbId site) (input st); resume := k |}
    /\ (forall (err : AxiosError) (later : State) (now' : Z),
          exec now' (k (inl err)) later =
            ({| messages :=
                  messages later
                  ++ [{| id := now' + 1;
                         text := JStr (lit "Sorry, there was an error processing your request. Please try again.");
                         sender := system; isError := true |}];
                input := input later; isLoading := false |}, [], None))
    /\ (forall (err err' : AxiosError) (later : State) (now' : Z),
          render (Some site) (fst (fst (exec now' (k (inl err)) later))) =
          render (Some site) (fst (fst (exec now' (k (inl err')) later)))).
Proof.
  intros Hblank.
  destruct (handleSubmit_accepted site st now Hblank) as [k [Hrun Hrest]].
  exists k. rewrite Hrun. split; [reflexivity|]. split.
  - intros err later now'. rewrite Hrest. reflexivity.
  - intros err err' later now'. rewrite !Hrest. reflexivity.
Qed.

End ChatBoxFacts.

(* ===================================================================== *)
(** ** The URL form *)
(* ===================================================================== *)

Module URLInputFacts.
Import URLInput.

Section WithURL.

Variable URL_parses : jsstring -> bool.

(** A submission that passes both checks runs up to its [await]; the
    rest of the handler on a response, and on a rejection. *)
Lemma handleSubmit_valid (given : bool) (st : State) (now : Z) :
  url st <> [] -> URL_parses (url st) = true ->
  exists k : AxiosError + ScrapeData -> Prog State unit,
    exec now (handleSubmit URL_parses given st) st =
      ({| url := url st; isLoading := true; error := []; success := [] |}, [],
       Some {| sent := PostScrape (url st); resume := k |})
    /\ (forall (response : ScrapeData) (later : State) (now' : Z),
          exec now' (k (inr response)) later =
            ({| url := url later; isLoading := false; error := error later;
                success := lit "Successfully scraped and vectorized "
                           ++ toString (pages_scraped response)
                           ++ lit " pages from " ++ url st |},
             if given
             then [OnWebsiteVectorized
                     {| websiteId := website_id response;
                        vectorDbId := scraped_vector_db_id response;
                        sel_url := JStr (url st) |}]
             else [],
             None))
    /\ (forall (err : AxiosError) (later : State) (now' : Z),
          exec now' (k (inl err)) later =
            ({| url := url later; isLoading := false;
                error := or_else (response_data_error err)
                           (lit "Failed to scrape the website. Please try again.");
                success := success later |}, [], None)).
Proof.
  intros Hne Hok. unfold handleSubmit. rewrite Hok.
  rewrite (truthy_nonempty Hne). cbn. eexists. split; [reflexivity|].
  split; intros; destruct given; reflexivity.
Qed.

(** A submission that fails a check only sets the error. *)
Lemma handleSubmit_invalid (given : bool) (st : State) (now : Z) :
  url st = [] \/ URL_parses (url st) = false ->
  exec now (handleSubmit URL_parses given st) st =
    ({| url := url st; isLoading := isLoading st;
        error := if negb (truthy (JStr (url st)))
                 then lit "Please enter a URL"
                 else lit "Please enter a valid URL (including http:// or https://)";
        success := success st |}, [], None).
Proof.
  unfold handleSubmit. intros [E | E].
  - replace (truthy (JStr (url st))) with false by (rewrite E; reflexivity).
    reflexivity.
  - rewrite E. destruct (truthy (JStr (url st))); reflexivity.
Qed.

(** C2.  An input that is empty or that [new URL] refuses only sets a
    non-empty error, which the form then shows, and sends nothing; when a
    submission does send a request, the input is non-empty, [new URL]
    accepted it, and the request is the scrape of that input. *)
Theorem invalid_url_sends_nothing (given : bool) (st : State) (now : Z) :
  (url st = [] \/ URL_parses (url st) = false ->
   exists msg : jsstring,
     msg <> []
     /\ exec now (handleSubmit URL_parses given st) st =
          ({| url := url st; isLoading := isLoading st; error := msg;
              success := success st |}, [], None)
     /\ errorShown
          (render (fst (fst (exec now (handleSubmit URL_parses given st) st)))) =
        Some msg)
  /\ (forall p : Paused State,
        snd (exec now (handleSubmit URL_parses given st) st) = Some p ->
        url st <> [] /\ URL_parses (url st) = true
        /\ wire (sent p) =
             {| http_method := POST; http_path := "/api/websites/scrape/";
                http_body := [("url"%string, JStr (url st))] |}).
Proof.
  split.
  - intros Hbad. rewrite (handleSubmit_invalid given st now Hbad).
    eexists. split; [|split; [reflexivity|]].
    + destruct (negb (truthy (JStr (url st)))); discriminate.
    + destruct (negb (truthy (JStr (url st)))); reflexivity.
  - intros p Hp.
    assert (Hcases : url st = [] \/ url st <> [])
      by (destruct (url st); [left; reflexivity | right; discriminate]).
    destruct Hcases as [E | E].
    + rewrite (handleSubmit_invalid given st now) in Hp by (left; exact E).
      discriminate.
    + destruct (URL_parses (url st)) eqn:Hok.
      * destruct (handleSubmit_valid given st now E Hok) as [k [Hrun _]].
        rewrite Hrun in Hp. injection Hp as <-.
        repeat split; assumption || reflexivity.
      * rewrite (handleSubmit_invalid given st now) in Hp by (right; exact Hok).
        discriminate.
Qed.

(** C7.  After a valid submission of [url st], a successful scrape
    response makes the rest of the handler call [onWebsiteVectorized]
    once, with [{websiteId, vectorDbId, url}] from the response and the
    submitted url, and nothing else; the root then holds that triple as
    the selected site; and the success message, shown under the form,
    contains the page count and the submitted url. *)
Theorem scrape_success_surfaces_site (st : State) (now : Z) :
  url st <> [] -> URL_parses (url st) = true ->
  exists k : AxiosError + ScrapeData -> Prog State unit,
    snd (exec now (handleSubmit URL_parses true st) st) =
      Some {| sent := PostScrape (url st); resume := k |}
    /\ forall (response : ScrapeData) (later : State) (now' : Z),
         let site := {| websiteId := website_id response;
                        vectorDbId := scraped_vector_db_id response;
                        sel_url := JStr (url st) |} in
         exists msg : jsstring,
           exec now' (k (inr response)) later =
             ({| url := url later; isLoading := false; error := error later;
                 success := msg |}, [OnWebsiteVectorized site], None)
           /\ includes msg (toString (pages_scraped response)) = true
           /\ includes msg (url st) = true
           /\ successShown
                (render (fst (fst (exec now' (k (inr response)) later)))) =
              Some msg
           /\ forall app : App.State,
                App.selectedProp (App.call (OnWebsiteVectorized site) app) =
                Some site.
Proof.
  intros Hne Hok.
  destruct (handleSubmit_valid true st now Hne Hok) as [k [Hrun [Hok' _]]].
  exists k. rewrite Hrun. split; [reflexivity|].
  intros response later now'. cbv zeta. rewrite Hok'.
  exists (lit "Successfully scraped and vectorized "
          ++ toString (pages_scraped response) ++ lit " pages from " ++ url st).
  split; [reflexivity|]. split; [apply includes_mid|]. split.
  - rewrite !app_assoc. apply includes_suffix.
  - split; reflexivity.
Qed.

End WithURL.

End URLInputFacts.

(* ===================================================================== *)
(** ** A program logic for handlers *)
(* ===================================================================== *)

Section ProgramLogicFacts.

Context {S : Type}.
Variable inv : S -> Prop.
Variable allowed : HttpRequest -> Prop.
Variable may_call : Callback -> Prop.

Local Abbreviation safe := (safe inv allowed may_call).
Local Abbreviation safe_paused := (safe_paused inv allowed may_call).
Local Abbreviation safe_turn := (safe_turn inv allowed may_call).

Lemma safe_bind (A B : Type) (p : Prog S A) (f : A -> Prog S B) :
  safe p -> (forall a, safe (f a)) -> safe (bind p f).
Proof.
  intros Hp Hf. induction Hp; cbn; try (constructor; auto). apply Hf.
Qed.

(** One turn of a safe program keeps the invariant, calls only the props
    it may, and parks a safe rest. *)
Lemma safe_exec (now : Z) (p : Prog S unit) :
  safe p -> forall st, inv st -> safe_turn (exec now p st).
Proof.
  unfold safe_turn.
  induction 1 as [a | f k Hf Hk IH | c k Hc Hk IH | k Hk IH | R r k Hr Hk IH];
    intros st Hst; cbn.
  - repeat split; [exact Hst | constructor].
  - apply IH, Hf, Hst.
  - destruct (IH st Hst) as [H1 [H2 H3]].
    destruct (exec now k st) as [[st' cs] q]. cbn in *.
    repeat split; try assumption. constructor; assumption.
  - apply IH, Hst.
  - repeat split; [exact Hst | constructor | exact Hr | exact Hk].
Qed.

Lemma safe_exec_calls (now : Z) (p : Prog S unit) (st : S) :
  safe p -> inv st -> Forall may_call (snd (fst (exec now p st))).
Proof. intros Hp Hst. apply (safe_exec now Hp Hst). Qed.

End ProgramLogicFacts.

(** Decompose a goal [safe inv allowed may_call p] along the shape of
    [p]. *)
Ltac safe_step :=
  first
    [ apply safe_ret
    | apply safe_set; [cbn; intros | ]
    | apply safe_emit; [cbn | ]
    | apply safe_now; intro
    | apply safe_await; [ | intros [?err | ?response]]
    | match goal with
      | |- safe _ _ _ (if ?b then _ else _) => destruct b
      | |- safe _ _ _ (match ?o with Some _ => _ | None => _ end) => destruct o
      end ].

Ltac safe_auto := cbn; repeat (safe_step; cbn); try reflexivity; auto.

(* ===================================================================== *)
(** ** Invariants of the running application *)
(* ===================================================================== *)

Module Invariants.
Import Spec.

Lemma filter_vectorized (data : list Website) :
  Forall (fun w => VectorSelection.vectorized w = true)
         (filter VectorSelection.vectorized data).
Proof.
  apply Forall_forall. intros w Hw. apply filter_In in Hw. apply Hw.
Qed.

Lemma fetchWebsites_safe :
  safe roster_ok other_request vocal VectorSelection.fetchWebsites.
Proof.
  unfold VectorSelection.fetchWebsites. safe_auto.
  unfold roster_ok. cbn. apply filter_vectorized.
Qed.

Lemma handleSelectWebsite_safe (given : bool) (website : Website) :
  safe roster_ok other_request vocal (VectorSelection.handleSelectWebsite given website).
Proof. unfold VectorSelection.handleSelectWebsite. destruct given; safe_auto. Qed.

Lemma handleDeleteWebsite_safe (given : bool) (r : VectorSelection.State)
  (website : Website) (confirmDelete : bool) :
  safe roster_ok other_request vocal
       (VectorSelection.handleDeleteWebsite given r website confirmDelete).
Proof.
  unfold VectorSelection.handleDeleteWebsite.
  destruct confirmDelete; cbn; [|constructor].
  do 2 (apply safe_set; [auto|]). apply safe_await; [reflexivity|].
  intros [err | []]; cbn.
  - match goal with
    | |- context [if ?b then _ else _] => destruct b
    end; safe_auto.
  - apply safe_bind; [|intros; safe_auto].
    apply safe_bind; [|intros; exact fetchWebsites_safe].
    destruct (strict_eq _ _); [destruct given|]; safe_auto.
Qed.

Lemma URLInput_handleSubmit_safe (URL_parses : jsstring -> bool) (given : bool)
  (r : URLInput.State) :
  safe any other_request vocal (URLInput.handleSubmit URL_parses given r).
Proof.
  unfold URLInput.handleSubmit.
  destruct (negb (truthy (JStr (URLInput.url r)))); [safe_auto|].
  destruct (negb (URL_parses (URLInput.url r))); [safe_auto|].
  destruct given; safe_auto.
Qed.

Lemma ChatBox_handleSubmit_safe (sel : option Selection) (r : ChatBox.State) :
  safe any other_request silent (ChatBox.handleSubmit sel r).
Proof.
  unfold ChatBox.handleSubmit. destruct sel as [site|]; [|constructor].
  destruct (negb (truthy (JStr (trim (ChatBox.input r))))); safe_auto.
Qed.

Lemma fetchSystemInfo_rest_safe (o : AxiosError + SystemInfoData) :
  safe any other_request vocal
       (match o with
        | inr data =>
            SystemInfo.setSystemInfo (Some data) ;; SystemInfo.setIsLoading false
        | inl err =>
            SystemInfo.setError (lit "Failed to load system information") ;;
            SystemInfo.setIsLoading false
        end).
Proof. destruct o; safe_auto. Qed.

Lemma call_inv (c : Callback) (s : App.State) : Inv s -> Inv (App.call c s).
Proof. intros [H1 H2 H3]. destruct c; constructor; assumption. Qed.

Lemma calls_inv (cs : list Callback) (s : App.State) :
  Inv s -> Inv (fold_left (fun acc c => App.call c acc) cs s).
Proof.
  revert s. induction cs as [|c cs IH]; intros s H; cbn; [exact H|].
  apply IH, call_inv, H.
Qed.

Lemma send_inv (pending : App.Pending) (h : HttpRequest) (s : App.State) :
  Inv s -> good pending -> other_request h -> Inv (App.send pending h s).
Proof.
  intros [H1 H2 [rest [H3 H4]]] Hp Hh. constructor; cbn.
  - exact H1.
  - apply Forall_app. split; [exact H2 | constructor; [exact Hp | constructor]].
  - exists (rest ++ [h]). rewrite H3. split; [reflexivity|].
    apply Forall_app. split; [exact H4 | constructor; [exact Hh | constructor]].
Qed.

Lemma drop_inv (i : nat) (s : App.State) :
  Inv s -> Inv (App.put_inflight (App.remove_nth i (App.inflight s)) s).
Proof.
  intros [H1 H2 H3]. constructor; cbn; try assumption.
  unfold App.remove_nth. rewrite Forall_forall in *. intros x Hx.
  apply H2. apply in_app_or in Hx as [Hx | Hx].
  - rewrite <- (firstn_skipn i). apply in_or_app. left. exact Hx.
  - rewrite <- (firstn_skipn (S i)). apply in_or_app. right. exact Hx.
Qed.

(** Folding a turn into the application keeps the invariant, provided the
    turn kept the component's own invariant and parked a safe rest. *)
Lemma commit_inv (S : Type) (P : S -> Prop) (C : Callback -> Prop)
  (put : S -> App.State -> App.State) (park : Paused S -> App.Pending)
  (turn : S * list Callback * option (Paused S)) (s : App.State) :
  (forall st s0, Inv s0 -> P st -> Inv (put st s0)) ->
  (forall q, safe_paused P other_request C q -> good (park q)) ->
  Inv s -> safe_turn P other_request C turn ->
  Inv (App.commit put park turn s).
Proof.
  intros Hput Hpark Hs [Hst [_ Hq]]. destruct turn as [[st calls] parked].
  cbn in *. apply calls_inv. destruct parked as [q|].
  - destruct Hq as [Hsent Hrest].
    apply send_inv; [apply Hput; assumption | apply Hpark, Hrest | exact Hsent].
  - apply Hput; assumption.
Qed.

Lemma put_systemInfo_inv (st : SystemInfo.State) (s : App.State) :
  Inv s -> any st -> Inv (App.put_systemInfo st s).
Proof. intros [H1 H2 H3] _. constructor; assumption. Qed.

Lemma put_urlInput_inv (st : URLInput.State) (s : App.State) :
  Inv s -> any st -> Inv (App.put_urlInput st s).
Proof. intros [H1 H2 H3] _. constructor; assumption. Qed.

Lemma put_chatBox_inv (st : ChatBox.State) (s : App.State) :
  Inv s -> any st -> Inv (App.put_chatBox st s).
Proof. intros [H1 H2 H3] _. constructor; assumption. Qed.

Lemma put_vectorSelection_inv (st : VectorSelection.State) (s : App.State) :
  Inv s -> roster_ok st -> Inv (App.put_vectorSelection st s).
Proof. intros [H1 H2 H3] H. constructor; assumption. Qed.

Lemma Some_eq (A : Type) (a b : A) : Some a = Some b -> a = b.
Proof. congruence. Qed.

Lemma wake_inv (S : Type) (P : S -> Prop) (C : Callback -> Prop)
  (put : S -> App.State -> App.State) (park : Paused S -> App.Pending)
  (now : Z) (p : Paused S) (x : App.Settlement) (st : S) (s s' : App.State) :
  (forall st s0, Inv s0 -> P st -> Inv (put st s0)) ->
  (forall q, safe_paused P other_request C q -> good (park q)) ->
  Inv s -> P st -> safe_paused P other_request C p ->
  App.wake put park now p x st s = Some s' -> Inv s'.
Proof.
  intros Hput Hpark Hs Hst Hp. unfold App.wake.
  destruct (App.outcome (sent p) x) as [o|]; [|discriminate].
  intros H. apply Some_eq in H. subst s'.
  apply commit_inv with (P := P) (C := C); try assumption.
  apply safe_exec; [apply Hp | exact Hst].
Qed.

Lemma start_inv : Inv App.start.
Proof.
  constructor; cbn.
  - constructor.
  - repeat constructor.
    + intros o. cbn. apply fetchSystemInfo_rest_safe.
    + intros o. cbn. destruct o; safe_auto.
      unfold roster_ok. cbn. apply filter_vectorized.
  - eexists. split; [reflexivity|]. repeat constructor.
Qed.

Section WithURL.

Variable URL_parses : jsstring -> bool.

Lemma step_inv (now : Z) (e : App.Event) (s s' : App.State) :
  Inv s -> App.step URL_parses now e s = Some s' -> Inv s'.
Proof.
  intros Hs. destruct e as [v | | i | i c | v | | | i x]; unfold App.step.
  - destruct (URLInput.isLoading _); [discriminate|].
    intros H. apply Some_eq in H. subst s'. apply put_urlInput_inv; [assumption | exact I].
  - destruct (URLInput.isLoading _); [discriminate|].
    intros H. apply Some_eq in H. subst s'.
    apply commit_inv with (P := any) (C := vocal); auto using put_urlInput_inv.
    apply safe_exec; [apply URLInput_handleSubmit_safe | exact I].
  - destruct (nth_error _ i) as [website|]; [|discriminate].
    intros H. apply Some_eq in H. subst s'.
    apply commit_inv with (P := roster_ok) (C := vocal);
      auto using put_vectorSelection_inv.
    apply safe_exec; [apply handleSelectWebsite_safe | apply Hs].
  - destruct (nth_error _ i) as [website|]; [|discriminate].
    destruct (strict_eq _ _); [discriminate|].
    intros H. apply Some_eq in H. subst s'.
    apply commit_inv with (P := roster_ok) (C := vocal);
      auto using put_vectorSelection_inv.
    apply safe_exec; [apply handleDeleteWebsite_safe | apply Hs].
  - destruct (App.selectedWebsite s); [|discriminate].
    destruct (ChatBox.isLoading _); [discriminate|].
    intros H. apply Some_eq in H. subst s'. apply put_chatBox_inv; [assumption | exact I].
  - destruct (App.selectedWebsite s) eqn:E; [|discriminate].
    intros H. apply Some_eq in H. subst s'.
    apply commit_inv with (P := any) (C := silent); auto using put_chatBox_inv.
    apply safe_exec; [apply ChatBox_handleSubmit_safe | exact I].
  - destruct (SystemInfo.render _); try discriminate.
    intros H. apply Some_eq in H. subst s'. apply put_systemInfo_inv; [assumption | exact I].
  - destruct (nth_error (App.inflight s) i) as [pending|] eqn:E; [|discriminate].
    assert (Hgood : good pending).
    { destruct Hs as [_ H _]. rewrite Forall_forall in H.
      apply H. eapply nth_error_In. exact E. }
    pose proof (drop_inv i Hs) as Hs'.
    destruct pending as [p | p | p | p]; cbn in Hgood; intros H.
    + exact (@wake_inv _ any vocal App.put_systemInfo App.InSystemInfo _ _ _ _ _ _
               (@put_systemInfo_inv)
               (fun q Hq => Hq) Hs' I Hgood H).
    + exact (@wake_inv _ any vocal App.put_urlInput App.InURLInput _ _ _ _ _ _
               (@put_urlInput_inv)
               (fun q Hq => Hq) Hs' I Hgood H).
    + exact (@wake_inv _ roster_ok vocal App.put_vectorSelection
               App.InVectorSelection _ _ _ _ _ _
               (@put_vectorSelection_inv)
               (fun q Hq => Hq) Hs' (inv_roster Hs') Hgood H).
    + exact (@wake_inv _ any silent App.put_chatBox App.InChatBox _ _ _ _ _ _
               (@put_chatBox_inv)
               (fun q Hq => Hq) Hs' I Hgood H).
Qed.

(** Every reachable state satisfies the invariant. *)
Lemma reachable_inv (s : App.State) : App.reachable URL_parses s -> Inv s.
Proof.
  induction 1 as [| s now e s' _ IH Hstep]; [exact start_inv|].
  exact (step_inv now e IH Hstep).
Qed.

End WithURL.

End Invariants.

(* ===================================================================== *)
(** ** The site roster *)
(* ===================================================================== *)

Module VectorSelectionFacts.
Import VectorSelection Spec.

(** The rows on screen are rows of the list. *)
Lemma displayed_incl (st : State) (w : Website) :
  In w (displayed st) -> In w (websites st).
Proof.
  unfold displayed, render.
  destruct (isLoading st); [intros []|].
  destruct (truthy (JStr (error st))); [intros []|].
  destruct (Nat.eqb _ 0); [intros []|].
  rewrite map_map, map_id. auto.
Qed.

(** [fetchWebsites] up to its [await], and the rest on a response. *)
Lemma fetchWebsites_turns (st : State) (now : Z) :
  exists k : AxiosError + list Website -> Prog State unit,
    exec now fetchWebsites st =
      ({| websites := websites st; isLoading := true; error := error st;
          selectedWebsite := selectedWebsite st; deletingId := deletingId st |},
       [], Some {| sent := GetWebsites; resume := k |})
    /\ forall (data : list Website) (later : State) (now' : Z),
         exec now' (k (inr data)) later =
           ({| websites := filter vectorized data; isLoading := false;
               error := error later; selectedWebsite := selectedWebsite later;
               deletingId := deletingId later |}, [], None).
Proof.
  eexists. split; [reflexivity|]. intros data later now'. reflexivity.
Qed.

(** C3.  Whatever list [GET /api/websites/] returns, the roster keeps
    exactly the entries with a truthy [vector_db_id], and what it then
    shows are entries of the response with a truthy [vector_db_id]; and
    in every state the application can reach, every site on screen in the
    roster has a [vector_db_id] that is truthy, hence neither [null] nor
    absent. *)
Theorem roster_shows_only_vectorized (URL_parses : jsstring -> bool) :
  (forall (data : list Website) (st later : State) (now now' : Z),
     exists k : AxiosError + list Website -> Prog State unit,
       snd (exec now fetchWebsites st) =
         Some {| sent := GetWebsites; resume := k |}
       /\ websites (fst (fst (exec now' (k (inr data)) later))) =
            filter (fun website => truthy (vector_db_id website)) data
       /\ forall w : Website,
            In w (displayed (fst (fst (exec now' (k (inr data)) later)))) ->
            In w data /\ truthy (vector_db_id w) = true)
  /\ (forall s : App.State,
        App.reachable URL_parses s ->
        forall w : Website,
          In w (displayed (App.vectorSelection s)) ->
          truthy (vector_db_id w) = true
          /\ vector_db_id w <> JNull /\ vector_db_id w <> JUndefined).
Proof.
  split.
  - intros data st later now now'.
    destruct (fetchWebsites_turns st now) as [k [Hrun Hrest]].
    exists k. rewrite Hrun, Hrest. cbn. split; [reflexivity|].
    split; [reflexivity|].
    intros w Hw. apply displayed_incl in Hw. cbn in Hw.
    apply filter_In in Hw. exact Hw.
  - intros s Hs w Hw. apply Invariants.reachable_inv in Hs.
    destruct Hs as [Hroster _ _]. unfold Spec.roster_ok in Hroster.
    rewrite Forall_forall in Hroster.
    specialize (Hroster w (displayed_incl _ _ Hw)). unfold vectorized in Hroster.
    split; [exact Hroster|].
    split; intros E; rewrite E in Hroster; discriminate.
Qed.

Lemma selected_test (r : State) (website : Website) :
  id website <> JUndefined ->
  strict_eq (selected_id (selectedWebsite r)) (id website) = true
  <-> was_selected r website.
Proof.
  intros Hid. rewrite strict_eq_iff. unfold was_selected.
  destruct (selectedWebsite r) as [sel|]; cbn.
  - split; [intros E; exists sel; auto | intros [x [[= <-] E]]; exact E].
  - split; [congruence | intros [x [[=] _]]].
Qed.

(** A confirmed delete up to its [await], and the rest of the handler on
    either settlement. *)
Lemma handleDeleteWebsite_turns (given : bool) (st : State) (website : Website)
  (now : Z) :
  exists k : AxiosError + unit -> Prog State unit,
    exec now (handleDeleteWebsite given st website true) st =
      ({| websites := websites st; isLoading := isLoading st; error := [];
          selectedWebsite := selectedWebsite st; deletingId := id website |},
       [], Some {| sent := PostDelete (vector_db_id website); resume := k |})
    /\ (forall (err : AxiosError) (later : State) (now' : Z),
          let errorMessage := or_else (response_data_error err) (message err) in
          exec now' (k (inl err)) later =
            ({| websites := websites later; isLoading := isLoading later;
                error :=
                  if includes errorMessage (lit "process is using")
                     || includes errorMessage (lit "restart the server")
                  then fileLockText
                  else lit "Failed to delete website: " ++ errorMessage;
                selectedWebsite := selectedWebsite later; deletingId := JNull |},
             [], None))
    /\ (forall (later : State) (now' : Z),
          exists k' : AxiosError + list Website -> Prog State unit,
            let hit := strict_eq (selected_id (selectedWebsite st)) (id website) in
            exec now' (k (inr tt)) later =
              ({| websites := websites later; isLoading := true;
                  error := error later;
                  selectedWebsite := if hit then None else selectedWebsite later;
                  deletingId := deletingId later |},
               if hit && given then [OnSelectWebsite None] else [],
               Some {| sent := GetWebsites; resume := k' |})
            /\ forall (data : list Website) (last : State) (now'' : Z),
                 exec now'' (k' (inr data)) last =
                   ({| websites := filter vectorized data; isLoading := false;
                       error := error last;
                       selectedWebsite := selectedWebsite last;
                       deletingId := JNull |}, [], None)).
Proof.
  eexists. split; [reflexivity|]. split.
  - intros err later now'. cbn.
    destruct (includes _ _ || includes _ _); reflexivity.
  - intros later now'. eexists. cbn.
    destruct (strict_eq _ _); [destruct given|]; cbn;
      (split; [reflexivity|]); intros; reflexivity.
Qed.

(** C4, as the code has it.  A confirmed delete of a roster row sends
    the delete request; when it succeeds, the rest of the handler
    re-fetches the roster with [GET /api/websites/] and leaves the local
    list as it is until that response replaces it.  The selection the
    handler tests is the roster's own, the one its rows are highlighted
    by, as the render in which the delete was clicked had it ([st]): if
    its id is strictly equal to the id of the deleted row, the handler
    clears the roster's selection and calls [onSelectWebsite(null)] once,
    which sets the root's selected site to [null]; otherwise it calls no
    prop, so the root's state is untouched, and leaves the roster's
    selection as it is.  When the roster's selection has not changed
    while the request was pending, the row tested is the row highlighted
    when the request succeeds.  For a row that carries an id the test
    holds exactly when the roster had a site with that id selected. *)
Theorem delete_success_roster_selection (st : State) (website : Website)
  (now : Z) :
  (exists k : AxiosError + unit -> Prog State unit,
     snd (exec now (handleDeleteWebsite true st website true) st) =
       Some {| sent := PostDelete (vector_db_id website); resume := k |}
     /\ forall (later : State) (now' : Z),
          exists k' : AxiosError + list Website -> Prog State unit,
            let turn := exec now' (k (inr tt)) later in
            let hit := strict_eq (selected_id (selectedWebsite st)) (id website) in
            snd turn = Some {| sent := GetWebsites; resume := k' |}
            /\ websites (fst (fst turn)) = websites later
            /\ (forall (data : list Website) (last : State) (now'' : Z),
                  websites (fst (fst (exec now'' (k' (inr data)) last))) =
                  filter vectorized data)
            /\ (hit = true ->
                snd (fst turn) = [OnSelectWebsite None]
                /\ selectedWebsite (fst (fst turn)) = None
                /\ forall app : App.State,
                     App.selectedWebsite
                       (fold_left (fun acc c => App.call c acc) (snd (fst turn)) app)
                     = None)
            /\ (hit = false ->
                snd (fst turn) = []
                /\ selectedWebsite (fst (fst turn)) = selectedWebsite later
                /\ forall app : App.State,
                     fold_left (fun acc c => App.call c acc) (snd (fst turn)) app
                     = app)
            /\ (selectedWebsite later = selectedWebsite st ->
                hit = row_selected (Flight.row_of later website)))
  /\ (id website <> JUndefined ->
      (strict_eq (selected_id (selectedWebsite st)) (id website) = true
       <-> was_selected st website)).
Proof.
  split; [|apply selected_test].
  destruct (handleDeleteWebsite_turns true st website now)
    as [k [Hrun [_ Hok]]].
  exists k. rewrite Hrun. split; [reflexivity|].
  intros later now'. destruct (Hok later now') as [k' [Hturn Hfetch]].
  exists k'. cbv zeta in *. rewrite Hturn. cbn [fst snd].
  split; [reflexivity|]. split; [reflexivity|]. split.
  { intros data last now''. rewrite Hfetch. reflexivity. }
  split; [|split].
  - intros ->. repeat split.
  - intros ->. repeat split.
  - intros E. cbn [Flight.row_of row_selected]. rewrite E. reflexivity.
Qed.

(** C5.  When a delete fails, the error the roster sets is: the fixed
    instruction to restart the server when the backend's message (or,
    without one, the message of the error itself) contains
    "process is using" or "restart the server", and that instruction is
    not the message received; otherwise "Failed to delete website: "
    followed by that message, so the text contains it.  With no fetch
    under way, that error is what the roster shows. *)
Theorem delete_failure_message (st : State) (website : Website) (now : Z) :
  exists k : AxiosError + unit -> Prog State unit,
    snd (exec now (handleDeleteWebsite true st website true) st) =
      Some {| sent := PostDelete (vector_db_id website); resume := k |}
    /\ forall (err : AxiosError) (later : State) (now' : Z),
         let errorMessage := or_else (response_data_error err) (message err) in
         let failed := fst (fst (exec now' (k (inl err)) later)) in
         (includes errorMessage (lit "process is using") = true
          \/ includes errorMessage (lit "restart the server") = true ->
          error failed = fileLockText
          /\ fileLockText <> errorMessage
          /\ includes fileLockText (lit "Please restart the Django server") = true)
         /\ (includes errorMessage (lit "process is using") = false ->
             includes errorMessage (lit "restart the server") = false ->
             error failed = lit "Failed to delete website: " ++ errorMessage
             /\ includes (error failed) errorMessage = true)
         /\ (forall m : jsstring,
               response_data_error err = Some m -> m <> [] -> errorMessage = m)
         /\ (response_data_error err = None \/ response_data_error err = Some [] ->
             errorMessage = message err)
         /\ (isLoading later = false -> render failed = ErrorView (error failed)).
Proof.
  destruct (handleDeleteWebsite_turns true st website now)
    as [k [Hrun [Hfail _]]].
  exists k. rewrite Hrun. split; [reflexivity|].
  intros err later now'. cbv zeta. rewrite Hfail. cbn [fst snd error].
  set (errorMessage := or_else (response_data_error err) (message err)).
  split; [|split; [|split; [|split]]].
  - intros H. split; [|split].
    + destruct H as [H | H]; rewrite H; [reflexivity|].
      rewrite orb_true_r. reflexivity.
    + intros E. rewrite <- E in H. destruct H as [H | H]; vm_compute in H;
        discriminate.
    + vm_compute. reflexivity.
  - intros H1 H2. rewrite H1, H2. cbn [orb]. split; [reflexivity|].
    apply includes_suffix.
  - intros m Hm Hne. unfold errorMessage. rewrite Hm.
    destruct m; [congruence | reflexivity].
  - intros [H | H]; unfold errorMessage; rewrite H; reflexivity.
  - intros Hload. unfold render. cbn [isLoading error]. rewrite Hload.
    destruct (includes errorMessage (lit "process is using")
              || includes errorMessage (lit "restart the server"));
      reflexivity.
Qed.

(** C10.  A failed delete leaves the roster's list and its selection as
    they were at the time of the failure: of the roster's state only the
    error text and [deletingId] differ afterwards, no prop is called (so
    the root's selection is not touched) and no request is sent.  The
    first half of the handler, before the request, had likewise only set
    [deletingId] and cleared the error. *)
Theorem delete_failure_keeps_roster (st : State) (website : Website) (now : Z) :
  exists k : AxiosError + unit -> Prog State unit,
    exec now (handleDeleteWebsite true st website true) st =
      ({| websites := websites st; isLoading := isLoading st; error := [];
          selectedWebsite := selectedWebsite st; deletingId := id website |},
       [], Some {| sent := PostDelete (vector_db_id website); resume := k |})
    /\ forall (err : AxiosError) (later : State) (now' : Z),
         exists text : jsstring,
           exec now' (k (inl err)) later =
             ({| websites := websites later; isLoading := isLoading later;
                 error := text; selectedWebsite := selectedWebsite later;
                 deletingId := JNull |}, [], None).
Proof.
  destruct (handleDeleteWebsite_turns true st website now)
    as [k [Hrun [Hfail _]]].
  exists k. split; [exact Hrun|].
  intros err later now'. eexists. apply Hfail.
Qed.

End VectorSelectionFacts.

(* ===================================================================== *)
(** ** Changing the selected site *)
(* ===================================================================== *)

Module SiteChange.
Import Spec.

Lemma Object_is_refl (a : option (App.Ref Selection)) : App.Object_is a a = true.
Proof. destruct a; cbn; [apply Nat.eqb_refl | reflexivity]. Qed.

Lemma Object_is_carry (a b c : option (App.Ref Selection)) :
  App.Object_is a b = true -> App.Object_is a c = false ->
  App.Object_is b c = false.
Proof.
  destruct a, b, c; cbn; try congruence.
  rewrite Nat.eqb_eq. intros ->. auto.
Qed.

Lemma call_chat (c : Callback) (s : App.State) :
  App.chatBox (App.call c s) =
    if App.Object_is (App.selectedWebsite s) (App.selectedWebsite (App.call c s))
    then App.chatBox s else cleared (App.chatBox s).
Proof. destruct c; reflexivity. Qed.

(** The prop calls of one turn leave the chat state alone or cleared,
    and cleared when the selected object is a different one at the end. *)
Lemma calls_chat (cs : list Callback) (s : App.State) :
  let s' := fold_left (fun acc c => App.call c acc) cs s in
  (App.chatBox s' = App.chatBox s \/ App.chatBox s' = cleared (App.chatBox s))
  /\ (App.Object_is (App.selectedWebsite s) (App.selectedWebsite s') = false ->
      App.chatBox s' = cleared (App.chatBox s)).
Proof.
  revert s. induction cs as [|c cs IH]; intros s; cbn.
  - split; [left; reflexivity|]. rewrite Object_is_refl. discriminate.
  - destruct (IH (App.call c s)) as [Hany Hchanged]. rewrite call_chat in *.
    destruct (App.Object_is (App.selectedWebsite s)
                (App.selectedWebsite (App.call c s))) eqn:E.
    + split; [exact Hany|]. intros H. apply Hchanged.
      exact (Object_is_carry _ _ _ E H).
    + assert (Hc : forall x, cleared (cleared x) = cleared x) by reflexivity.
      rewrite Hc in *. split; [right|intros _]; destruct Hany; assumption.
Qed.

(** A turn of a component other than the chat panel: the chat state can
    only change through the root's setter. *)
Lemma commit_chat (S : Type) (put : S -> App.State -> App.State)
  (park : Paused S -> App.Pending)
  (turn : S * list Callback * option (Paused S)) (s : App.State) :
  (forall st s0, App.selectedWebsite (put st s0) = App.selectedWebsite s0) ->
  (forall st s0, App.chatBox (put st s0) = App.chatBox s0) ->
  App.Object_is (App.selectedWebsite s)
    (App.selectedWebsite (App.commit put park turn s)) = false ->
  App.chatBox (App.commit put park turn s) = cleared (App.chatBox s).
Proof.
  intros Hsel Hchat. destruct turn as [[st calls] parked]. unfold App.commit.
  set (s2 := match parked with
             | Some p => App.send (park p) (wire (sent p)) (put st s)
             | None => put st s
             end).
  assert (E1 : App.selectedWebsite s2 = App.selectedWebsite s)
    by (unfold s2; destruct parked; cbn; apply Hsel).
  assert (E2 : App.chatBox s2 = App.chatBox s)
    by (unfold s2; destruct parked; cbn; apply Hchat).
  rewrite <- E1, <- E2. apply calls_chat.
Qed.

(** A turn that calls no prop leaves the selected object in place. *)
Lemma commit_quiet (S : Type) (put : S -> App.State -> App.State)
  (park : Paused S -> App.Pending)
  (turn : S * list Callback * option (Paused S)) (s : App.State) :
  (forall st s0, App.selectedWebsite (put st s0) = App.selectedWebsite s0) ->
  Forall Spec.silent (snd (fst turn)) ->
  App.selectedWebsite (App.commit put park turn s) = App.selectedWebsite s.
Proof.
  intros Hsel Hcalls. destruct turn as [[st calls] parked]. cbn in Hcalls.
  destruct calls as [|c calls]; [|inversion Hcalls as [|? ? []]].
  unfold App.commit. cbn. destruct parked; cbn; apply Hsel.
Qed.

Lemma wake_chat (S : Type) (put : S -> App.State -> App.State)
  (park : Paused S -> App.Pending) (now : Z) (p : Paused S)
  (x : App.Settlement) (st : S) (s s' : App.State) :
  (forall st s0, App.selectedWebsite (put st s0) = App.selectedWebsite s0) ->
  (forall st s0, App.chatBox (put st s0) = App.chatBox s0) ->
  App.wake put park now p x st s = Some s' ->
  App.Object_is (App.selectedWebsite s) (App.selectedWebsite s') = false ->
  App.chatBox s' = cleared (App.chatBox s).
Proof.
  intros Hsel Hchat. unfold App.wake.
  destruct (App.outcome (sent p) x) as [o|]; [|discriminate].
  intros H. apply Invariants.Some_eq in H. subst s'.
  apply commit_chat; assumption.
Qed.

Section WithURL.

Variable URL_parses : jsstring -> bool.

(** In a reachable state, a turn after which the selected object is a
    different one has cleared the transcript and left the rest of the
    chat state as it was. *)
Lemma step_site_change (now : Z) (e : App.Event) (s s' : App.State) :
  Spec.Inv s ->
  App.step URL_parses now e s = Some s' ->
  App.Object_is (App.selectedWebsite s) (App.selectedWebsite s') = false ->
  App.chatBox s' = cleared (App.chatBox s).
Proof.
  intros Hs. destruct e as [v | | i | i c | v | | | i x]; unfold App.step.
  - destruct (URLInput.isLoading _); [discriminate|].
    intros H. apply Invariants.Some_eq in H. subst s'. cbn.
    rewrite Object_is_refl. discriminate.
  - destruct (URLInput.isLoading _); [discriminate|].
    intros H. apply Invariants.Some_eq in H. subst s'.
    apply commit_chat; reflexivity.
  - destruct (nth_error _ i) as [website|]; [|discriminate].
    intros H. apply Invariants.Some_eq in H. subst s'.
    apply commit_chat; reflexivity.
  - destruct (nth_error _ i) as [website|]; [|discriminate].
    destruct (strict_eq _ _); [discriminate|].
    intros H. apply Invariants.Some_eq in H. subst s'.
    apply commit_chat; reflexivity.
  - destruct (App.selectedWebsite s) eqn:E; [|discriminate].
    destruct (ChatBox.isLoading _); [discriminate|].
    intros H. apply Invariants.Some_eq in H. subst s'. cbn.
    rewrite E, Nat.eqb_refl. discriminate.
  - destruct (App.selectedWebsite s) eqn:E; [|discriminate].
    intros H. apply Invariants.Some_eq in H. subst s'.
    rewrite commit_quiet; [rewrite E, Object_is_refl; discriminate | reflexivity |].
    apply (safe_exec_calls (inv := Spec.any) (allowed := Spec.other_request));
      [apply Invariants.ChatBox_handleSubmit_safe | exact I].
  - destruct (SystemInfo.render _); try discriminate.
    intros H. apply Invariants.Some_eq in H. subst s'. cbn.
    rewrite Object_is_refl. discriminate.
  - destruct (nth_error (App.inflight s) i) as [pending|] eqn:E; [|discriminate].
    assert (Hgood : Spec.good pending).
    { destruct Hs as [_ H _]. rewrite Forall_forall in H.
      apply H. eapply nth_error_In. exact E. }
    destruct pending as [p | p | p | p]; cbn in Hgood; intros H Hne.
    + exact (@wake_chat _ App.put_systemInfo App.InSystemInfo now p x _ _ s'
               (fun _ _ => eq_refl) (fun _ _ => eq_refl) H Hne).
    + exact (@wake_chat _ App.put_urlInput App.InURLInput now p x _ _ s'
               (fun _ _ => eq_refl) (fun _ _ => eq_refl) H Hne).
    + exact (@wake_chat _ App.put_vectorSelection App.InVectorSelection now p x
               _ _ s' (fun _ _ => eq_refl) (fun _ _ => eq_refl) H Hne).
    + exfalso. revert H Hne. unfold App.wake.
      destruct (App.outcome (sent p) x) as [o|]; [|discriminate].
      intros H. apply Invariants.Some_eq in H. subst s'.
      rewrite commit_quiet;
        [cbn; rewrite Object_is_refl; discriminate | reflexivity |].
      apply (safe_exec_calls (inv := Spec.any) (allowed := Spec.other_request));
        [apply Hgood | exact I].
Qed.

End WithURL.

End SiteChange.

(* ===================================================================== *)
(** ** The status panel *)
(* ===================================================================== *)

Module SystemInfoFacts.
Import SystemInfo Spec.

Lemma entry_known (info : SystemInfoData) (dbId : jsval) :
  (exists w, In w (websites info) /\ vector_db_id w = dbId) ->
  exists w, In w (websites info) /\ vector_db_id w = dbId
            /\ entry info dbId = Known (url w) dbId.
Proof.
  intros [w0 [Hin Hid]]. unfold entry.
  destruct (find _ (websites info)) as [w|] eqn:E.
  - apply find_some in E as [Hw Heq]. apply strict_eq_iff in Heq.
    exists w. auto.
  - apply (find_none _ _ E) in Hin. cbn in Hin.
    apply strict_eq_iff in Hid. congruence.
Qed.

Lemma entry_unknown (info : SystemInfoData) (dbId : jsval) :
  (forall w, In w (websites info) -> vector_db_id w <> dbId) ->
  entry info dbId = UnknownWebsite dbId.
Proof.
  intros Hnone. unfold entry.
  destruct (find _ (websites info)) as [w|] eqn:E; [|reflexivity].
  apply find_some in E as [Hw Heq]. apply strict_eq_iff in Heq.
  destruct (Hnone w Hw Heq).
Qed.

Lemma only_status_fetch (rest : list HttpRequest) :
  Forall Spec.other_request rest ->
  filter Spec.is_system_info rest = [].
Proof.
  induction 1 as [|h rest Hh _ IH]; cbn; [reflexivity|].
  unfold Spec.other_request in Hh. rewrite Hh. exact IH.
Qed.

(** No handler and no parked rest of one sends the status request: in
    every state the application can reach, the log of requests holds
    exactly one. *)
Lemma status_requested_once (URL_parses : jsstring -> bool) (s : App.State) :
  App.reachable URL_parses s ->
  List.length (filter Spec.is_system_info (App.requested s)) = 1.
Proof.
  intros Hs. apply Invariants.reachable_inv in Hs.
  destruct Hs as [_ _ [rest [-> Hrest]]]. cbn.
  rewrite (only_status_fetch Hrest). reflexivity.
Qed.

(** A panel that holds a snapshot, shows no error and is expanded lists
    one element per id of the snapshot's [vectorized_databases], in
    order. *)
Lemma expanded_panel_lists (st : State) (info : SystemInfoData) :
  systemInfo st = Some info -> isLoading st = false -> error st = [] ->
  isExpanded st = true ->
  exists details : Details,
    render st =
      Panel (truthy (ollama_running info))
            (List.length (vectorized_databases info)) (Some details)
    /\ listed (databases details) =
         map (entry info) (vectorized_databases info).
Proof.
  intros Hinfo Hload Herr Hexp. unfold render.
  rewrite Hload, Herr, Hexp, Hinfo. cbn. eexists. split; [reflexivity|].
  cbn. destruct (vectorized_databases info); reflexivity.
Qed.

End SystemInfoFacts.

Module SiteChangeFacts.
Import SiteChange Spec.

Lemma run_reachable (URL_parses : jsstring -> bool) (evs : list (Z * App.Event)) :
  forall s s' : App.State,
    App.reachable URL_parses s -> App.run URL_parses evs s = Some s' ->
    App.reachable URL_parses s'.
Proof.
  induction evs as [|[now e] evs IH]; intros s s' Hs; cbn.
  - intros [= <-]. exact Hs.
  - destruct (App.step URL_parses now e s) as [s1|] eqn:E; [|discriminate].
    apply IH. exact (App.reach_step now e Hs E).
Qed.

(** C6, as the code has it.  In every state the application can reach, a
    turn of the event loop after which the selected site is a different
    object leaves the transcript empty, within that same turn, and leaves
    the input and the pending flag as they were: the panel is idle
    afterwards exactly when no chat request was pending before. *)
Theorem site_change_clears_transcript (URL_parses : jsstring -> bool)
  (now : Z) (e : App.Event) (s s' : App.State) :
  App.reachable URL_parses s ->
  App.step URL_parses now e s = Some s' ->
  App.Object_is (App.selectedWebsite s) (App.selectedWebsite s') = false ->
  ChatBox.messages (App.chatBox s') = []
  /\ ChatBox.input (App.chatBox s') = ChatBox.input (App.chatBox s)
  /\ ChatBox.isLoading (App.chatBox s') = ChatBox.isLoading (App.chatBox s)
  /\ (ChatBox.idle (App.chatBox s') = true
      <-> ChatBox.isLoading (App.chatBox s) = false).
Proof.
  intros Hs Hstep Hne.
  rewrite (step_site_change URL_parses now e (Invariants.reachable_inv Hs) Hstep Hne).
  cbn. repeat split; unfold ChatBox.idle; cbn;
    destruct (ChatBox.isLoading (App.chatBox s)); cbn; congruence.
Qed.

(** C6, as stated, fails: the user asks about site A and, while the
    request is in flight, selects site B.  The selected object changes
    and the transcript is emptied, but the panel is not idle: the pending
    flag is still set, so the typing indicator shows and the input is
    disabled.  Hence it is not true that every change of the selected
    site leaves an idle panel with an empty transcript. *)
Lemma site_switch_with_request_pending :
  (exists s s' : App.State,
     App.run Scenario.accepts Scenario.asking_A App.start = Some s
     /\ App.step Scenario.accepts 50 (App.ClickRow 1) s = Some s'
     /\ App.Object_is (App.selectedWebsite s) (App.selectedWebsite s') = false
     /\ ChatBox.messages (App.chatBox s') = []
     /\ ChatBox.idle (App.chatBox s') = false
     /\ ChatBox.render (App.selectedProp s') (App.chatBox s') =
          ChatBox.Chat (JStr (lit "https://b.example")) true [] true true true)
  /\ ~ (forall (now : Z) (e : App.Event) (s s' : App.State),
          App.reachable Scenario.accepts s ->
          App.step Scenario.accepts now e s = Some s' ->
          App.Object_is (App.selectedWebsite s) (App.selectedWebsite s') = false ->
          ChatBox.messages (App.chatBox s') = []
          /\ ChatBox.idle (App.chatBox s') = true).
Proof.
  split.
  - eexists. eexists. split; [reflexivity|]. split; [reflexivity|].
    repeat split.
  - intros Hclaim.
    destruct (Hclaim 50%Z (App.ClickRow 1) _ _
                (@run_reachable Scenario.accepts Scenario.asking_A _ _
                   (App.reach_start Scenario.accepts) eq_refl)
                eq_refl eq_refl) as [_ Hidle].
    discriminate Hidle.
Qed.

End SiteChangeFacts.

(* ===================================================================== *)
(** ** The statements above, run on the scenarios *)
(* ===================================================================== *)

Module Examples.
Import Scenario.

(** Site 7 is selected and the user sends "What is this about?": the body
    of the request is [{vector_db_id: 7, query: "What is this about?"}],
    and once the answer is in, the transcript reads user, then
    assistant. *)
Lemma chat_submission_scenario :
  blank (ChatBox.input asking) = false
  /\ exists k : AxiosError + ChatData -> Prog ChatBox.State unit,
       snd (exec 1000 (ChatBox.handleSubmit (Some site7) asking) asking) =
         Some {| sent := PostChat (JNum 7) (lit "What is this about?");
                 resume := k |}
       /\ http_body (wire (PostChat (JNum 7) (lit "What is this about?"))) =
            [("vector_db_id"%string, JNum 7);
             ("query"%string, JStr (lit "What is this about?"))]
       /\ map (fun m => (ChatBox.sender m, ChatBox.text m))
            (ChatBox.messages
               (fst (fst (exec 2000 (k (inr its_a_blog))
                            (fst (fst (exec 1000
                                         (ChatBox.handleSubmit (Some site7) asking)
                                         asking))))))) =
          [(ChatBox.user, JStr (lit "What is this about?"));
           (ChatBox.ai, JStr (lit "It's a blog."))].
Proof.
  split; [reflexivity|].
  destruct (ChatBoxFacts.chat_submission (Some site7) asking 1000) as [Hacc _].
  destruct (Hacc site7 eq_refl eq_refl) as [k [Hrun [Hwire [Hrest _]]]].
  exists k. cbv zeta in Hrun. rewrite Hrun. cbn [fst snd].
  split; [reflexivity|]. split; [reflexivity|].
  destruct (Hrest (inr its_a_blog)
              {| ChatBox.messages :=
                   [{| ChatBox.id := 1000;
                       ChatBox.text := JStr (lit "What is this about?");
                       ChatBox.sender := ChatBox.user;
                       ChatBox.isError := false |}];
                 ChatBox.input := []; ChatBox.isLoading := true |} 2000%Z)
    as [entry [He [Hsender [Htext _]]]].
  cbn in He |- *. rewrite He. cbn. rewrite Hsender, Htext. reflexivity.
Defined.

(** The same question, with the request failing on a backend error. *)
Lemma chat_failure_scenario :
  blank (ChatBox.input asking) = false
  /\ exists k : AxiosError + ChatData -> Prog ChatBox.State unit,
       snd (exec 1000 (ChatBox.handleSubmit (Some site7) asking) asking) =
         Some {| sent := PostChat (JNum 7) (lit "What is this about?");
                 resume := k |}
       /\ map (fun m => (ChatBox.sender m, ChatBox.text m, ChatBox.isError m))
            (ChatBox.messages
               (fst (fst (exec 2000
                            (k (inl {| response_data_error :=
                                         Some (lit "Ollama is not running");
                                       message :=
                                         lit "Request failed with status code 500" |}))
                            ChatBox.init)))) =
          [(ChatBox.system, JStr ChatBox.errorText, true)].
Proof.
  split; [reflexivity|].
  destruct (ChatBoxFacts.chat_failure_is_generic site7 asking 1000 eq_refl)
    as [k [Hrun [Hfail _]]].
  exists k. split; [exact Hrun|]. rewrite Hfail. reflexivity.
Defined.

(** "not-a-url" is refused on the spot. *)
Lemma invalid_url_scenario :
  accepts (lit "not-a-url") = false
  /\ exists msg : jsstring,
       msg <> []
       /\ exec 0 (URLInput.handleSubmit accepts true (typed (lit "not-a-url")))
            (typed (lit "not-a-url")) =
          ({| URLInput.url := lit "not-a-url"; URLInput.isLoading := false;
              URLInput.error := msg; URLInput.success := [] |}, [], None).
Proof.
  split; [reflexivity|].
  destruct (URLInputFacts.invalid_url_sends_nothing accepts true
              (typed (lit "not-a-url")) 0) as [Hbad _].
  destruct (Hbad (or_intror eq_refl)) as [msg [Hne [Hrun _]]].
  exists msg. split; [exact Hne | exact Hrun].
Defined.

(** "https://example.com" scraped with five pages: the message has "5"
    and "example.com", and the form hands the site to the root. *)
Lemma scrape_scenario :
  URLInput.url (typed (lit "https://example.com")) <> []
  /\ accepts (lit "https://example.com") = true
  /\ exists k : AxiosError + ScrapeData -> Prog URLInput.State unit,
       snd (exec 0 (URLInput.handleSubmit accepts true
                      (typed (lit "https://example.com")))
              (typed (lit "https://example.com"))) =
         Some {| sent := PostScrape (lit "https://example.com"); resume := k |}
       /\ snd (fst (exec 1 (k (inr five_pages)) URLInput.init)) =
            [OnWebsiteVectorized
               {| websiteId := JNum 11; vectorDbId := JNum 22;
                  sel_url := JStr (lit "https://example.com") |}]
       /\ includes
            (URLInput.success (fst (fst (exec 1 (k (inr five_pages)) URLInput.init))))
            (lit "5") = true
       /\ includes
            (URLInput.success (fst (fst (exec 1 (k (inr five_pages)) URLInput.init))))
            (lit "example.com") = true.
Proof.
  assert (Hne : URLInput.url (typed (lit "https://example.com")) <> [])
    by discriminate.
  split; [exact Hne|]. split; [reflexivity|].
  destruct (URLInputFacts.scrape_success_surfaces_site accepts
              (typed (lit "https://example.com")) 0 Hne eq_refl)
    as [k [Hrun Hrest]].
  exists k. split; [exact Hrun|].
  destruct (Hrest five_pages URLInput.init 1%Z)
    as [msg [He [Hcount [Hurl _]]]].
  cbv zeta in He. rewrite He. cbn [fst snd URLInput.success].
  split; [reflexivity|]. split; [exact Hcount|].
  apply (includes_trans _ _ _ Hurl). reflexivity.
Defined.

(** The roster receives a vectorized site, a draft, and another
    vectorized site: it keeps the first and the third. *)
Lemma roster_scenario :
  exists k : AxiosError + list Website -> Prog VectorSelection.State unit,
    snd (exec 0 VectorSelection.fetchWebsites VectorSelection.init) =
      Some {| sent := GetWebsites; resume := k |}
    /\ VectorSelection.websites
         (fst (fst (exec 1 (k (inr [siteA; draft; siteB])) VectorSelection.init)))
       = [siteA; siteB].
Proof.
  destruct (VectorSelectionFacts.roster_shows_only_vectorized accepts)
    as [Hfetch _].
  destruct (Hfetch [siteA; draft; siteB] VectorSelection.init
              VectorSelection.init 0%Z 1%Z) as [k [Hrun [Hkept _]]].
  exists k. split; [exact Hrun|]. rewrite Hkept. reflexivity.
Defined.

(** Site A is selected in the roster and deleted: the root is told to
    clear its selection; the list still has both rows until the re-fetch
    answers. *)
Lemma delete_selected_scenario :
  exists k : AxiosError + unit -> Prog VectorSelection.State unit,
    snd (exec 0 (VectorSelection.handleDeleteWebsite true
                   (roster_on (Some siteA)) siteA true)
           (roster_on (Some siteA))) =
      Some {| sent := PostDelete (JNum 7); resume := k |}
    /\ snd (fst (exec 1 (k (inr tt)) (roster_on (Some siteA)))) =
         [OnSelectWebsite None]
    /\ VectorSelection.websites
         (fst (fst (exec 1 (k (inr tt)) (roster_on (Some siteA))))) =
       [siteA; siteB].
Proof.
  destruct (VectorSelectionFacts.delete_success_roster_selection
              (roster_on (Some siteA)) siteA 0) as [[k [Hrun Hrest]] _].
  exists k. split; [exact Hrun|].
  destruct (Hrest (roster_on (Some siteA)) 1%Z)
    as [k' [_ [Hlist [_ [Hsel _]]]]].
  cbv zeta in *.
  destruct (Hsel eq_refl) as [Hcalls _].
  split; [exact Hcalls | exact Hlist].
Defined.

(** A delete fails on locked files: the roster says to restart the
    server. *)
Lemma delete_locked_scenario :
  exists k : AxiosError + unit -> Prog VectorSelection.State unit,
    snd (exec 0 (VectorSelection.handleDeleteWebsite true
                   (roster_on None) siteA true) (roster_on None)) =
      Some {| sent := PostDelete (JNum 7); resume := k |}
    /\ VectorSelection.render
         (fst (fst (exec 1 (k (inl files_in_use)) (roster_on None)))) =
       VectorSelection.ErrorView VectorSelection.fileLockText.
Proof.
  destruct (VectorSelectionFacts.delete_failure_message (roster_on None) siteA 0)
    as [k [Hrun Hfail]].
  exists k. split; [exact Hrun|].
  destruct (Hfail files_in_use (roster_on None) 1%Z)
    as [Hlock [_ [_ [_ Hshown]]]].
  cbv zeta in *. rewrite (Hshown eq_refl).
  destruct (Hlock (or_introl eq_refl)) as [-> _]. reflexivity.
Defined.

(** With nothing pending, switching from site A to site B leaves an idle
    panel with an empty transcript. *)
Lemma site_switch_scenario :
  exists s s' : App.State,
    App.run accepts selecting_A App.start = Some s
    /\ App.step accepts 30 (App.ClickRow 1) s = Some s'
    /\ App.Object_is (App.selectedWebsite s) (App.selectedWebsite s') = false
    /\ ChatBox.messages (App.chatBox s') = []
    /\ ChatBox.idle (App.chatBox s') = true.
Proof.
  eexists. eexists. split; [reflexivity|]. split; [reflexivity|].
  split; [reflexivity|].
  destruct (@SiteChangeFacts.site_change_clears_transcript
              accepts 30%Z (App.ClickRow 1) _ _
              (@SiteChangeFacts.run_reachable accepts selecting_A _ _
                 (App.reach_start accepts) eq_refl)
              eq_refl eq_refl) as [Hempty [_ [_ Hidle]]].
  split; [exact Hempty | apply Hidle; reflexivity].
Defined.

End Examples.

(* ===================================================================== *)
(** ** The URL form: the failure path *)
(* ===================================================================== *)

Module URLInputMore.
Import URLInput.

Section WithURL.

Variable URL_parses : jsstring -> bool.

(** X1.  When the scrape request of a valid submission is rejected, the
    rest of the handler ends the loading state, sets the error to the
    backend's message when it sent a non-empty one and to the fixed
    fallback otherwise, shows it, and calls no prop: the root's selected
    site and the url typed in are left as they were. *)
Theorem scrape_failure_message (st : State) (now : Z) :
  url st <> [] -> URL_parses (url st) = true ->
  exists k : AxiosError + ScrapeData -> Prog State unit,
    snd (exec now (handleSubmit URL_parses true st) st) =
      Some {| sent := PostScrape (url st); resume := k |}
    /\ forall (err : AxiosError) (later : State) (now' : Z),
         let turn := exec now' (k (inl err)) later in
         let failed := fst (fst turn) in
         snd turn = None
         /\ snd (fst turn) = []
         /\ url failed = url later /\ success failed = success later
         /\ isLoading failed = false
         /\ (forall m : jsstring,
               response_data_error err = Some m -> m <> [] -> error failed = m)
         /\ (response_data_error err = None \/ response_data_error err = Some [] ->
             error failed = lit "Failed to scrape the website. Please try again.")
         /\ errorShown (render failed) = Some (error failed).
Proof.
  intros Hne Hok.
  destruct (URLInputFacts.handleSubmit_valid URL_parses true st now Hne Hok)
    as [k [Hrun [_ Hfail]]].
  exists k. rewrite Hrun. split; [reflexivity|].
  intros err later now'. cbv zeta. rewrite Hfail. cbn [fst snd url success
    isLoading error].
  repeat (split; [reflexivity|]). split; [|split].
  - intros m Hm Hm'. rewrite Hm. destruct m; [congruence | reflexivity].
  - intros [H | H]; rewrite H; reflexivity.
  - unfold render, shown. cbn [errorShown error].
    destruct (response_data_error err) as [[|c m]|]; reflexivity.
Qed.

End WithURL.

End URLInputMore.

(* ===================================================================== *)
(** ** The status panel: loading, failure, collapse *)
(* ===================================================================== *)

Module SystemInfoMore.
Import SystemInfo.

Lemma fetchSystemInfo_turns (st : State) (now : Z) :
  exists k : AxiosError + SystemInfoData -> Prog State unit,
    exec now fetchSystemInfo st =
      (st, [], Some {| sent := GetSystemInfo; resume := k |})
    /\ (forall (data : SystemInfoData) (now' : Z) (later : State),
          exec now' (k (inr data)) later =
            ({| systemInfo := Some data; isLoading := false;
                error := error later; isExpanded := isExpanded later |},
             [], None))
    /\ (forall (err : AxiosError) (now' : Z) (later : State),
          exec now' (k (inl err)) later =
            ({| systemInfo := systemInfo later; isLoading := false;
                error := lit "Failed to load system information";
                isExpanded := isExpanded later |}, [], None)).
Proof.
  eexists. split; [reflexivity|]. split; intros; reflexivity.
Qed.

(** X4.  The status fetch changes nothing until it settles, so a freshly
    mounted panel shows "loading".  A rejection ends the loading state
    and the panel shows the fixed failure text, expanded or not, keeping
    whatever snapshot it had.  A response is stored as it is; with no
    error, a collapsed panel then shows the online flag and the number of
    vectorized databases and no details, and an expanded one shows them
    with details. *)
Theorem status_fetch_outcomes (st : State) (now : Z) :
  exists k : AxiosError + SystemInfoData -> Prog State unit,
    exec now fetchSystemInfo st =
      (st, [], Some {| sent := GetSystemInfo; resume := k |})
    /\ render init = LoadingView
    /\ (forall (err : AxiosError) (later : State) (now' : Z),
          let failed := fst (fst (exec now' (k (inl err)) later)) in
          snd (exec now' (k (inl err)) later) = None
          /\ systemInfo failed = systemInfo later
          /\ render failed = ErrorView (lit "Failed to load system information"))
    /\ (forall (data : SystemInfoData) (later : State) (now' : Z),
          let loaded := fst (fst (exec now' (k (inr data)) later)) in
          snd (exec now' (k (inr data)) later) = None
          /\ systemInfo loaded = Some data
          /\ (error later = [] -> isExpanded later = false ->
              render loaded =
                Panel (truthy (ollama_running data))
                      (List.length (vectorized_databases data)) None)
          /\ (error later = [] -> isExpanded later = true ->
              exists details : Details,
                render loaded =
                  Panel (truthy (ollama_running data))
                        (List.length (vectorized_databases data)) (Some details)
                /\ ollamaOk details = truthy (ollama_running data))
          /\ (error later <> [] -> render loaded = ErrorView (error later))).
Proof.
  destruct (fetchSystemInfo_turns st now) as [k [Hrun [Hok Hfail]]].
  exists k. split; [exact Hrun|]. split; [reflexivity|]. split.
  - intros err later now'. cbv zeta. rewrite Hfail. repeat split.
  - intros data later now'. cbv zeta. rewrite Hok. cbn [fst snd systemInfo].
    split; [reflexivity|]. split; [reflexivity|]. unfold render.
    cbn [isLoading error isExpanded systemInfo]. split; [|split].
    + intros -> ->. reflexivity.
    + intros -> ->. eexists. split; reflexivity.
    + intros Herr. rewrite (truthy_nonempty Herr). reflexivity.
Qed.

End SystemInfoMore.

(* ===================================================================== *)
(** ** The roster: loading, and the life of a delete *)
(* ===================================================================== *)

Module VectorSelectionMore.
Import VectorSelection Flight.

(** What the roster shows when it is neither loading nor in error. *)
Lemma render_list (st : State) :
  isLoading st = false -> error st = [] ->
  render st =
    match websites st with
    | [] => NoWebsites
    | _ :: _ => ListView (map (row_of st) (websites st))
    end.
Proof.
  intros Hload Herr. unfold render. rewrite Hload, Herr. cbn.
  destruct (websites st); reflexivity.
Qed.

Lemma render_error (st : State) :
  isLoading st = false -> error st <> [] -> render st = ErrorView (error st).
Proof.
  intros Hload Herr. unfold render. rewrite Hload, (truthy_nonempty Herr).
  reflexivity.
Qed.

Lemma fetchWebsites_rest (st : State) (now : Z) :
  exists k : AxiosError + list Website -> Prog State unit,
    exec now fetchWebsites st =
      ({| websites := websites st; isLoading := true; error := error st;
          selectedWebsite := selectedWebsite st; deletingId := deletingId st |},
       [], Some {| sent := GetWebsites; resume := k |})
    /\ (forall (data : list Website) (later : State) (now' : Z),
          exec now' (k (inr data)) later =
            ({| websites := filter vectorized data; isLoading := false;
                error := error later; selectedWebsite := selectedWebsite later;
                deletingId := deletingId later |}, [], None))
    /\ (forall (err : AxiosError) (later : State) (now' : Z),
          exec now' (k (inl err)) later =
            ({| websites := websites later; isLoading := false;
                error := lit "Failed to load vectorized websites";
                selectedWebsite := selectedWebsite later;
                deletingId := deletingId later |}, [], None)).
Proof.
  eexists. split; [reflexivity|]. split; intros; reflexivity.
Qed.

(** X6.  Starting a roster fetch puts the roster in its loading view at
    once: that is the view of the state right after the call.  When a
    fetch settles, the state its handler leaves is not loading, whatever
    state it resumes in, so also with another fetch still pending.  After
    a rejection the list is as it was and the roster shows the fixed
    failure text.  After an answer the list is the vectorized entries of
    the answer, and the roster shows "no websites" if there is none and
    otherwise one row per entry, in order, highlighted and
    delete-disabled by comparing ids with the selection and [deletingId]
    -- unless an error was set before: the answer does not clear it, and
    the roster shows that error instead of the list. *)
Theorem roster_load_outcomes (st : State) (now : Z) :
  exists k : AxiosError + list Website -> Prog State unit,
    snd (exec now fetchWebsites st) = Some {| sent := GetWebsites; resume := k |}
    /\ render (fst (fst (exec now fetchWebsites st))) = LoadingView
    /\ (forall (err : AxiosError) (later : State) (now' : Z),
          let failed := fst (fst (exec now' (k (inl err)) later)) in
          snd (exec now' (k (inl err)) later) = None
          /\ websites failed = websites later
          /\ render failed = ErrorView (lit "Failed to load vectorized websites"))
    /\ (forall (data : list Website) (later : State) (now' : Z),
          let loaded := fst (fst (exec now' (k (inr data)) later)) in
          snd (exec now' (k (inr data)) later) = None
          /\ (error later = [] -> filter vectorized data = [] ->
              render loaded = NoWebsites)
          /\ (error later = [] -> filter vectorized data <> [] ->
              render loaded =
                ListView (map (row_of later) (filter vectorized data)))
          /\ (error later <> [] -> render loaded = ErrorView (error later))).
Proof.
  destruct (fetchWebsites_rest st now) as [k [Hrun [Hok Hfail]]].
  exists k. rewrite Hrun. split; [reflexivity|]. split; [reflexivity|]. split.
  - intros err later now'. cbv zeta. rewrite Hfail. repeat split.
  - intros data later now'. cbv zeta. rewrite Hok. cbn [fst snd].
    split; [reflexivity|]. split; [|split].
    + intros Herr Hnone. rewrite render_list by (cbn; auto).
      cbn [websites]. rewrite Hnone. reflexivity.
    + intros Herr Hsome. rewrite render_list by (cbn; auto).
      cbn [websites]. destruct (filter vectorized data); [congruence|].
      reflexivity.
    + intros Herr. rewrite render_error by (cbn; auto). reflexivity.
Qed.

(** X8.  Declining the confirmation changes nothing and sends nothing.
    A confirmed delete immediately clears the error and sets [deletingId]
    to the id of the row, whatever id an earlier delete still in flight
    had recorded there, and keeps the list and the selection.  In the
    state right after the click, a row on screen has its delete button
    disabled exactly when its id is the id of the clicked row, and the
    highlight of every row is what it was before the click. *)
Theorem delete_click_disables_row (st : State) (website : Website) (now : Z) :
  exec now (handleDeleteWebsite true st website false) st = (st, [], None)
  /\ let clicked :=
       fst (fst (exec now (handleDeleteWebsite true st website true) st)) in
     deletingId clicked = id website
     /\ error clicked = []
     /\ websites clicked = websites st
     /\ selectedWebsite clicked = selectedWebsite st
     /\ (isLoading st = false ->
         rows (render clicked) =
           match websites st with
           | [] => []
           | _ :: _ => map (row_of clicked) (websites st)
           end)
     /\ forall row : Row,
          In row (rows (render clicked)) ->
          (row_deleteDisabled row = true <-> id (row_site row) = id website)
          /\ row_selected row = row_selected (row_of st (row_site row)).
Proof.
  split; [reflexivity|].
  destruct (VectorSelectionFacts.handleDeleteWebsite_turns true st website now)
    as [k [Hrun _]].
  cbv zeta. rewrite Hrun. cbn [fst snd deletingId error websites selectedWebsite].
  repeat (split; [reflexivity|]). split.
  - intros Hload. rewrite render_list by (cbn; auto). cbn [websites].
    destruct (websites st); reflexivity.
  - intros row. unfold render. cbn [isLoading error websites]. cbn [truthy].
    destruct (isLoading st); [intros []|].
    destruct (Nat.eqb _ 0); [intros []|]. cbn [rows].
    rewrite in_map_iff. intros [w [<- _]]. cbn.
    rewrite strict_eq_iff. split; [split; congruence | reflexivity].
Qed.

(** X9.  After a delete succeeds, the rest of the handler parks on the
    re-fetch, with the roster in its loading view and [deletingId] left
    as the handler finds it.  When that re-fetch settles, the rest of the
    handler sets [deletingId] to [null], whichever row it records by
    then: if the re-fetch answers, its vectorized entries replace the
    list; if it is rejected, the list is kept as it was, deleted row
    included, and the fixed load-failure text is set. *)
Theorem delete_refetch_settles (st : State) (website : Website) (now : Z) :
  exists k : AxiosError + unit -> Prog State unit,
    snd (exec now (handleDeleteWebsite true st website true) st) =
      Some {| sent := PostDelete (vector_db_id website); resume := k |}
    /\ forall (later : State) (now' : Z),
         exists k' : AxiosError + list Website -> Prog State unit,
           let refetching := fst (fst (exec now' (k (inr tt)) later)) in
           snd (exec now' (k (inr tt)) later) =
             Some {| sent := GetWebsites; resume := k' |}
           /\ deletingId refetching = deletingId later
           /\ render refetching = LoadingView
           /\ (forall (data : list Website) (last : State) (now'' : Z),
                 exec now'' (k' (inr data)) last =
                   ({| websites := filter vectorized data; isLoading := false;
                       error := error last;
                       selectedWebsite := selectedWebsite last;
                       deletingId := JNull |}, [], None))
           /\ (forall (err : AxiosError) (last : State) (now'' : Z),
                 exec now'' (k' (inl err)) last =
                   ({| websites := websites last; isLoading := false;
                       error := lit "Failed to load vectorized websites";
                       selectedWebsite := selectedWebsite last;
                       deletingId := JNull |}, [], None)).
Proof.
  eexists. split; [reflexivity|]. intros later now'. eexists. cbn.
  destruct (strict_eq _ _); cbn; repeat split.
Qed.

End VectorSelectionMore.

(* ===================================================================== *)
(** ** The event loop: loading flags and requests in flight *)
(* ===================================================================== *)

Module EventLoop.
Import Flight.

Lemma count_snoc (f : App.Pending -> bool) (l : list App.Pending)
  (p : App.Pending) :
  List.length (filter f (l ++ [p])) =
  List.length (filter f l) + (if f p then 1 else 0).
Proof.
  rewrite filter_app, length_app. cbn. destruct (f p); reflexivity.
Qed.

Lemma count_remove (f : App.Pending -> bool) (l : list App.Pending) :
  forall (i : nat) (p : App.Pending),
    nth_error l i = Some p ->
    List.length (filter f (App.remove_nth i l)) + (if f p then 1 else 0) =
    List.length (filter f l).
Proof.
  induction l as [|a l IH]; intros [|i] p H; try discriminate.
  - injection H as ->. unfold App.remove_nth. cbn. destruct (f p); cbn; lia.
  - specialize (IH i p H).
    change (App.remove_nth (S i) (a :: l)) with (a :: App.remove_nth i l).
    cbn [filter]. destruct (f a); cbn [List.length]; lia.
Qed.

Lemma Forall_remove (A : Type) (P : A -> Prop) (i : nat) (l : list A) :
  Forall P l -> Forall P (App.remove_nth i l).
Proof.
  intros H. unfold App.remove_nth. rewrite Forall_forall in *.
  intros x Hx. apply H. apply in_app_or in Hx as [Hx | Hx].
  - rewrite <- (firstn_skipn i). apply in_or_app. left. exact Hx.
  - rewrite <- (firstn_skipn (S i)). apply in_or_app. right. exact Hx.
Qed.

Lemma nth_error_Forall (A : Type) (P : A -> Prop) (l : list A) (i : nat) (x : A) :
  Forall P l -> nth_error l i = Some x -> P x.
Proof.
  intros H E. rewrite Forall_forall in H. apply H. eapply nth_error_In, E.
Qed.

(** The root's setter touches the selected object, the heap counter and
    the transcript, and nothing else. *)
Lemma call_frame (c : Callback) (s : App.State) :
  App.inflight (App.call c s) = App.inflight s
  /\ App.requested (App.call c s) = App.requested s
  /\ App.urlInput (App.call c s) = App.urlInput s
  /\ App.systemInfo (App.call c s) = App.systemInfo s
  /\ App.vectorSelection (App.call c s) = App.vectorSelection s
  /\ ChatBox.isLoading (App.chatBox (App.call c s)) =
     ChatBox.isLoading (App.chatBox s)
  /\ ChatBox.input (App.chatBox (App.call c s)) = ChatBox.input (App.chatBox s).
Proof.
  destruct c as [w | w]; cbn; repeat split;
    match goal with
    | |- context [if ?b then _ else _] => destruct b
    end; reflexivity.
Qed.

Lemma calls_frame (cs : list Callback) (s : App.State) :
  let s' := fold_left (fun acc c => App.call c acc) cs s in
  App.inflight s' = App.inflight s
  /\ App.requested s' = App.requested s
  /\ App.urlInput s' = App.urlInput s
  /\ App.systemInfo s' = App.systemInfo s
  /\ App.vectorSelection s' = App.vectorSelection s
  /\ ChatBox.isLoading (App.chatBox s') = ChatBox.isLoading (App.chatBox s)
  /\ ChatBox.input (App.chatBox s') = ChatBox.input (App.chatBox s).
Proof.
  revert s. induction cs as [|c cs IH]; intros s; cbn; [repeat split|].
  destruct (IH (App.call c s)) as [H1 [H2 [H3 [H4 [H5 [H6 H7]]]]]].
  destruct (call_frame c s) as [G1 [G2 [G3 [G4 [G5 [G6 G7]]]]]].
  repeat split; congruence.
Qed.

Lemma call_fresh (c : Callback) (s : App.State) :
  fresh s -> fresh (App.call c s).
Proof.
  unfold fresh. intros H. destruct c as [w | [w|]]; cbn; intros r [= <-]; cbn; lia.
Qed.

Lemma calls_fresh (cs : list Callback) (s : App.State) :
  fresh s -> fresh (fold_left (fun acc c => App.call c acc) cs s).
Proof.
  revert s. induction cs as [|c cs IH]; intros s H; cbn; [exact H|].
  apply IH, call_fresh, H.
Qed.

Lemma calls_busy (cs : list Callback) (s : App.State) :
  Busy s -> Busy (fold_left (fun acc c => App.call c acc) cs s).
Proof.
  intros [H1 H2 H3 H4 H5].
  destruct (calls_frame cs s) as [G1 [_ [G3 [G4 [_ [G6 _]]]]]].
  constructor; unfold in_flight in *.
  - rewrite G1. exact H1.
  - apply calls_fresh, H2.
  - rewrite G1, G3. exact H3.
  - rewrite G1, G4. exact H4.
  - rewrite G1, G6. exact H5.
Qed.

(** A turn folded into the application, seen as: store, send, then run
    the prop calls. *)
Lemma commit_busy (S : Type) (put : S -> App.State -> App.State)
  (park : Paused S -> App.Pending) (st : S) (calls : list Callback)
  (parked : option (Paused S)) (s : App.State) :
  Busy (match parked with
        | Some q => App.send (park q) (wire (sent q)) (put st s)
        | None => put st s
        end) ->
  Busy (App.commit put park (st, calls, parked) s).
Proof. intros H. unfold App.commit. apply calls_busy, H. Qed.

Lemma busy_start : Busy App.start.
Proof.
  constructor; cbn; try reflexivity.
  - repeat constructor. eexists. split; [reflexivity|].
    split; intros; reflexivity.
  - intros r [=].
  - discriminate.
Qed.

(** A turn that leaves the pool and the loading flags alone. *)
Ltac busy_same Hs :=
  destruct Hs as [?H1 ?H2 ?H3 ?H4 ?H5];
  constructor; unfold in_flight, fresh in *; cbn; assumption.

(** The pool after the request at [i] has settled, before its handler
    resumes. *)
Lemma busy_counts (i : nat) (pending : App.Pending) (s : App.State) :
  Busy s -> nth_error (App.inflight s) i = Some pending ->
  Forall shaped (App.remove_nth i (App.inflight s))
  /\ List.length (filter is_url (App.remove_nth i (App.inflight s)))
     + (if is_url pending then 1 else 0)
     = (if URLInput.isLoading (App.urlInput s) then 1 else 0)
  /\ List.length (filter is_sys (App.remove_nth i (App.inflight s)))
     + (if is_sys pending then 1 else 0)
     = (if SystemInfo.isLoading (App.systemInfo s) then 1 else 0)
  /\ (ChatBox.isLoading (App.chatBox s) = true ->
      1 <= List.length (filter is_chat (App.remove_nth i (App.inflight s)))
           + (if is_chat pending then 1 else 0)).
Proof.
  intros [H1 H2 H3 H4 H5] E. unfold in_flight in *.
  rewrite !(count_remove _ _ _ E). split; [apply Forall_remove, H1|].
  repeat split; assumption.
Qed.

Section WithURL.

Variable URL_parses : jsstring -> bool.

Lemma step_busy (now : Z) (e : App.Event) (s s' : App.State) :
  Busy s -> App.step URL_parses now e s = Some s' -> Busy s'.
Proof.
  intros Hs. destruct e as [v | | i | i c | v | | | i x]; unfold App.step.
  - destruct (URLInput.isLoading _); [discriminate|].
    intros H. apply Invariants.Some_eq in H. subst s'. busy_same Hs.
  - destruct (URLInput.isLoading (App.urlInput s)) eqn:E; [discriminate|].
    intros H. apply Invariants.Some_eq in H. subst s'.
    assert (Hcases : (URLInput.url (App.urlInput s) = []
                      \/ URL_parses (URLInput.url (App.urlInput s)) = false)
                     \/ (URLInput.url (App.urlInput s) <> []
                         /\ URL_parses (URLInput.url (App.urlInput s)) = true)).
    { destruct (URLInput.url (App.urlInput s)) as [|c u];
        [left; left; reflexivity|].
      destruct (URL_parses (c :: u)); [right; split; [discriminate|reflexivity]|].
      left; right; reflexivity. }
    destruct Hcases as [Hbad | [Hne Hok]].
    + rewrite (URLInputFacts.handleSubmit_invalid URL_parses true _ now Hbad).
      apply commit_busy. busy_same Hs.
    + destruct (URLInputFacts.handleSubmit_valid URL_parses true _ now Hne Hok)
        as [k [Hrun [Hsucc Hfail]]].
      rewrite Hrun. apply commit_busy.
      destruct Hs as [H1 H2 H3 H4 H5]. rewrite E in H3.
      constructor; unfold in_flight, fresh in *; cbn;
        rewrite ?count_snoc; cbn; try lia; try assumption.
      * apply Forall_app. split; [exact H1|]. constructor; [|constructor].
        exists (URLInput.url (App.urlInput s)), k. auto.
      * intros Hl. specialize (H5 Hl). lia.
  - destruct (nth_error _ i) as [website|]; [|discriminate].
    intros H. apply Invariants.Some_eq in H. subst s'.
    destruct (exec now _ _) as [[st' calls] parked]. apply commit_busy.
    destruct Hs as [H1 H2 H3 H4 H5].
    destruct parked as [q|]; constructor; unfold in_flight, fresh in *; cbn;
      rewrite ?count_snoc; cbn; rewrite ?Nat.add_0_r; try assumption.
    apply Forall_app. split; [exact H1 | repeat constructor].
  - destruct (nth_error _ i) as [website|]; [|discriminate].
    destruct (strict_eq _ _); [discriminate|].
    intros H. apply Invariants.Some_eq in H. subst s'.
    destruct (exec now _ _) as [[st' calls] parked]. apply commit_busy.
    destruct Hs as [H1 H2 H3 H4 H5].
    destruct parked as [q|]; constructor; unfold in_flight, fresh in *; cbn;
      rewrite ?count_snoc; cbn; rewrite ?Nat.add_0_r; try assumption.
    apply Forall_app. split; [exact H1 | repeat constructor].
  - destruct (App.selectedWebsite s); [|discriminate].
    destruct (ChatBox.isLoading _); [discriminate|].
    intros H. apply Invariants.Some_eq in H. subst s'. busy_same Hs.
  - destruct (App.selectedWebsite s) as [r|] eqn:E; [|discriminate].
    intros H. apply Invariants.Some_eq in H. subst s'.
    unfold App.selectedProp. rewrite E. cbn [option_map].
    destruct (blank (ChatBox.input (App.chatBox s))) eqn:Hblank.
    + rewrite ChatBoxFacts.handleSubmit_rejected by (right; exact Hblank).
      apply commit_busy. busy_same Hs.
    + destruct (ChatBoxFacts.handleSubmit_accepted (App.deref r) _ now Hblank)
        as [k [Hrun Hrest]].
      rewrite Hrun. apply commit_busy.
      destruct Hs as [H1 H2 H3 H4 H5].
      constructor; unfold in_flight, fresh in *; cbn;
        rewrite ?count_snoc; cbn; rewrite ?Nat.add_0_r; try lia; try assumption.
      apply Forall_app. split; [exact H1|]. constructor; [|constructor].
      exists (vectorDbId (App.deref r)), (ChatBox.input (App.chatBox s)), k. auto.
  - destruct (SystemInfo.render _); try discriminate.
    intros H. apply Invariants.Some_eq in H. subst s'. busy_same Hs.
  - destruct (nth_error (App.inflight s) i) as [pending|] eqn:E; [|discriminate].
    destruct (busy_counts i Hs E) as [Hshape [Hurl [Hsys Hchat]]].
    pose proof (@nth_error_Forall _ _ _ _ _ (busy_shape Hs) E) as Hp.
    pose proof (busy_heap Hs) as Hheap.
    destruct pending as [p | p | p | p]; cbn in Hp, Hurl, Hsys, Hchat;
      rewrite ?Nat.add_0_r in *; unfold App.wake.
    + destruct Hp as [k [-> [Hok Hfail]]]. cbn [sent resume].
      destruct x; cbn; try discriminate; intros H;
        apply Invariants.Some_eq in H; subst s';
        rewrite ?Hok, ?Hfail; apply commit_busy;
        (constructor; unfold in_flight, fresh in *; cbn; try assumption;
         destruct (SystemInfo.isLoading (App.systemInfo s)); lia).
    + destruct Hp as [u [k [-> [Hok Hfail]]]]. cbn [sent resume].
      destruct x; cbn; try discriminate; intros H;
        apply Invariants.Some_eq in H; subst s';
        rewrite ?Hok, ?Hfail; apply commit_busy;
        (constructor; unfold in_flight, fresh in *; cbn; try assumption;
         destruct (URLInput.isLoading (App.urlInput s)); lia).
    + destruct (App.outcome (sent p) x) as [o|]; [|discriminate].
      intros H. apply Invariants.Some_eq in H. subst s'.
      destruct (exec now _ _) as [[st' calls] parked]. apply commit_busy.
      destruct parked as [q|]; constructor; unfold in_flight, fresh in *; cbn;
        rewrite ?count_snoc; cbn; rewrite ?Nat.add_0_r; try assumption.
      apply Forall_app. split; [exact Hshape | repeat constructor].
    + destruct Hp as [v [q [k [-> Hrest]]]]. cbn [sent resume].
      destruct x; cbn; try discriminate; intros H;
        apply Invariants.Some_eq in H; subst s';
        rewrite Hrest; apply commit_busy;
        (constructor; unfold in_flight, fresh in *; cbn; try assumption;
         discriminate).
Qed.

(** Every reachable state has its loading flags in step with the pool. *)
Lemma reachable_busy (s : App.State) : App.reachable URL_parses s -> Busy s.
Proof.
  induction 1 as [| s now e s' _ IH Hstep]; [exact busy_start|].
  exact (step_busy now e IH Hstep).
Qed.

End WithURL.

End EventLoop.

(* ===================================================================== *)
(** ** The event loop: what follows from the loading flags *)
(* ===================================================================== *)

Module EventLoopFacts.
Import Flight EventLoop.

Lemma commit_frame (S : Type) (put : S -> App.State -> App.State)
  (park : Paused S -> App.Pending) (st : S) (calls : list Callback)
  (parked : option (Paused S)) (s : App.State) :
  let mid := match parked with
             | Some q => App.send (park q) (wire (sent q)) (put st s)
             | None => put st s
             end in
  let s' := App.commit put park (st, calls, parked) s in
  App.inflight s' = App.inflight mid
  /\ App.requested s' = App.requested mid
  /\ App.urlInput s' = App.urlInput mid
  /\ App.systemInfo s' = App.systemInfo mid
  /\ App.vectorSelection s' = App.vectorSelection mid
  /\ ChatBox.isLoading (App.chatBox s') = ChatBox.isLoading (App.chatBox mid)
  /\ ChatBox.input (App.chatBox s') = ChatBox.input (App.chatBox mid).
Proof. apply calls_frame. Qed.

Lemma fresh_differs (s : App.State) (w : Selection) :
  fresh s ->
  App.Object_is (App.selectedWebsite s)
    (Some {| App.addr := App.heap_next s; App.deref := w |}) = false.
Proof.
  unfold fresh. intros H. destruct (App.selectedWebsite s) as [r|]; cbn;
    [|reflexivity].
  apply Nat.eqb_neq. specialize (H r eq_refl). lia.
Qed.

Lemma success_has_url (pages : jsval) (u : jsstring) :
  includes (lit "Successfully scraped and vectorized "
            ++ toString pages ++ lit " pages from " ++ u) u = true.
Proof. rewrite !app_assoc. apply includes_suffix. Qed.

Section WithURL.

Variable URL_parses : jsstring -> bool.

(** X2.  In every state the application can reach, at most one scrape
    request is in flight, and the URL form is in its loading state
    exactly when one is; while it is, the form takes neither typing nor a
    submission. *)
Theorem scrape_single_flight (s : App.State) :
  App.reachable URL_parses s ->
  in_flight is_url s <= 1
  /\ (URLInput.isLoading (App.urlInput s) = true <-> in_flight is_url s = 1)
  /\ (URLInput.inputDisabled (URLInput.render (App.urlInput s)) = true <->
      in_flight is_url s = 1)
  /\ (in_flight is_url s = 1 ->
      forall (now : Z) (v : jsstring),
        App.step URL_parses now (App.ChangeUrl v) s = None
        /\ App.step URL_parses now App.SubmitUrl s = None).
Proof.
  intros Hs. apply reachable_busy in Hs. destruct Hs as [_ _ Hurl _ _].
  cbn [URLInput.render URLInput.inputDisabled]. unfold App.step.
  destruct (URLInput.isLoading (App.urlInput s)); rewrite Hurl;
    repeat split; try lia; try discriminate; auto.
Qed.

(** X3.  In every reachable state, when a scrape request in flight
    succeeds, the site it returns becomes the root's selected site with
    the url that was submitted, as a new object, so the chat transcript
    is emptied whatever site was being chatted with; the form leaves its
    loading state; the roster is not touched and nothing is requested:
    the newly vectorized site is not added to the roster. *)
Theorem scrape_success_selects_site (s : App.State) (i : nat)
  (p : Paused URLInput.State) (response : ScrapeData) (now : Z) :
  App.reachable URL_parses s ->
  nth_error (App.inflight s) i = Some (App.InURLInput p) ->
  exists (u : jsstring) (s' : App.State),
    wire (sent p) = wire (PostScrape u)
    /\ App.step URL_parses now (App.Settle i (App.ScrapeOk response)) s = Some s'
    /\ App.selectedProp s' =
         Some {| websiteId := website_id response;
                 vectorDbId := scraped_vector_db_id response;
                 sel_url := JStr u |}
    /\ App.Object_is (App.selectedWebsite s) (App.selectedWebsite s') = false
    /\ App.chatBox s' = Spec.cleared (App.chatBox s)
    /\ URLInput.isLoading (App.urlInput s') = false
    /\ includes (URLInput.success (App.urlInput s')) u = true
    /\ App.vectorSelection s' = App.vectorSelection s
    /\ App.requested s' = App.requested s
    /\ in_flight is_url s' = 0.
Proof.
  intros Hs E. apply reachable_busy in Hs.
  pose proof (@nth_error_Forall _ _ _ _ _ (busy_shape Hs) E) as Hp.
  destruct (busy_counts i Hs E) as [_ [Hurl _]].
  destruct Hp as [u [k [-> [Hok _]]]].
  exists u. eexists. split; [reflexivity|].
  unfold App.step. rewrite E. unfold App.wake. cbn [sent resume App.outcome].
  rewrite Hok. split; [reflexivity|]. cbn.
  rewrite (fresh_differs _ (busy_heap Hs)).
  split; [reflexivity|]. split; [reflexivity|]. split; [reflexivity|].
  split; [reflexivity|]. split.
  { exact (success_has_url (pages_scraped response) u). }
  split; [reflexivity|]. split; [reflexivity|].
  unfold in_flight. cbn. cbn in Hurl.
  destruct (URLInput.isLoading (App.urlInput s)); lia.
Qed.

(** How the status panel's state moves in one turn once it has loaded. *)
Lemma step_systemInfo (now : Z) (e : App.Event) (s s' : App.State) :
  Busy s -> SystemInfo.isLoading (App.systemInfo s) = false ->
  App.step URL_parses now e s = Some s' ->
  App.systemInfo s' =
    match e with
    | App.ToggleSystemInfo =>
        {| SystemInfo.systemInfo := SystemInfo.systemInfo (App.systemInfo s);
           SystemInfo.isLoading := false;
           SystemInfo.error := SystemInfo.error (App.systemInfo s);
           SystemInfo.isExpanded :=
             negb (SystemInfo.isExpanded (App.systemInfo s)) |}
    | _ => App.systemInfo s
    end.
Proof.
  intros Hs Hload. destruct e as [v | | i | i c | v | | | i x]; unfold App.step.
  - destruct (URLInput.isLoading _); [discriminate|].
    intros H. apply Invariants.Some_eq in H. subst s'. reflexivity.
  - destruct (URLInput.isLoading _); [discriminate|].
    intros H. apply Invariants.Some_eq in H. subst s'.
    destruct (exec now _ _) as [[st' calls] parked].
    destruct (commit_frame App.put_urlInput App.InURLInput st' calls parked s)
      as [_ [_ [_ [-> _]]]]. destruct parked; reflexivity.
  - destruct (nth_error _ i) as [website|]; [|discriminate].
    intros H. apply Invariants.Some_eq in H. subst s'.
    destruct (exec now _ _) as [[st' calls] parked].
    destruct (commit_frame App.put_vectorSelection App.InVectorSelection
                st' calls parked s) as [_ [_ [_ [-> _]]]].
    destruct parked; reflexivity.
  - destruct (nth_error _ i) as [website|]; [|discriminate].
    destruct (strict_eq _ _); [discriminate|].
    intros H. apply Invariants.Some_eq in H. subst s'.
    destruct (exec now _ _) as [[st' calls] parked].
    destruct (commit_frame App.put_vectorSelection App.InVectorSelection
                st' calls parked s) as [_ [_ [_ [-> _]]]].
    destruct parked; reflexivity.
  - destruct (App.selectedWebsite s); [|discriminate].
    destruct (ChatBox.isLoading _); [discriminate|].
    intros H. apply Invariants.Some_eq in H. subst s'. reflexivity.
  - destruct (App.selectedWebsite s); [|discriminate].
    intros H. apply Invariants.Some_eq in H. subst s'.
    destruct (exec now _ _) as [[st' calls] parked].
    destruct (commit_frame App.put_chatBox App.InChatBox st' calls parked s)
      as [_ [_ [_ [-> _]]]]. destruct parked; reflexivity.
  - destruct (SystemInfo.render _); try discriminate.
    intros H. apply Invariants.Some_eq in H. subst s'. cbn.
    rewrite Hload. reflexivity.
  - destruct (nth_error (App.inflight s) i) as [pending|] eqn:E; [|discriminate].
    destruct (busy_counts i Hs E) as [_ [_ [Hsys _]]]. rewrite Hload in Hsys.
    destruct pending as [p | p | p | p]; cbn in Hsys; [lia | | |];
      unfold App.wake; (destruct (App.outcome (sent p) x) as [o|]; [|discriminate]);
      intros H; apply Invariants.Some_eq in H; subst s';
      destruct (exec now _ _) as [[st' calls] parked].
    + destruct (commit_frame App.put_urlInput App.InURLInput st' calls parked
                  (App.put_inflight (App.remove_nth i (App.inflight s)) s))
        as [_ [_ [_ [-> _]]]]. destruct parked; reflexivity.
    + destruct (commit_frame App.put_vectorSelection App.InVectorSelection
                  st' calls parked
                  (App.put_inflight (App.remove_nth i (App.inflight s)) s))
        as [_ [_ [_ [-> _]]]]. destruct parked; reflexivity.
    + destruct (commit_frame App.put_chatBox App.InChatBox st' calls parked
                  (App.put_inflight (App.remove_nth i (App.inflight s)) s))
        as [_ [_ [_ [-> _]]]]. destruct parked; reflexivity.
Qed.

(** X5.  Once the status panel has left its loading state, in every
    reachable state, no turn of the event loop changes its snapshot or
    its error or puts it back into loading, and no status request is in
    flight: only a click on the header changes the panel, and it flips
    [isExpanded]. *)
Theorem status_snapshot_frozen (now : Z) (e : App.Event) (s s' : App.State) :
  App.reachable URL_parses s ->
  SystemInfo.isLoading (App.systemInfo s) = false ->
  App.step URL_parses now e s = Some s' ->
  SystemInfo.systemInfo (App.systemInfo s') =
    SystemInfo.systemInfo (App.systemInfo s)
  /\ SystemInfo.error (App.systemInfo s') = SystemInfo.error (App.systemInfo s)
  /\ SystemInfo.isLoading (App.systemInfo s') = false
  /\ SystemInfo.isExpanded (App.systemInfo s') =
       (match e with
        | App.ToggleSystemInfo => negb (SystemInfo.isExpanded (App.systemInfo s))
        | _ => SystemInfo.isExpanded (App.systemInfo s)
        end)
  /\ in_flight is_sys s = 0 /\ in_flight is_sys s' = 0.
Proof.
  intros Hs Hload Hstep.
  pose proof (reachable_busy Hs) as Hb.
  pose proof (@step_busy URL_parses now e s s' Hb Hstep) as Hb'.
  pose proof (@step_systemInfo now e s s' Hb Hload Hstep) as Hsys.
  rewrite Hsys.
  assert (Hload' : SystemInfo.isLoading (App.systemInfo s') = false)
    by (rewrite Hsys; destruct e; cbn; auto).
  pose proof (busy_sys Hb) as H0. pose proof (busy_sys Hb') as H1.
  rewrite Hload in H0. rewrite Hload' in H1.
  destruct e; cbn; repeat split; auto.
Qed.

(** X7.  In every reachable state, a click on a row the roster shows
    hands the root the triple [{websiteId, vectorDbId, url}] of that row,
    whose [vectorDbId] is truthy; the root stores it as a new object, so
    the chat transcript is emptied even when the row was already the
    selected one; and the roster records the row as its selection. *)
Theorem roster_click_selects (s : App.State) (i : nat) (website : Website)
  (now : Z) :
  App.reachable URL_parses s ->
  nth_error (VectorSelection.displayed (App.vectorSelection s)) i = Some website ->
  exists s' : App.State,
    App.step URL_parses now (App.ClickRow i) s = Some s'
    /\ App.selectedProp s' =
         Some {| websiteId := id website; vectorDbId := vector_db_id website;
                 sel_url := url website |}
    /\ truthy (vector_db_id website) = true
    /\ App.Object_is (App.selectedWebsite s) (App.selectedWebsite s') = false
    /\ App.chatBox s' = Spec.cleared (App.chatBox s)
    /\ VectorSelection.selectedWebsite (App.vectorSelection s') = Some website
    /\ VectorSelection.websites (App.vectorSelection s') =
       VectorSelection.websites (App.vectorSelection s)
    /\ App.requested s' = App.requested s.
Proof.
  intros Hs E.
  pose proof (reachable_busy Hs) as Hb.
  pose proof (Invariants.reachable_inv Hs) as [Hroster _ _].
  eexists. unfold App.step. rewrite E. split; [reflexivity|]. cbn.
  rewrite (fresh_differs _ (busy_heap Hb)).
  repeat split.
  unfold Spec.roster_ok in Hroster. rewrite Forall_forall in Hroster.
  apply Hroster. apply VectorSelectionFacts.displayed_incl.
  eapply nth_error_In, E.
Qed.

(** X11.  In every reachable state, when a chat request in flight
    settles, the rest of its handler appends exactly one entry to the
    transcript as it is at that moment and ends the loading state,
    without looking at the selected site and without changing it: an
    answer that arrives after the user has moved to another site (or has
    no site selected any more) is appended all the same. *)
Theorem late_chat_answer (s : App.State) (i : nat) (p : Paused ChatBox.State)
  (now : Z) :
  App.reachable URL_parses s ->
  nth_error (App.inflight s) i = Some (App.InChatBox p) ->
  (forall data : ChatData,
     exists s' : App.State,
       App.step URL_parses now (App.Settle i (App.ChatOk data)) s = Some s'
       /\ App.chatBox s' =
            {| ChatBox.messages :=
                 ChatBox.messages (App.chatBox s)
                 ++ [{| ChatBox.id := now + 1; ChatBox.text := answer data;
                        ChatBox.sender := ChatBox.ai;
                        ChatBox.isError := false |}];
               ChatBox.input := ChatBox.input (App.chatBox s);
               ChatBox.isLoading := false |}
       /\ App.selectedWebsite s' = App.selectedWebsite s
       /\ App.requested s' = App.requested s)
  /\ (forall err : AxiosError,
        exists s' : App.State,
          App.step URL_parses now (App.Settle i (App.Rejected err)) s = Some s'
          /\ App.chatBox s' =
               {| ChatBox.messages :=
                    ChatBox.messages (App.chatBox s)
                    ++ [{| ChatBox.id := now + 1;
                           ChatBox.text := JStr ChatBox.errorText;
                           ChatBox.sender := ChatBox.system;
                           ChatBox.isError := true |}];
                  ChatBox.input := ChatBox.input (App.chatBox s);
                  ChatBox.isLoading := false |}
          /\ App.selectedWebsite s' = App.selectedWebsite s
          /\ App.requested s' = App.requested s).
Proof.
  intros Hs E. apply reachable_busy in Hs.
  pose proof (@nth_error_Forall _ _ _ _ _ (busy_shape Hs) E) as Hp.
  destruct Hp as [v [q [k [-> Hrest]]]].
  split; [intros data | intros err]; eexists; unfold App.step; rewrite E;
    unfold App.wake; cbn [sent resume App.outcome]; rewrite Hrest;
    (split; [reflexivity|]); repeat split.
Qed.

(** X12.  In every reachable state in which the chat panel shows its
    typing indicator (its loading flag is set), at least one chat request
    is in flight. *)
Theorem typing_needs_request (s : App.State) :
  App.reachable URL_parses s ->
  ChatBox.isLoading (App.chatBox s) = true ->
  1 <= in_flight is_chat s
  /\ exists (i : nat) (p : Paused ChatBox.State),
       nth_error (App.inflight s) i = Some (App.InChatBox p).
Proof.
  intros Hs Hload. apply reachable_busy in Hs.
  pose proof (busy_chat Hs Hload) as Hn. split; [exact Hn|].
  unfold in_flight in Hn.
  destruct (filter is_chat (App.inflight s)) as [|pending l] eqn:F;
    [cbn in Hn; lia|].
  assert (Hin : In pending (filter is_chat (App.inflight s)))
    by (rewrite F; left; reflexivity).
  apply filter_In in Hin as [Hin Hkind].
  destruct pending as [p | p | p | p]; try discriminate.
  apply In_nth_error in Hin as [i Hi]. exists i, p. exact Hi.
Qed.

End WithURL.

End EventLoopFacts.

(* ===================================================================== *)
(** ** The roster's error is never cleared *)
(* ===================================================================== *)

Module RosterError.
Import Flight VectorSelection.

Section Parked.

Context {S : Type}.
Variable inv : S -> Prop.
Variable allowed : HttpRequest -> Prop.
Variable may_call : Callback -> Prop.

(** What a safe program parks is safe, from any state. *)
Lemma safe_parked (now : Z) (p : Prog S unit) :
  safe inv allowed may_call p ->
  forall st : S,
    match snd (exec now p st) with
    | Some q => safe_paused inv allowed may_call q
    | None => True
    end.
Proof.
  induction 1 as [a | f k Hf Hk IH | c k Hc Hk IH | k Hk IH | R r k Hr Hk IH];
    intros st; cbn.
  - exact I.
  - apply IH.
  - specialize (IH st). destruct (exec now k st) as [[st' cs] q]. exact IH.
  - apply IH.
  - exact Hk.
Qed.

End Parked.

Lemma displayed_none (st : State) : has_error st -> displayed st = [].
Proof.
  unfold has_error, displayed, render. intros H.
  destruct (isLoading st); [reflexivity|].
  rewrite (truthy_nonempty H). reflexivity.
Qed.

Ltac keeps_error_auto :=
  safe_auto;
  try exact I;
  unfold has_error in *; cbn; try assumption; try discriminate.

Lemma fetchWebsites_keeps_error :
  safe has_error unrestricted Spec.vocal fetchWebsites.
Proof. unfold fetchWebsites. keeps_error_auto. Qed.

(** The rest of a delete never empties the error: on failure it sets a
    text, on success it only re-fetches. *)
Lemma delete_parked_keeps_error (given : bool) (r : State) (website : Website)
  (confirmDelete : bool) (now : Z) (st : State) :
  match snd (exec now (handleDeleteWebsite given r website confirmDelete) st) with
  | Some q => safe_paused has_error unrestricted Spec.vocal q
  | None => True
  end.
Proof.
  destruct confirmDelete; cbn; [|exact I].
  intros [err | []]; cbn.
  - match goal with
    | |- context [if ?b then _ else _] => destruct b
    end; keeps_error_auto.
  - apply safe_bind; [|intros; keeps_error_auto].
    apply safe_bind; [|intros; exact fetchWebsites_keeps_error].
    destruct (strict_eq _ _); [destruct given|]; keeps_error_auto.
Qed.

Lemma keeps_error_start : Forall keeps_error (App.inflight App.start).
Proof.
  cbn. repeat constructor. intros o. cbn. destruct o; keeps_error_auto.
Qed.

Section WithURL.

Variable URL_parses : jsstring -> bool.

Lemma step_keeps_error (now : Z) (e : App.Event) (s s' : App.State) :
  Forall keeps_error (App.inflight s) ->
  App.step URL_parses now e s = Some s' ->
  Forall keeps_error (App.inflight s').
Proof.
  intros Hs. destruct e as [v | | i | i c | v | | | i x]; unfold App.step.
  - destruct (URLInput.isLoading _); [discriminate|].
    intros H. apply Invariants.Some_eq in H. subst s'. exact Hs.
  - destruct (URLInput.isLoading _); [discriminate|].
    intros H. apply Invariants.Some_eq in H. subst s'.
    destruct (exec now _ _) as [[st' calls] parked].
    destruct (EventLoopFacts.commit_frame App.put_urlInput App.InURLInput
                st' calls parked s) as [-> _].
    destruct parked; cbn; [|exact Hs].
    apply Forall_app. split; [exact Hs | repeat constructor].
  - destruct (nth_error _ i) as [website|]; [|discriminate].
    intros H. apply Invariants.Some_eq in H. subst s'.
    exact Hs.
  - destruct (nth_error _ i) as [website|]; [|discriminate].
    destruct (strict_eq _ _); [discriminate|].
    intros H. apply Invariants.Some_eq in H. subst s'.
    pose proof (delete_parked_keeps_error true (App.vectorSelection s) website
                  c now (App.vectorSelection s)) as Hq.
    destruct (exec now _ _) as [[st' calls] parked].
    destruct (EventLoopFacts.commit_frame App.put_vectorSelection
                App.InVectorSelection st' calls parked s) as [-> _].
    destruct parked; cbn in *; [|exact Hs].
    apply Forall_app. split; [exact Hs | constructor; [exact Hq | constructor]].
  - destruct (App.selectedWebsite s); [|discriminate].
    destruct (ChatBox.isLoading _); [discriminate|].
    intros H. apply Invariants.Some_eq in H. subst s'. exact Hs.
  - destruct (App.selectedWebsite s); [|discriminate].
    intros H. apply Invariants.Some_eq in H. subst s'.
    destruct (exec now _ _) as [[st' calls] parked].
    destruct (EventLoopFacts.commit_frame App.put_chatBox App.InChatBox
                st' calls parked s) as [-> _].
    destruct parked; cbn; [|exact Hs].
    apply Forall_app. split; [exact Hs | repeat constructor].
  - destruct (SystemInfo.render _); try discriminate.
    intros H. apply Invariants.Some_eq in H. subst s'. exact Hs.
  - destruct (nth_error (App.inflight s) i) as [pending|] eqn:E; [|discriminate].
    pose proof (@EventLoop.nth_error_Forall _ _ _ _ _ Hs E) as Hp.
    pose proof (EventLoop.Forall_remove i Hs) as Hrest.
    destruct pending as [p | p | p | p]; cbn in Hp; unfold App.wake;
      (destruct (App.outcome (sent p) x) as [o|]; [|discriminate]);
      intros H; apply Invariants.Some_eq in H; subst s'.
    + destruct (exec now _ _) as [[st' calls] parked].
      destruct (EventLoopFacts.commit_frame App.put_systemInfo App.InSystemInfo
                  st' calls parked
                  (App.put_inflight (App.remove_nth i (App.inflight s)) s))
        as [-> _].
      destruct parked; cbn; [|exact Hrest].
      apply Forall_app. split; [exact Hrest | repeat constructor].
    + destruct (exec now _ _) as [[st' calls] parked].
      destruct (EventLoopFacts.commit_frame App.put_urlInput App.InURLInput
                  st' calls parked
                  (App.put_inflight (App.remove_nth i (App.inflight s)) s))
        as [-> _].
      destruct parked; cbn; [|exact Hrest].
      apply Forall_app. split; [exact Hrest | repeat constructor].
    + pose proof (safe_parked now (Hp o)
                    (App.vectorSelection
                       (App.put_inflight (App.remove_nth i (App.inflight s)) s)))
        as Hq.
      destruct (exec now _ _) as [[st' calls] parked].
      destruct (EventLoopFacts.commit_frame App.put_vectorSelection
                  App.InVectorSelection st' calls parked
                  (App.put_inflight (App.remove_nth i (App.inflight s)) s))
        as [-> _].
      destruct parked; cbn in *; [|exact Hrest].
      apply Forall_app. split; [exact Hrest | constructor; [exact Hq | constructor]].
    + destruct (exec now _ _) as [[st' calls] parked].
      destruct (EventLoopFacts.commit_frame App.put_chatBox App.InChatBox
                  st' calls parked
                  (App.put_inflight (App.remove_nth i (App.inflight s)) s))
        as [-> _].
      destruct parked; cbn; [|exact Hrest].
      apply Forall_app. split; [exact Hrest | repeat constructor].
Qed.

Lemma reachable_keeps_error (s : App.State) :
  App.reachable URL_parses s -> Forall keeps_error (App.inflight s).
Proof.
  induction 1 as [| s now e s' _ IH Hstep]; [exact keeps_error_start|].
  exact (@step_keeps_error now e s s' IH Hstep).
Qed.

(** One turn keeps the roster's error. *)
Lemma step_has_error (now : Z) (e : App.Event) (s s' : App.State) :
  Forall keeps_error (App.inflight s) ->
  has_error (App.vectorSelection s) ->
  App.step URL_parses now e s = Some s' ->
  has_error (App.vectorSelection s').
Proof.
  intros Hs Herr. destruct e as [v | | i | i c | v | | | i x]; unfold App.step.
  - destruct (URLInput.isLoading _); [discriminate|].
    intros H. apply Invariants.Some_eq in H. subst s'. exact Herr.
  - destruct (URLInput.isLoading _); [discriminate|].
    intros H. apply Invariants.Some_eq in H. subst s'.
    destruct (exec now _ _) as [[st' calls] parked].
    destruct (EventLoopFacts.commit_frame App.put_urlInput App.InURLInput
                st' calls parked s) as [_ [_ [_ [_ [-> _]]]]].
    destruct parked; exact Herr.
  - rewrite (displayed_none Herr). destruct i; discriminate.
  - rewrite (displayed_none Herr). destruct i; discriminate.
  - destruct (App.selectedWebsite s); [|discriminate].
    destruct (ChatBox.isLoading _); [discriminate|].
    intros H. apply Invariants.Some_eq in H. subst s'. exact Herr.
  - destruct (App.selectedWebsite s); [|discriminate].
    intros H. apply Invariants.Some_eq in H. subst s'.
    destruct (exec now _ _) as [[st' calls] parked].
    destruct (EventLoopFacts.commit_frame App.put_chatBox App.InChatBox
                st' calls parked s) as [_ [_ [_ [_ [-> _]]]]].
    destruct parked; exact Herr.
  - destruct (SystemInfo.render _); try discriminate.
    intros H. apply Invariants.Some_eq in H. subst s'. exact Herr.
  - destruct (nth_error (App.inflight s) i) as [pending|] eqn:E; [|discriminate].
    pose proof (@EventLoop.nth_error_Forall _ _ _ _ _ Hs E) as Hp.
    destruct pending as [p | p | p | p]; cbn in Hp; unfold App.wake;
      (destruct (App.outcome (sent p) x) as [o|]; [|discriminate]);
      intros H; apply Invariants.Some_eq in H; subst s'.
    + destruct (exec now _ _) as [[st' calls] parked].
      destruct (EventLoopFacts.commit_frame App.put_systemInfo App.InSystemInfo
                  st' calls parked
                  (App.put_inflight (App.remove_nth i (App.inflight s)) s))
        as [_ [_ [_ [_ [-> _]]]]].
      destruct parked; exact Herr.
    + destruct (exec now _ _) as [[st' calls] parked].
      destruct (EventLoopFacts.commit_frame App.put_urlInput App.InURLInput
                  st' calls parked
                  (App.put_inflight (App.remove_nth i (App.inflight s)) s))
        as [_ [_ [_ [_ [-> _]]]]].
      destruct parked; exact Herr.
    + pose proof (safe_exec now (Hp o) _ Herr) as [Hkept _].
      cbn [App.vectorSelection App.put_inflight].
      destruct (exec now _ _) as [[st' calls] parked].
      destruct (EventLoopFacts.commit_frame App.put_vectorSelection
                  App.InVectorSelection st' calls parked
                  (App.put_inflight (App.remove_nth i (App.inflight s)) s))
        as [_ [_ [_ [_ [-> _]]]]].
      destruct parked; exact Hkept.
    + destruct (exec now _ _) as [[st' calls] parked].
      destruct (EventLoopFacts.commit_frame App.put_chatBox App.InChatBox
                  st' calls parked
                  (App.put_inflight (App.remove_nth i (App.inflight s)) s))
        as [_ [_ [_ [_ [-> _]]]]].
      destruct parked; exact Herr.
Qed.

(** X10.  Once the roster has an error set, in a reachable state, it has
    one in every state any further run of the event loop reaches: no
    request that settles and no user event clears it.  From then on the
    roster shows no row, so no site can be selected or deleted through
    it. *)
Theorem roster_error_is_sticky (evs : list (Z * App.Event)) :
  forall s s' : App.State,
    App.reachable URL_parses s ->
    error (App.vectorSelection s) <> [] ->
    App.run URL_parses evs s = Some s' ->
    error (App.vectorSelection s') <> []
    /\ displayed (App.vectorSelection s') = []
    /\ forall (now : Z) (i : nat) (confirmDelete : bool),
         App.step URL_parses now (App.ClickRow i) s' = None
         /\ App.step URL_parses now (App.ClickDelete i confirmDelete) s' = None.
Proof.
  induction evs as [|[now e] evs IH]; intros s s' Hs Herr; cbn.
  - intros [= <-]. split; [exact Herr|].
    pose proof (displayed_none Herr) as Hnone. split; [exact Hnone|].
    intros now i c. unfold App.step. rewrite Hnone.
    destruct i; split; reflexivity.
  - destruct (App.step URL_parses now e s) as [s1|] eqn:E; [|discriminate].
    apply IH.
    + exact (App.reach_step now e Hs E).
    + exact (@step_has_error now e s s1 (reachable_keeps_error Hs) Herr E).
Qed.

End WithURL.

End RosterError.

(* ===================================================================== *)
(** ** Asking for a delete *)
(* ===================================================================== *)

Module RosterDelete.
Import VectorSelection.

Section WithURL.

Variable URL_parses : jsstring -> bool.

(** X13.  In every reachable state, for a row the roster shows: while
    its delete button is disabled the click is not taken; a declined
    confirmation leaves the whole application as it was; a confirmed one
    sends exactly one request, the delete for the row's [vector_db_id],
    which is truthy, records the row's id, and changes neither the
    roster's list or selection, nor the root's selected site, nor the
    chat. *)
Theorem delete_click_request (s : App.State) (i : nat) (website : Website)
  (now : Z) :
  App.reachable URL_parses s ->
  nth_error (displayed (App.vectorSelection s)) i = Some website ->
  (strict_eq (deletingId (App.vectorSelection s)) (id website) = true ->
   forall confirmDelete : bool,
     App.step URL_parses now (App.ClickDelete i confirmDelete) s = None)
  /\ (strict_eq (deletingId (App.vectorSelection s)) (id website) = false ->
      App.step URL_parses now (App.ClickDelete i false) s = Some s
      /\ exists s' : App.State,
           App.step URL_parses now (App.ClickDelete i true) s = Some s'
           /\ App.requested s' =
                App.requested s
                ++ [{| http_method := POST;
                       http_path := "/api/websites/delete_vectorized_data/";
                       http_body :=
                         [("vector_db_id"%string, vector_db_id website)] |}]
           /\ truthy (vector_db_id website) = true
           /\ deletingId (App.vectorSelection s') = id website
           /\ websites (App.vectorSelection s') = websites (App.vectorSelection s)
           /\ selectedWebsite (App.vectorSelection s') =
                selectedWebsite (App.vectorSelection s)
           /\ App.selectedWebsite s' = App.selectedWebsite s
           /\ App.chatBox s' = App.chatBox s).
Proof.
  intros Hs E. unfold App.step. rewrite E. split.
  - intros ->. reflexivity.
  - intros ->. split.
    + cbn. destruct s as [a b c d [e f g h j] k l m]. reflexivity.
    + eexists. split; [reflexivity|]. cbn. repeat split.
      pose proof (Invariants.reachable_inv Hs) as [Hroster _ _].
      unfold Spec.roster_ok in Hroster. rewrite Forall_forall in Hroster.
      apply Hroster. apply VectorSelectionFacts.displayed_incl.
      eapply nth_error_In, E.
Qed.

End WithURL.

End RosterDelete.

(* ===================================================================== *)
(** ** The selection a delete tests *)
(* ===================================================================== *)

Module RosterSelection.
Import Scenario Scenario3.

Lemma and_then (P Q : Prop) : P -> (P -> Q) -> P /\ Q.
Proof. intros HP HQ. split; [exact HP | exact (HQ HP)]. Qed.

(** C4, as stated, fails, in three runs of the application.  First, the
    selected site is one the user has just scraped; the roster, fetched
    again since, lists it, but has no selection of its own; the user
    deletes that site from the roster and the delete succeeds: the root's
    selection is not cleared, and the chat stays on the deleted site.
    Second, the user selects site A, asks to delete it, and selects site B
    before the delete succeeds: the success clears the selection, although
    the selected site is B, which was not deleted.  Third, with site B
    selected the user asks to delete site A and selects site A before the
    delete succeeds: site A stays selected.  Hence neither half of the
    claim holds of the site selected when the delete succeeds, be it
    found by its [vectorDbId] at the root or by the roster's own
    selection. *)
Lemma delete_misses_current_selection :
  (exists (s s' : App.State) (p : Paused VectorSelection.State),
     App.reachable accepts s
     /\ App.run accepts deleting_scraped App.start = Some s
     /\ nth_error (App.inflight s) 1 = Some (App.InVectorSelection p)
     /\ wire (sent p) = wire (PostDelete (JNum 22))
     /\ App.selectedProp s =
          Some {| websiteId := JNum 11; vectorDbId := JNum 22;
                  sel_url := JStr (lit "https://example.com") |}
     /\ VectorSelection.selectedWebsite (App.vectorSelection s) = None
     /\ App.step accepts 80 (App.Settle 1 App.DeleteOk) s = Some s'
     /\ App.selectedProp s' = App.selectedProp s)
  /\ (exists (s s' : App.State) (p : Paused VectorSelection.State),
        App.reachable accepts s
        /\ App.run accepts deleting_A_then_B App.start = Some s
        /\ nth_error (App.inflight s) 1 = Some (App.InVectorSelection p)
        /\ wire (sent p) = wire (PostDelete (JNum 7))
        /\ App.selectedProp s =
             Some {| websiteId := JNum 2; vectorDbId := JNum 8;
                     sel_url := JStr (lit "https://b.example") |}
        /\ VectorSelection.selectedWebsite (App.vectorSelection s) = Some siteB
        /\ App.step accepts 50 (App.Settle 1 App.DeleteOk) s = Some s'
        /\ App.selectedProp s' = None
        /\ VectorSelection.selectedWebsite (App.vectorSelection s') = None)
  /\ (exists (s s' : App.State) (p : Paused VectorSelection.State),
        App.reachable accepts s
        /\ App.run accepts deleting_A_then_A App.start = Some s
        /\ nth_error (App.inflight s) 1 = Some (App.InVectorSelection p)
        /\ wire (sent p) = wire (PostDelete (JNum 7))
        /\ App.selectedProp s =
             Some {| websiteId := JNum 1; vectorDbId := JNum 7;
                     sel_url := JStr (lit "https://a.example") |}
        /\ VectorSelection.selectedWebsite (App.vectorSelection s) = Some siteA
        /\ App.step accepts 50 (App.Settle 1 App.DeleteOk) s = Some s'
        /\ App.selectedProp s' = App.selectedProp s
        /\ VectorSelection.selectedWebsite (App.vectorSelection s') = Some siteA)
  /\ ~ (forall (now : Z) (i : nat) (p : Paused VectorSelection.State)
               (v : jsval) (s s' : App.State),
          App.reachable accepts s ->
          nth_error (App.inflight s) i = Some (App.InVectorSelection p) ->
          wire (sent p) = wire (PostDelete v) ->
          App.step accepts now (App.Settle i App.DeleteOk) s = Some s' ->
          option_map vectorDbId (App.selectedProp s) = Some v ->
          App.selectedProp s' = None)
  /\ ~ (forall (now : Z) (i : nat) (p : Paused VectorSelection.State)
               (v : jsval) (s s' : App.State),
          App.reachable accepts s ->
          nth_error (App.inflight s) i = Some (App.InVectorSelection p) ->
          wire (sent p) = wire (PostDelete v) ->
          App.step accepts now (App.Settle i App.DeleteOk) s = Some s' ->
          option_map vectorDbId (App.selectedProp s) <> Some v ->
          App.selectedProp s' = App.selectedProp s).
Proof.
  apply and_then.
  { eexists. eexists. eexists.
    assert (Hrun : App.run accepts deleting_scraped App.start = Some _)
      by (vm_compute; reflexivity).
    split; [exact (@SiteChangeFacts.run_reachable accepts deleting_scraped _ _
                     (App.reach_start accepts) Hrun)|].
    split; [exact Hrun|].
    split; [vm_compute; reflexivity|]. split; [reflexivity|].
    split; [vm_compute; reflexivity|]. split; [vm_compute; reflexivity|].
    split; vm_compute; reflexivity. }
  intros [s1 [s1' [p1 [Hs1 [_ [Hp1 [Hw1 [Hsel1 [_ [Hstep1 Hkept1]]]]]]]]]].
  apply and_then.
  { eexists. eexists. eexists.
    assert (Hrun : App.run accepts deleting_A_then_B App.start = Some _)
      by (vm_compute; reflexivity).
    split; [exact (@SiteChangeFacts.run_reachable accepts deleting_A_then_B _ _
                     (App.reach_start accepts) Hrun)|].
    split; [exact Hrun|].
    split; [vm_compute; reflexivity|]. split; [reflexivity|].
    split; [vm_compute; reflexivity|]. split; [vm_compute; reflexivity|].
    split; [vm_compute; reflexivity|]. split; vm_compute; reflexivity. }
  intros [s2 [s2' [p2 [Hs2 [_ [Hp2 [Hw2 [Hsel2 [_ [Hstep2 [Hnone2 _]]]]]]]]]]].
  split; [|split].
  - eexists. eexists. eexists.
    assert (Hrun : App.run accepts deleting_A_then_A App.start = Some _)
      by (vm_compute; reflexivity).
    split; [exact (@SiteChangeFacts.run_reachable accepts deleting_A_then_A _ _
                     (App.reach_start accepts) Hrun)|].
    split; [exact Hrun|].
    split; [vm_compute; reflexivity|]. split; [reflexivity|].
    split; [vm_compute; reflexivity|]. split; [vm_compute; reflexivity|].
    split; [vm_compute; reflexivity|]. split; vm_compute; reflexivity.
  - intros Hclaim.
    assert (Hcleared : App.selectedProp s1' = None).
    { apply (Hclaim 80%Z 1 p1 (JNum 22) s1 s1' Hs1 Hp1 Hw1 Hstep1).
      rewrite Hsel1. reflexivity. }
    rewrite Hkept1, Hsel1 in Hcleared. discriminate Hcleared.
  - intros Hclaim.
    assert (Hkept : App.selectedProp s2' = App.selectedProp s2).
    { apply (Hclaim 50%Z 1 p2 (JNum 7) s2 s2' Hs2 Hp2 Hw2 Hstep2).
      rewrite Hsel2. cbn. intros [=]. }
    rewrite Hnone2, Hsel2 in Hkept. discriminate Hkept.
Qed.

End RosterSelection.

(* ===================================================================== *)
(** ** The status panel holds the response to its request *)
(* ===================================================================== *)

Module StatusPanel.
Import Flight EventLoop Status.

(** A status response is no answer to any other request. *)
Lemma outcome_foreign (R : Type) (r : Request R) (data : SystemInfoData) :
  Spec.other_request (wire r) -> App.outcome r (App.SystemInfoOk data) = None.
Proof. destruct r; cbn; intros H; try reflexivity. discriminate H. Qed.

Lemma turn_foreign (S : Type) (P : S -> Prop) (C : Callback -> Prop)
  (turn : S * list Callback * option (Paused S)) :
  safe_turn P Spec.other_request C turn ->
  match snd turn with
  | Some q => Spec.other_request (wire (sent q))
  | None => True
  end.
Proof. intros [_ [_ H]]. destruct (snd turn); [apply H | exact I]. Qed.

Lemma commit_foreign (S : Type) (put : S -> App.State -> App.State)
  (park : Paused S -> App.Pending)
  (turn : S * list Callback * option (Paused S)) (s : App.State) :
  (forall st s0, App.inflight (put st s0) = App.inflight s0) ->
  (forall q, Spec.other_request (wire (sent q)) -> foreign (park q)) ->
  Forall foreign (App.inflight s) ->
  match snd turn with
  | Some q => Spec.other_request (wire (sent q))
  | None => True
  end ->
  Forall foreign (App.inflight (App.commit put park turn s)).
Proof.
  intros Hput Hpark Hs Hq. destruct turn as [[st calls] parked].
  destruct (EventLoopFacts.commit_frame put park st calls parked s) as [-> _].
  cbn in Hq. destruct parked as [q|]; cbn; rewrite Hput; [|exact Hs].
  apply Forall_app. split; [exact Hs|]. constructor; [|constructor].
  apply Hpark, Hq.
Qed.

Section WithURL.

Variable URL_parses : jsstring -> bool.

Lemma step_foreign (now : Z) (e : App.Event) (s s' : App.State) :
  Spec.Inv s -> Forall foreign (App.inflight s) ->
  App.step URL_parses now e s = Some s' ->
  Forall foreign (App.inflight s').
Proof.
  intros Hinv Hs. destruct e as [v | | i | i c | v | | | i x]; unfold App.step.
  - destruct (URLInput.isLoading _); [discriminate|].
    intros H. apply Invariants.Some_eq in H. subst s'. exact Hs.
  - destruct (URLInput.isLoading _); [discriminate|].
    intros H. apply Invariants.Some_eq in H. subst s'.
    apply commit_foreign; [intros; reflexivity | intros q Hq; cbn; auto | cbn; assumption | ].
    apply turn_foreign with (P := @Spec.any URLInput.State) (C := Spec.vocal).
    apply safe_exec; [apply Invariants.URLInput_handleSubmit_safe | exact I].
  - destruct (nth_error _ i) as [website|]; [|discriminate].
    intros H. apply Invariants.Some_eq in H. subst s'.
    apply commit_foreign; [intros; reflexivity | intros q Hq; cbn; auto | cbn; assumption | ].
    apply turn_foreign with (P := Spec.roster_ok) (C := Spec.vocal).
    apply safe_exec; [apply Invariants.handleSelectWebsite_safe | apply Hinv].
  - destruct (nth_error _ i) as [website|]; [|discriminate].
    destruct (strict_eq _ _); [discriminate|].
    intros H. apply Invariants.Some_eq in H. subst s'.
    apply commit_foreign; [intros; reflexivity | intros q Hq; cbn; auto | cbn; assumption | ].
    apply turn_foreign with (P := Spec.roster_ok) (C := Spec.vocal).
    apply safe_exec; [apply Invariants.handleDeleteWebsite_safe | apply Hinv].
  - destruct (App.selectedWebsite s); [|discriminate].
    destruct (ChatBox.isLoading _); [discriminate|].
    intros H. apply Invariants.Some_eq in H. subst s'. exact Hs.
  - destruct (App.selectedWebsite s); [|discriminate].
    intros H. apply Invariants.Some_eq in H. subst s'.
    apply commit_foreign; [intros; reflexivity | intros q Hq; cbn; auto | cbn; assumption | ].
    apply turn_foreign with (P := @Spec.any ChatBox.State) (C := Spec.silent).
    apply safe_exec; [apply Invariants.ChatBox_handleSubmit_safe | exact I].
  - destruct (SystemInfo.render _); try discriminate.
    intros H. apply Invariants.Some_eq in H. subst s'. exact Hs.
  - destruct (nth_error (App.inflight s) i) as [pending|] eqn:E; [|discriminate].
    assert (Hgood : Spec.good pending).
    { destruct Hinv as [_ H _]. exact (@nth_error_Forall _ _ _ _ _ H E). }
    pose proof (Forall_remove i Hs) as Hrest.
    pose proof (Invariants.drop_inv i Hinv) as Hinv'.
    destruct pending as [p | p | p | p]; cbn in Hgood; unfold App.wake;
      (destruct (App.outcome (sent p) x) as [o|]; [|discriminate]);
      intros H; apply Invariants.Some_eq in H; subst s';
      (apply commit_foreign;
       [intros; reflexivity | intros q Hq; cbn; auto | cbn; assumption | ]).
    + apply turn_foreign with (P := @Spec.any SystemInfo.State) (C := Spec.vocal).
      apply safe_exec; [apply Hgood | exact I].
    + apply turn_foreign with (P := @Spec.any URLInput.State) (C := Spec.vocal).
      apply safe_exec; [apply Hgood | exact I].
    + apply turn_foreign with (P := Spec.roster_ok) (C := Spec.vocal).
      apply safe_exec; [apply Hgood | apply Hinv'].
    + apply turn_foreign with (P := @Spec.any ChatBox.State) (C := Spec.silent).
      apply safe_exec; [apply Hgood | exact I].
Qed.

(** How one turn of the event loop moves the panel: only the settling of
    its own request and a click on its header change it. *)
Lemma step_status (now : Z) (e : App.Event) (s s' : App.State) :
  Busy s -> Forall foreign (App.inflight s) ->
  App.step URL_parses now e s = Some s' ->
  match e with
  | App.ToggleSystemInfo =>
      SystemInfo.isLoading (App.systemInfo s) = false
      /\ App.systemInfo s' =
           {| SystemInfo.systemInfo := SystemInfo.systemInfo (App.systemInfo s);
              SystemInfo.isLoading := false;
              SystemInfo.error := SystemInfo.error (App.systemInfo s);
              SystemInfo.isExpanded :=
                negb (SystemInfo.isExpanded (App.systemInfo s)) |}
  | App.Settle i x =>
      match nth_error (App.inflight s) i with
      | Some (App.InSystemInfo _) =>
          SystemInfo.isLoading (App.systemInfo s) = true
          /\ match x with
             | App.SystemInfoOk data =>
                 App.systemInfo s' =
                   {| SystemInfo.systemInfo := Some data;
                      SystemInfo.isLoading := false;
                      SystemInfo.error := SystemInfo.error (App.systemInfo s);
                      SystemInfo.isExpanded :=
                        SystemInfo.isExpanded (App.systemInfo s) |}
             | App.Rejected _ =>
                 App.systemInfo s' =
                   {| SystemInfo.systemInfo :=
                        SystemInfo.systemInfo (App.systemInfo s);
                      SystemInfo.isLoading := false;
                      SystemInfo.error := lit "Failed to load system information";
                      SystemInfo.isExpanded :=
                        SystemInfo.isExpanded (App.systemInfo s) |}
             | _ => False
             end
      | _ =>
          App.systemInfo s' = App.systemInfo s
          /\ forall data : SystemInfoData, x <> App.SystemInfoOk data
      end
  | _ => App.systemInfo s' = App.systemInfo s
  end.
Proof.
  intros Hs Hf. destruct e as [v | | i | i c | v | | | i x]; unfold App.step.
  - destruct (URLInput.isLoading _); [discriminate|].
    intros H. apply Invariants.Some_eq in H. subst s'. reflexivity.
  - destruct (URLInput.isLoading _); [discriminate|].
    intros H. apply Invariants.Some_eq in H. subst s'.
    destruct (exec now _ _) as [[st' calls] parked].
    destruct (EventLoopFacts.commit_frame App.put_urlInput App.InURLInput
                st' calls parked s) as [_ [_ [_ [-> _]]]].
    destruct parked; reflexivity.
  - destruct (nth_error _ i) as [website|]; [|discriminate].
    intros H. apply Invariants.Some_eq in H. subst s'.
    destruct (exec now _ _) as [[st' calls] parked].
    destruct (EventLoopFacts.commit_frame App.put_vectorSelection
                App.InVectorSelection st' calls parked s) as [_ [_ [_ [-> _]]]].
    destruct parked; reflexivity.
  - destruct (nth_error _ i) as [website|]; [|discriminate].
    destruct (strict_eq _ _); [discriminate|].
    intros H. apply Invariants.Some_eq in H. subst s'.
    destruct (exec now _ _) as [[st' calls] parked].
    destruct (EventLoopFacts.commit_frame App.put_vectorSelection
                App.InVectorSelection st' calls parked s) as [_ [_ [_ [-> _]]]].
    destruct parked; reflexivity.
  - destruct (App.selectedWebsite s); [|discriminate].
    destruct (ChatBox.isLoading _); [discriminate|].
    intros H. apply Invariants.Some_eq in H. subst s'. reflexivity.
  - destruct (App.selectedWebsite s); [|discriminate].
    intros H. apply Invariants.Some_eq in H. subst s'.
    destruct (exec now _ _) as [[st' calls] parked].
    destruct (EventLoopFacts.commit_frame App.put_chatBox App.InChatBox
                st' calls parked s) as [_ [_ [_ [-> _]]]].
    destruct parked; reflexivity.
  - unfold SystemInfo.render.
    destruct (SystemInfo.isLoading (App.systemInfo s)) eqn:Hload; [discriminate|].
    destruct (truthy _); [discriminate|].
    intros H. apply Invariants.Some_eq in H. subst s'. split; [reflexivity|].
    cbn. rewrite Hload. reflexivity.
  - destruct (nth_error (App.inflight s) i) as [pending|] eqn:E; [|discriminate].
    destruct (busy_counts i Hs E) as [_ [_ [Hsys _]]].
    pose proof (@nth_error_Forall _ _ _ _ _ (busy_shape Hs) E) as Hp.
    pose proof (@nth_error_Forall _ _ _ _ _ Hf E) as Hq.
    destruct pending as [p | p | p | p]; cbn in Hsys, Hp, Hq; unfold App.wake.
    + destruct Hp as [k [-> [Hok Hfail]]]. cbn [sent resume].
      assert (Hload : SystemInfo.isLoading (App.systemInfo s) = true)
        by (destruct (SystemInfo.isLoading (App.systemInfo s)); [reflexivity | lia]).
      destruct x; cbn; try discriminate; intros H;
        apply Invariants.Some_eq in H; subst s';
        rewrite ?Hok, ?Hfail; (split; [exact Hload | reflexivity]).
    + destruct (App.outcome (sent p) x) as [o|] eqn:Ho; [|discriminate].
      intros H. apply Invariants.Some_eq in H. subst s'.
      destruct (exec now _ _) as [[st' calls] parked].
      destruct (EventLoopFacts.commit_frame App.put_urlInput App.InURLInput
                  st' calls parked
                  (App.put_inflight (App.remove_nth i (App.inflight s)) s))
        as [_ [_ [_ [-> _]]]].
      split; [destruct parked; reflexivity|].
      intros data ->. rewrite (@outcome_foreign _ _ data Hq) in Ho. discriminate.
    + destruct (App.outcome (sent p) x) as [o|] eqn:Ho; [|discriminate].
      intros H. apply Invariants.Some_eq in H. subst s'.
      destruct (exec now _ _) as [[st' calls] parked].
      destruct (EventLoopFacts.commit_frame App.put_vectorSelection
                  App.InVectorSelection st' calls parked
                  (App.put_inflight (App.remove_nth i (App.inflight s)) s))
        as [_ [_ [_ [-> _]]]].
      split; [destruct parked; reflexivity|].
      intros data ->. rewrite (@outcome_foreign _ _ data Hq) in Ho. discriminate.
    + destruct (App.outcome (sent p) x) as [o|] eqn:Ho; [|discriminate].
      intros H. apply Invariants.Some_eq in H. subst s'.
      destruct (exec now _ _) as [[st' calls] parked].
      destruct (EventLoopFacts.commit_frame App.put_chatBox App.InChatBox
                  st' calls parked
                  (App.put_inflight (App.remove_nth i (App.inflight s)) s))
        as [_ [_ [_ [-> _]]]].
      split; [destruct parked; reflexivity|].
      intros data ->. rewrite (@outcome_foreign _ _ data Hq) in Ho. discriminate.
Qed.

Lemma phase_start : Phase App.start.
Proof.
  constructor; cbn.
  - repeat constructor.
  - reflexivity.
  - discriminate.
Qed.

Lemma phase_same (s s' : App.State) :
  Phase s -> Forall foreign (App.inflight s') ->
  App.systemInfo s' = App.systemInfo s -> Phase s'.
Proof.
  intros [_ H1 H2] Hf E. constructor; rewrite ?E; assumption.
Qed.

Lemma step_phase (now : Z) (e : App.Event) (s s' : App.State) :
  Spec.Inv s -> Busy s -> Phase s ->
  App.step URL_parses now e s = Some s' -> Phase s'.
Proof.
  intros Hinv Hb Hp Hstep.
  pose proof (@step_foreign now e s s' Hinv (phase_foreign Hp) Hstep) as Hf.
  pose proof (@step_status now e s s' Hb (phase_foreign Hp) Hstep) as Hsys.
  destruct e as [v | | i | i c | v | | | i x];
    try exact (@phase_same _ _ Hp Hf Hsys).
  - destruct Hsys as [Hload Hsys]. constructor; rewrite ?Hsys; cbn;
      [exact Hf | discriminate |].
    intros data Hdata. rewrite (phase_loaded Hp Hdata). reflexivity.
  - destruct (nth_error (App.inflight s) i) as [[p | p | p | p]|];
      try exact (@phase_same _ _ Hp Hf (proj1 Hsys)).
    destruct Hsys as [Hload Hsys]. rewrite (phase_loading Hp Hload) in Hsys.
    destruct x; try contradiction; constructor; rewrite ?Hsys; cbn;
      try exact Hf; try discriminate.
    intros d [= <-]. reflexivity.
Qed.

Lemma reachable_phase (s : App.State) : App.reachable URL_parses s -> Phase s.
Proof.
  induction 1 as [| s now e s' Hs IH Hstep]; [exact phase_start|].
  exact (@step_phase now e s s' (Invariants.reachable_inv Hs)
           (reachable_busy Hs) IH Hstep).
Qed.

(** Over a run, the snapshot changes only when a status response is
    delivered, and one is delivered at most once, while the panel is
    loading. *)
Lemma run_status (evs : list (Z * App.Event)) :
  forall s0 s : App.State,
    App.reachable URL_parses s0 ->
    App.run URL_parses evs s0 = Some s ->
    (SystemInfo.isLoading (App.systemInfo s0) = false ->
     responses evs = []
     /\ SystemInfo.systemInfo (App.systemInfo s) =
        SystemInfo.systemInfo (App.systemInfo s0))
    /\ (SystemInfo.isLoading (App.systemInfo s0) = true ->
        List.length (responses evs) <= 1
        /\ SystemInfo.systemInfo (App.systemInfo s) = head (responses evs)).
Proof.
  induction evs as [|[now e] evs IH]; intros s0 s Hs0; cbn [App.run].
  - intros [= <-]. cbn. split; [auto|]. intros Hload. split; [lia|].
    rewrite (phase_loading (@reachable_phase s0 Hs0) Hload). reflexivity.
  - destruct (App.step URL_parses now e s0) as [s1|] eqn:Hstep; [|discriminate].
    intros Hrun.
    destruct (IH s1 s (App.reach_step now e Hs0 Hstep) Hrun) as [IHdone IHload].
    pose proof (@reachable_phase s0 Hs0) as Hp.
    pose proof (@step_status now e s0 s1 (reachable_busy Hs0) (phase_foreign Hp)
                  Hstep) as Hsys.
    assert (Hsame :
              App.systemInfo s1 = App.systemInfo s0 ->
              responses ((now, e) :: evs) = responses evs ->
              (SystemInfo.isLoading (App.systemInfo s0) = false ->
               responses ((now, e) :: evs) = []
               /\ SystemInfo.systemInfo (App.systemInfo s) =
                  SystemInfo.systemInfo (App.systemInfo s0))
              /\ (SystemInfo.isLoading (App.systemInfo s0) = true ->
                  List.length (responses ((now, e) :: evs)) <= 1
                  /\ SystemInfo.systemInfo (App.systemInfo s) =
                     head (responses ((now, e) :: evs)))).
    { intros E1 E2. rewrite E2, <- E1. split; assumption. }
    destruct e as [v | | i | i c | v | | | i x]; try (apply Hsame; [exact Hsys | reflexivity]).
    + destruct Hsys as [Hload Hsys]. split; [|congruence].
      intros _. cbn [responses].
      destruct IHdone as [-> ->]; [rewrite Hsys; reflexivity|].
      rewrite Hsys. split; reflexivity.
    + destruct (nth_error (App.inflight s0) i) as [[p | p | p | p]|];
        try (destruct Hsys as [Hsys Hx]; apply Hsame; [exact Hsys|];
             destruct x; try reflexivity; destruct (Hx data eq_refl)).
      destruct Hsys as [Hload Hsys]. split; [congruence|]. intros _.
      destruct x; try contradiction.
      * cbn [responses].
        destruct IHdone as [-> ->]; [rewrite Hsys; reflexivity|].
        rewrite Hsys. cbn. split; [lia|].
        rewrite (phase_loading Hp Hload). reflexivity.
      * cbn [responses].
        destruct IHdone as [-> ->]; [rewrite Hsys; reflexivity|].
        rewrite Hsys. cbn. split; [lia | reflexivity].
Qed.

(** While the panel is loading, its request is in flight; whatever
    response settles it is stored, and a click on the header then shows
    it expanded. *)
Lemma loading_fetch_in_flight (s : App.State) :
  App.reachable URL_parses s ->
  SystemInfo.isLoading (App.systemInfo s) = true ->
  exists (i : nat) (p : Paused SystemInfo.State),
    nth_error (App.inflight s) i = Some (App.InSystemInfo p)
    /\ wire (sent p) = wire GetSystemInfo
    /\ forall (data : SystemInfoData) (now now' : Z),
         exists s1 s2 : App.State,
           App.step URL_parses now (App.Settle i (App.SystemInfoOk data)) s
           = Some s1
           /\ App.systemInfo s1 = loaded data false
           /\ App.step URL_parses now' App.ToggleSystemInfo s1 = Some s2
           /\ App.systemInfo s2 = loaded data true.
Proof.
  intros Hs Hload.
  pose proof (reachable_busy Hs) as Hb.
  pose proof (phase_loading (@reachable_phase s Hs) Hload) as Hinit.
  pose proof (busy_sys Hb) as Hn. rewrite Hload in Hn. unfold in_flight in Hn.
  destruct (filter is_sys (App.inflight s)) as [|pending l] eqn:F;
    [discriminate Hn|].
  assert (Hin : In pending (filter is_sys (App.inflight s)))
    by (rewrite F; left; reflexivity).
  apply filter_In in Hin as [Hin Hkind].
  destruct pending as [p | p | p | p]; try discriminate.
  apply In_nth_error in Hin as [i Hi]. exists i, p.
  split; [exact Hi|].
  pose proof (@nth_error_Forall _ _ _ _ _ (busy_shape Hb) Hi) as Hp.
  destruct Hp as [k [-> [Hok _]]]. split; [reflexivity|].
  intros data now now'. unfold App.step at 1. rewrite Hi. unfold App.wake.
  cbn [sent resume App.outcome]. rewrite Hok.
  cbn [App.systemInfo App.put_inflight]. rewrite Hinit.
  eexists. eexists. split; [reflexivity|]. split; [reflexivity|].
  split; reflexivity.
Qed.

(** C8.  Mounting sends the status request, and in every state the
    application can reach the log of requests holds exactly one request
    for [/api/websites/system_info/].  For as long as the panel is
    loading that request is in flight, and the response that settles it
    is what the panel stores and, once the header is clicked, shows
    expanded.  Over every run from the mount, at most one status response
    is delivered and the snapshot the panel holds is that response (none
    before it, or when the request was rejected); the panel then shows no
    error and, when expanded, lists one element per id of the response's
    [vectorized_databases], in order; the element of an id is the url of
    a site of the response's [websites] with that [vector_db_id] when
    there is one, and "Unknown website" when there is none. *)
Theorem status_fetched_once_and_listed :
  App.requested App.start = [wire GetSystemInfo; wire GetWebsites]
  /\ (forall s : App.State,
        App.reachable URL_parses s ->
        List.length (filter Spec.is_system_info (App.requested s)) = 1)
  /\ (forall s : App.State,
        App.reachable URL_parses s ->
        SystemInfo.isLoading (App.systemInfo s) = true ->
        exists (i : nat) (p : Paused SystemInfo.State),
          nth_error (App.inflight s) i = Some (App.InSystemInfo p)
          /\ wire (sent p) = wire GetSystemInfo
          /\ forall (data : SystemInfoData) (now now' : Z),
               exists s1 s2 : App.State,
                 App.step URL_parses now (App.Settle i (App.SystemInfoOk data)) s
                 = Some s1
                 /\ App.systemInfo s1 = loaded data false
                 /\ App.step URL_parses now' App.ToggleSystemInfo s1 = Some s2
                 /\ App.systemInfo s2 = loaded data true)
  /\ (forall (evs : list (Z * App.Event)) (s : App.State),
        App.run URL_parses evs App.start = Some s ->
        List.length (responses evs) <= 1
        /\ SystemInfo.systemInfo (App.systemInfo s) = head (responses evs)
        /\ forall data : SystemInfoData,
             head (responses evs) = Some data ->
             App.systemInfo s =
               loaded data (SystemInfo.isExpanded (App.systemInfo s))
             /\ (SystemInfo.isExpanded (App.systemInfo s) = true ->
                 exists details : SystemInfo.Details,
                   SystemInfo.render (App.systemInfo s) =
                     SystemInfo.Panel (truthy (ollama_running data))
                       (List.length (vectorized_databases data)) (Some details)
                   /\ Spec.listed (SystemInfo.databases details) =
                        map (SystemInfo.entry data) (vectorized_databases data)))
  /\ (forall (info : SystemInfoData) (dbId : jsval),
        ((exists w, In w (websites info) /\ vector_db_id w = dbId) ->
         exists w, In w (websites info) /\ vector_db_id w = dbId
                   /\ SystemInfo.entry info dbId = SystemInfo.Known (url w) dbId)
        /\ ((forall w, In w (websites info) -> vector_db_id w <> dbId) ->
            SystemInfo.entry info dbId = SystemInfo.UnknownWebsite dbId)).
Proof.
  split; [reflexivity|]. split; [apply SystemInfoFacts.status_requested_once|].
  split; [exact loading_fetch_in_flight|]. split.
  - intros evs s Hrun.
    pose proof (@SiteChangeFacts.run_reachable URL_parses evs _ _
                  (App.reach_start URL_parses) Hrun) as Hs.
    destruct (@run_status evs App.start s (App.reach_start URL_parses) Hrun)
      as [_ Hload].
    destruct (Hload eq_refl) as [Hone Hsnap].
    split; [exact Hone|]. split; [exact Hsnap|].
    intros data Hdata. rewrite Hdata in Hsnap.
    pose proof (phase_loaded (@reachable_phase s Hs) Hsnap) as Hloaded.
    split; [exact Hloaded|]. intros Hexp.
    apply SystemInfoFacts.expanded_panel_lists;
      try assumption; rewrite Hloaded; reflexivity.
  - intros info dbId.
    split; [apply SystemInfoFacts.entry_known | apply SystemInfoFacts.entry_unknown].
Qed.

End WithURL.
End StatusPanel.

(* ===================================================================== *)
(** ** The further statements, run on the scenarios *)
(* ===================================================================== *)

Module MoreExamples.
Import Scenario Scenario2 Scenario3 Flight.

(** A scrape of "https://example.com" is rejected with a message. *)
Lemma scrape_failure_scenario :
  URLInput.url (typed (lit "https://example.com")) <> []
  /\ accepts (lit "https://example.com") = true
  /\ exists k : AxiosError + ScrapeData -> Prog URLInput.State unit,
       snd (exec 0 (URLInput.handleSubmit accepts true
                      (typed (lit "https://example.com")))
              (typed (lit "https://example.com"))) =
         Some {| sent := PostScrape (lit "https://example.com"); resume := k |}
       /\ URLInput.error
            (fst (fst (exec 1 (k (inl unreachable_site)) URLInput.init))) =
          lit "Could not reach the website"
       /\ snd (fst (exec 1 (k (inl unreachable_site)) URLInput.init)) = [].
Proof.
  assert (Hne : URLInput.url (typed (lit "https://example.com")) <> [])
    by discriminate.
  split; [exact Hne|]. split; [reflexivity|].
  destruct (URLInputMore.scrape_failure_message accepts
              (typed (lit "https://example.com")) 0 Hne eq_refl)
    as [k [Hrun Hrest]].
  exists k. split; [exact Hrun|].
  destruct (Hrest unreachable_site URLInput.init 1%Z)
    as [_ [Hcalls [_ [_ [_ [Hmsg _]]]]]].
  cbv zeta in *. split; [|exact Hcalls].
  apply Hmsg; [reflexivity | discriminate].
Defined.

(** With a scrape in flight the form is busy and refuses a second
    submission. *)
Lemma scrape_single_flight_scenario :
  exists s : App.State,
    App.run accepts submitting App.start = Some s
    /\ in_flight is_url s = 1
    /\ App.step accepts 7 App.SubmitUrl s = None.
Proof.
  eexists. split; [reflexivity|].
  destruct (@EventLoopFacts.scrape_single_flight accepts _
              (@SiteChangeFacts.run_reachable accepts submitting _ _
                 (App.reach_start accepts) eq_refl))
    as [_ [Hbusy [_ Hrefuse]]].
  assert (Hone := proj1 Hbusy eq_refl).
  split; [exact Hone|]. apply (Hrefuse Hone 7%Z []).
Defined.

(** The scrape in flight succeeds: the site is selected, the roster is
    as it was. *)
Lemma scrape_success_scenario :
  exists (s : App.State) (p : Paused URLInput.State),
    App.run accepts submitting App.start = Some s
    /\ nth_error (App.inflight s) 2 = Some (App.InURLInput p)
    /\ exists (u : jsstring) (s' : App.State),
         App.step accepts 7 (App.Settle 2 (App.ScrapeOk five_pages)) s = Some s'
         /\ App.selectedProp s' =
              Some {| websiteId := JNum 11; vectorDbId := JNum 22;
                      sel_url := JStr u |}
         /\ App.chatBox s' = Spec.cleared (App.chatBox s)
         /\ App.vectorSelection s' = App.vectorSelection s.
Proof.
  eexists. eexists. split; [reflexivity|]. split; [reflexivity|].
  destruct (@EventLoopFacts.scrape_success_selects_site accepts _ 2 _
              five_pages 7%Z
              (@SiteChangeFacts.run_reachable accepts submitting _ _
                 (App.reach_start accepts) eq_refl) eq_refl)
    as [u [s' [_ [Hstep [Hsel [_ [Hchat [_ [_ [Hroster _]]]]]]]]]].
  exists u, s'. repeat split; assumption.
Defined.

(** The status has loaded; a click on the header expands the panel and
    nothing else. *)
Lemma status_frozen_scenario :
  exists s s' : App.State,
    App.run accepts status_loaded App.start = Some s
    /\ SystemInfo.isLoading (App.systemInfo s) = false
    /\ App.step accepts 20 App.ToggleSystemInfo s = Some s'
    /\ SystemInfo.systemInfo (App.systemInfo s') = Some snapshot
    /\ SystemInfo.isExpanded (App.systemInfo s') = true.
Proof.
  eexists. eexists. split; [reflexivity|]. split; [reflexivity|].
  split; [reflexivity|].
  destruct (@EventLoopFacts.status_snapshot_frozen accepts 20%Z
              App.ToggleSystemInfo _ _
              (@SiteChangeFacts.run_reachable accepts status_loaded _ _
                 (App.reach_start accepts) eq_refl) eq_refl eq_refl)
    as [Hinfo [_ [_ [Hexp _]]]].
  split; [exact Hinfo | exact Hexp].
Defined.

(** The roster has loaded; the user clicks the second row on screen,
    which is site B. *)
Lemma roster_click_scenario :
  exists s : App.State,
    App.run accepts roster_loaded App.start = Some s
    /\ nth_error (VectorSelection.displayed (App.vectorSelection s)) 1 = Some siteB
    /\ exists s' : App.State,
         App.step accepts 20 (App.ClickRow 1) s = Some s'
         /\ App.selectedProp s' =
              Some {| websiteId := JNum 2; vectorDbId := JNum 8;
                      sel_url := JStr (lit "https://b.example") |}
         /\ VectorSelection.selectedWebsite (App.vectorSelection s') = Some siteB.
Proof.
  eexists. split; [reflexivity|]. split; [reflexivity|].
  destruct (@EventLoopFacts.roster_click_selects accepts _ 1 siteB 20%Z
              (@SiteChangeFacts.run_reachable accepts roster_loaded _ _
                 (App.reach_start accepts) eq_refl) eq_refl)
    as [s' [Hstep [Hsel [_ [_ [_ [Hrow _]]]]]]].
  exists s'. repeat split; assumption.
Defined.

(** A failed delete sets the error; the other delete then succeeds and
    its re-fetch answers, and the roster still shows the error and no
    row. *)
Lemma roster_error_scenario :
  exists s s' : App.State,
    App.run accepts first_delete_fails App.start = Some s
    /\ VectorSelection.error (App.vectorSelection s) <> []
    /\ App.run accepts second_delete_succeeds s = Some s'
    /\ VectorSelection.websites (App.vectorSelection s') = [siteA]
    /\ VectorSelection.error (App.vectorSelection s') <> []
    /\ VectorSelection.displayed (App.vectorSelection s') = [].
Proof.
  eexists. eexists.
  assert (Hrun : App.run accepts first_delete_fails App.start = Some _)
    by (vm_compute; reflexivity).
  split; [exact Hrun|].
  match type of Hrun with
  | _ = Some ?s =>
      assert (Herr : VectorSelection.error (App.vectorSelection s) <> [])
        by (vm_compute; discriminate);
      assert (Hnext : App.run accepts second_delete_succeeds s = Some _)
        by (vm_compute; reflexivity)
  end.
  split; [exact Herr|]. split; [exact Hnext|].
  split; [vm_compute; reflexivity|].
  destruct (@RosterError.roster_error_is_sticky accepts second_delete_succeeds
              _ _
              (@SiteChangeFacts.run_reachable accepts first_delete_fails _ _
                 (App.reach_start accepts) Hrun) Herr Hnext)
    as [Hkept [Hnone _]].
  split; [exact Hkept | exact Hnone].
Defined.

(** The answer about site A arrives after the user has selected site B:
    it is the first entry of site B's transcript. *)
Lemma late_answer_scenario :
  exists (s : App.State) (p : Paused ChatBox.State),
    App.run accepts moved_on App.start = Some s
    /\ nth_error (App.inflight s) 1 = Some (App.InChatBox p)
    /\ option_map sel_url (App.selectedProp s) = Some (JStr (lit "https://b.example"))
    /\ ChatBox.messages (App.chatBox s) = []
    /\ exists s' : App.State,
         App.step accepts 60 (App.Settle 1 (App.ChatOk its_a_blog)) s = Some s'
         /\ map ChatBox.text (ChatBox.messages (App.chatBox s')) =
              [JStr (lit "It's a blog.")]
         /\ App.selectedWebsite s' = App.selectedWebsite s.
Proof.
  eexists. eexists.
  assert (Hrun : App.run accepts moved_on App.start = Some _)
    by (vm_compute; reflexivity).
  split; [exact Hrun|].
  match type of Hrun with
  | _ = Some ?s =>
      assert (Hchat : nth_error (App.inflight s) 1 = Some (App.InChatBox _))
        by (vm_compute; reflexivity)
  end.
  split; [exact Hchat|].
  split; [vm_compute; reflexivity|]. split; [vm_compute; reflexivity|].
  destruct (@EventLoopFacts.late_chat_answer accepts _ 1 _ 60%Z
              (@SiteChangeFacts.run_reachable accepts moved_on _ _
                 (App.reach_start accepts) Hrun) Hchat)
    as [Hok _].
  destruct (Hok its_a_blog) as [s' [Hstep [Htext [Hsel _]]]].
  exists s'. split; [exact Hstep|]. split; [|exact Hsel].
  rewrite Htext. vm_compute. reflexivity.
Defined.

(** While the question about site A is pending, the typing indicator
    shows and a chat request is in flight. *)
Lemma typing_scenario :
  exists s : App.State,
    App.run accepts asking_A App.start = Some s
    /\ ChatBox.isLoading (App.chatBox s) = true
    /\ 1 <= in_flight is_chat s.
Proof.
  eexists. split; [reflexivity|]. split; [reflexivity|].
  apply (@EventLoopFacts.typing_needs_request accepts _
           (@SiteChangeFacts.run_reachable accepts asking_A _ _
              (App.reach_start accepts) eq_refl) eq_refl).
Defined.

(** The roster has loaded; the user asks to delete site A and confirms. *)
Lemma delete_click_scenario :
  exists s : App.State,
    App.run accepts roster_loaded App.start = Some s
    /\ nth_error (VectorSelection.displayed (App.vectorSelection s)) 0 = Some siteA
    /\ exists s' : App.State,
         App.step accepts 20 (App.ClickDelete 0 true) s = Some s'
         /\ App.requested s' =
              App.requested s
              ++ [{| http_method := POST;
                     http_path := "/api/websites/delete_vectorized_data/";
                     http_body := [("vector_db_id"%string, JNum 7)] |}]
         /\ App.step accepts 30 (App.ClickDelete 0 true) s' = None.
Proof.
  eexists. split; [reflexivity|]. split; [reflexivity|].
  destruct (@RosterDelete.delete_click_request accepts _ 0 siteA 20%Z
              (@SiteChangeFacts.run_reachable accepts roster_loaded _ _
                 (App.reach_start accepts) eq_refl) eq_refl)
    as [_ Hclick].
  destruct (Hclick eq_refl) as [_ [s' [Hstep [Hlog _]]]].
  exists s'. split; [exact Hstep|]. split; [exact Hlog|].
  assert (Hs' : Some s' = App.step accepts 20 (App.ClickDelete 0 true)
                           (match App.run accepts roster_loaded App.start with
                            | Some s => s | None => App.start end))
    by (symmetry; exact Hstep).
  cbn in Hs'. injection Hs' as ->. reflexivity.
Defined.

(** The status arrives with a known and an orphaned database, and the
    user expands the panel. *)
Lemma status_scenario :
  exists s : App.State,
    App.run accepts status_expanded App.start = Some s
    /\ exists details : SystemInfo.Details,
         SystemInfo.render (App.systemInfo s) =
           SystemInfo.Panel true 2 (Some details)
         /\ Spec.listed (SystemInfo.databases details) =
              [SystemInfo.Known (JStr (lit "https://a.example")) (JNum 7);
               SystemInfo.UnknownWebsite (JNum 9)].
Proof.
  eexists.
  assert (Hrun : App.run accepts status_expanded App.start = Some _)
    by (vm_compute; reflexivity).
  split; [exact Hrun|].
  destruct (StatusPanel.status_fetched_once_and_listed accepts)
    as [_ [_ [_ [Hruns _]]]].
  destruct (Hruns status_expanded _ Hrun) as [_ [_ Hlisted]].
  destruct (Hlisted snapshot eq_refl) as [_ Hexpanded].
  destruct Hexpanded as [details [Hview Hitems]]; [vm_compute; reflexivity|].
  exists details. split; [exact Hview|]. rewrite Hitems. reflexivity.
Defined.

End MoreExamples.
